(** * Insteon device classes: a shallow embedding of [insteonDeviceClasses.py]

    The development follows the layout of the Python module: the helpers of
    the language that the module relies on, the serial channel to the power
    line modem (PLM), the two integrity codes, the three exchange functions
    ([StdCmd], [ExtCrc], [ExtChecksum]), [errorReporting], and the classes
    [dimmer] and [thermostat].

    Conventions of the embedding.
    - A Python 2 byte string is the list of its character codes
      ([pystr := list Z]); [chr] is partial, as in Python, where it raises
      [ValueError] outside [range(256)].
    - The serial port object is threaded explicitly.  It carries the answers
      the environment will give to the coming [read] calls and a
      chronological log of every call made on it.
    - An uncaught Python exception is the result [None] of a computation in
      the monad [IO]; the channel keeps what was done before the raise.
    - Of the calls on the port only [read] can fail here: the answers of the
      environment include a read that raises.  [write], [flushInput] and
      [flushOutput] are taken to succeed.  The module calls them outside its
      [try] blocks, so that an exception of the port in one of them would
      leave the call uncaught; such runs are not represented, and no
      statement below speaks of them.
    - [print] statements, the [verbose] arguments that only guard them and
      [time.sleep] have no effect on the channel or on the objects and are
      left out. *)

From Stdlib Require Import ZArith List Bool Lia String Ascii QArith.
From Stdlib Require Import DecimalString DecimalZ.
Import ListNotations.
Local Open Scope Z_scope.

(** ** Python helpers *)

Definition pystr := list Z.

(** [chr(i)]: defined on [range(256)] only. *)
Definition chr (i : Z) : option Z :=
  if (0 <=? i) && (i <? 256) then Some i else None.

(** [s[-n:]] for a positive literal [n]. *)
Definition lastn {A} (n : nat) (s : list A) : list A :=
  skipn (List.length s - n) s.

(** [s[a:b]] for non-negative literals [a <= b]. *)
Definition slice {A} (a b : nat) (s : list A) : list A :=
  firstn (b - a) (skipn a s).

(** [s[-1]]: the last element, [None] standing for [IndexError]. *)
Definition last_item {A} (s : list A) : option A :=
  nth_error s (List.length s - 1).

(** [s[i] == chr(c)] for an index that is in range. *)
Definition char_at_is (s : pystr) (i : nat) (c : Z) : bool :=
  match nth_error s i with
  | Some x => x =? c
  | None => false
  end.

Definition pystr_eqb (a b : pystr) : bool :=
  if list_eq_dec Z.eq_dec a b then true else false.

(** [sum(bytearray(s))] *)
Definition sum (s : pystr) : Z := fold_right Z.add 0 s.

(** [max(l)] and [min(l)] of a non-empty list of integers. *)
Definition py_max (l : list Z) : Z :=
  match l with
  | [] => 0
  | x :: r => fold_left Z.max r x
  end.

Definition py_min (l : list Z) : Z :=
  match l with
  | [] => 0
  | x :: r => fold_left Z.min r x
  end.

(** ** The serial channel *)

Inductive read_outcome : Type :=
| Data (bs : pystr)     (* the bytes the port has to offer before the timeout *)
| Raises.               (* the read raises *)

Inductive event : Type :=
| EvWrite (bs : pystr)
| EvRead (n : nat) (r : read_outcome)   (* bytes asked for, and the outcome *)
| EvFlushInput
| EvFlushOutput.

Record Serial : Type := mkSerial {
  pending : list read_outcome;   (* what the coming reads will meet *)
  log : list event               (* every call made so far, oldest first *)
}.

(** Computations on the channel that may raise. *)
Definition IO (A : Type) : Type := Serial -> option A * Serial.

Definition ret {A} (a : A) : IO A := fun ser => (Some a, ser).

Definition bind {A B} (c : IO A) (k : A -> IO B) : IO B :=
  fun ser =>
    match c ser with
    | (Some a, ser') => k a ser'
    | (None, ser') => (None, ser')
    end.

Definition raise {A} : IO A := fun ser => (None, ser).

(** [try: c  except: ...]: the exception becomes the value [None]. *)
Definition try {A} (c : IO A) : IO (option A) :=
  fun ser =>
    match c ser with
    | (Some a, ser') => (Some (Some a), ser')
    | (None, ser') => (Some None, ser')
    end.

(** A partial pure operation, raising on [None]. *)
Definition lift {A} (o : option A) : IO A :=
  match o with
  | Some a => ret a
  | None => raise
  end.

Declare Scope io_scope.
Delimit Scope io_scope with io.
Notation "x <- c ;; k" := (bind c (fun x => k))
  (at level 61, c at next level, right associativity) : io_scope.
Notation "' p <- c ;; k" := (bind c (fun x => let 'p := x in k))
  (at level 61, p pattern, c at next level, right associativity) : io_scope.
Notation "c ;;; k" := (bind c (fun _ => k))
  (at level 61, right associativity) : io_scope.
Local Open Scope io_scope.

Definition emit (e : event) (ser : Serial) : Serial :=
  mkSerial (pending ser) (log ser ++ [e]).

Definition write (bs : pystr) : IO unit :=
  fun ser => (Some tt, emit (EvWrite bs) ser).

Definition flushInput : IO unit :=
  fun ser => (Some tt, emit EvFlushInput ser).

Definition flushOutput : IO unit :=
  fun ser => (Some tt, emit EvFlushOutput ser).

(** [ser.read(n)]: at most [n] bytes; fewer when the timeout expires first,
    none when nothing is pending. *)
Definition read (n : nat) : IO pystr :=
  fun ser =>
    match pending ser with
    | [] => (Some [], mkSerial [] (log ser ++ [EvRead n (Data [])]))
    | Data bs :: rest =>
        (Some (firstn n bs),
         mkSerial rest (log ser ++ [EvRead n (Data (firstn n bs))]))
    | Raises :: rest => (None, mkSerial rest (log ser ++ [EvRead n Raises]))
    end.

(** ** FrameCodec *)

(** One turn of the inner loop of [CalcCrcStr]: the pair of [crcVal] and
    [byte] after the turn.  [crcVal] is an unbounded Python integer. *)
Definition crc_turn (st : Z * Z) : Z * Z :=
  let '(crcVal, byte) := st in
  let fb := Z.land byte 1 in
  let fb := if negb (Z.land crcVal 0x8000 =? 0) then Z.lxor fb 1 else fb in
  let fb := if negb (Z.land crcVal 0x4000 =? 0) then Z.lxor fb 1 else fb in
  let fb := if negb (Z.land crcVal 0x1000 =? 0) then Z.lxor fb 1 else fb in
  let fb := if negb (Z.land crcVal 0x0008 =? 0) then Z.lxor fb 1 else fb in
  let crcVal := Z.lor (Z.shiftl crcVal 1) fb in
  let byte := Z.shiftr byte 1 in
  (crcVal, byte).

(** [for iByte in range(8)] *)
Definition crc_byte (crcVal byte : Z) : Z :=
  fst (Nat.iter 8 crc_turn (crcVal, byte)).

(** [for iChar in range(len(dataStr))] *)
Definition crc_loop (dataStr : pystr) (crcVal : Z) : Z :=
  fold_left crc_byte dataStr crcVal.

Definition CalcCrcStr (dataStr : pystr) : pystr :=
  let crcVal := crc_loop dataStr 0 in
  let crcBytes := map (fun i => Z.land (Z.shiftr crcVal i) 0xff) [8; 0] in
  crcBytes.

(** The trailer of [ExtChecksum], line 213:
    [(((sum(bytearray(s)) % 256) ^ 0xff) + 0x01) % 256]. *)
Definition checksum (s : pystr) : Z :=
  (Z.lxor (sum s mod 256) 0xff + 0x01) mod 256.

(** ** TransportSession: the three exchange functions

    Each returns the pair [[response, error]] of the source. *)

Definition last_is (s : pystr) (c : Z) : bool :=
  match last_item s with
  | Some x => x =? c
  | None => false
  end.

(** The reading loop of [StdCmd]: [response = response + ser.read(11)],
    [nResponse] times. *)
Fixpoint read_responses (nResponse : nat) (response : pystr) : IO pystr :=
  match nResponse with
  | O => ret response
  | S k => r <- read 11 ;; read_responses k (response ++ r)
  end.

(** The marker loop of [StdCmd], lines 287-290. *)
Definition std_markers (response : pystr) (nResponse : nat) : bool :=
  fold_left
    (fun (stdErr : bool) (iResponse : nat) =>
       let iChar := (1 + 11 * iResponse)%nat in
       negb (char_at_is response iChar 0x50 && negb stdErr))
    (seq 0 nResponse) false.

Definition StdCmd (cmdStr : pystr) (nResponse : nat) : IO (pystr * bool) :=
  if negb (List.length cmdStr =? 8)%nat then ret ([], true) else
  write cmdStr ;;;
  r <- try (cmdEcho <- read 9 ;;
            response <- read_responses nResponse [] ;;
            ret (cmdEcho, response)) ;;
  match r with
  | None => ret ([], true)
  | Some (cmdEcho, response) =>
      if negb (List.length cmdEcho =? 9)%nat
         || negb (List.length response =? 11 * nResponse)%nat
      then ret ([], true)
      else
        let ackErr := negb (last_is cmdEcho 0x06) in
        let stdErr := std_markers response nResponse in
        if ackErr || stdErr then
          flushInput ;;; flushOutput ;;; ret ([], true)
        else ret (response, false)
  end.

Definition ExtCrc (cmdStr : pystr) (extreadback : bool) : IO (pystr * bool) :=
  if negb (List.length cmdStr =? 20)%nat then ret ([], true) else
  let crcStr := CalcCrcStr (lastn 14 cmdStr) in
  let tempStr := cmdStr ++ crcStr in
  write tempStr ;;;
  r <- try (cmdEcho <- read 23 ;;
            stdAck <- read 11 ;;
            response <- (if extreadback then read 25 else ret []) ;;
            ret (cmdEcho, stdAck, response)) ;;
  match r with
  | None => ret ([], true)
  | Some (cmdEcho, stdAck, response) =>
      let lr := if extreadback then negb (List.length response =? 25)%nat
                else false in
      if negb (List.length cmdEcho =? 23)%nat
         || negb (List.length stdAck =? 11)%nat || lr
      then ret ([], true)
      else
        let ackErr := negb (last_is cmdEcho 0x06) in
        let stdErr := negb (char_at_is stdAck 1 0x50
                            && pystr_eqb (lastn 2 stdAck) (slice 6 8 tempStr)) in
        let extErr := if extreadback then negb (char_at_is response 1 0x51)
                      else false in
        if ackErr || stdErr || extErr then
          flushInput ;;; flushOutput ;;; ret ([], true)
        else ret (response, false)
  end.

Definition ExtChecksum (cmdStr : pystr) : IO (pystr * bool) :=
  if negb (List.length cmdStr =? 21)%nat then ret ([], true) else
  let tempStr := cmdStr ++ [checksum (lastn 15 cmdStr)] in
  write tempStr ;;;
  r <- try (cmdEcho <- read 23 ;;
            stdAck <- read 11 ;;
            response <- read 25 ;;
            ret (cmdEcho, stdAck, response)) ;;
  match r with
  | None => ret ([], true)
  | Some (cmdEcho, stdAck, response) =>
      if negb (List.length cmdEcho =? 23)%nat
         || negb (List.length stdAck =? 11)%nat
         || negb (List.length response =? 25)%nat
      then ret ([], true)
      else
        let ackErr := negb (last_is cmdEcho 0x06) in
        let stdErr := negb (char_at_is stdAck 1 0x50
                            && pystr_eqb (lastn 2 stdAck) (slice 6 8 tempStr)) in
        let extErr := negb (char_at_is response 1 0x51) in
        if ackErr || stdErr || extErr then
          flushInput ;;; flushOutput ;;; ret ([], true)
        else ret (response, false)
  end.

(** ** ErrorStatusTracker

    [errorReporting] prints on the edges of the status and returns the
    error of the call. *)
Definition errorReporting (localError errorStatus : bool) : bool :=
  if localError then true else false.

(** ** Addresses *)

Definition null_address : list Z := [0; 0; 0].

(** [self.address == [0, 0, 0]] *)
Definition is_null (address : list Z) : bool :=
  if list_eq_dec Z.eq_dec address null_address then true else false.

(** The check of both constructors, lines 355-361 and 538-544. *)
Definition checked_address (address : list Z) : list Z :=
  if negb (List.length address =? 3)%nat then null_address
  else if (py_max address >? 255) || (py_min address <? 0) then null_address
  else address.

(** [chr(self.address[i])] *)
Definition address_chr (address : list Z) (i : nat) : IO Z :=
  a <- lift (nth_error address i) ;; lift (chr a).

(** The six leading characters of every frame:
    [chr(0x02) + chr(0x62) + chr(address[0]) + chr(address[1]) +
     chr(address[2]) + chr(flags)]. *)
Definition prefix (address : list Z) (flags : Z) : IO pystr :=
  a0 <- address_chr address 0 ;;
  a1 <- address_chr address 1 ;;
  a2 <- address_chr address 2 ;;
  ret [0x02; 0x62; a0; a1; a2; flags].

(** [ord(s[i])] and [ord(s[-1])] on a response whose length the exchange
    has checked, so that the index is in range. *)
Definition ord_at (s : pystr) (i : nat) : Z := nth i s 0.

Definition ord_last (s : pystr) : Z :=
  match last_item s with
  | Some x => x
  | None => 0
  end.

(** ** The level byte of [SetOn], line 382

    [int(round(level*2.55))] for an integer [level], computed as Python 2
    does in IEEE double precision.  The double nearest to 2.55 is
    [double_2_55 / 2^51], a little below 2.55; the product with [level] is
    rounded to 53 significant bits, halves to even; [round] then goes to the
    nearest integer, halves away from zero.  All values are numerators over
    [2^51].  (Beyond [2^53] a level is itself rounded when it becomes a
    double; the byte is then far outside a character either way.) *)
Definition double_2_55 : Z := 5742089524897382.

(** [n / 2^k] rounded to an integer, halves to even, for [n >= 0] and
    [k > 0]. *)
Definition round_half_even (n k : Z) : Z :=
  let q := Z.shiftr n k in
  let r := n - Z.shiftl q k in
  let h := Z.shiftl 1 (k - 1) in
  if r <? h then q
  else if h <? r then q + 1
  else if Z.even q then q else q + 1.

(** The double [level * 2.55] for [level >= 0], as a numerator over
    [2^51]. *)
Definition times_2_55 (level : Z) : Z :=
  let p := level * double_2_55 in
  let k := Z.log2 p + 1 - 53 in
  if k <=? 0 then p else Z.shiftl (round_half_even p k) k.

(** [int(round(x))] for the double [x = n / 2^51 >= 0]. *)
Definition round_away (n : Z) : Z := (n + 2 ^ 50) / 2 ^ 51.

Definition SetOn_byte (level : Z) : Z :=
  if level <? 0 then - round_away (times_2_55 (- level))
  else round_away (times_2_55 level).

(** ** DimmerController *)

Module dimmer.

Record t : Type := mk {
  address : list Z;
  lastSetOn : bool;
  lastSetLevel : Z;
  lastGetOn : bool;
  lastGetLevel : Z;
  manualOverride : bool;
  errorStatus : bool;
  verbose : bool
}.

Definition set_errorStatus (self : t) (e : bool) : t :=
  mk (address self) (lastSetOn self) (lastSetLevel self) (lastGetOn self)
     (lastGetLevel self) (manualOverride self) e (verbose self).

(** The three assignments after a successful [SetOn] or [SetOff]. *)
Definition set_commanded (self : t) (on : bool) (level : Z) : t :=
  mk (address self) on level (lastGetOn self) (lastGetLevel self)
     false (errorStatus self) (verbose self).

Definition set_observed (self : t) (on : bool) (level : Z) : t :=
  mk (address self) (lastSetOn self) (lastSetLevel self) on level
     (manualOverride self) (errorStatus self) (verbose self).

Definition set_manualOverride (self : t) (m : bool) : t :=
  mk (address self) (lastSetOn self) (lastSetLevel self) (lastGetOn self)
     (lastGetLevel self) m (errorStatus self) (verbose self).

(** The class attributes give the initial values of the fields. *)
Definition __init__ (address : list Z) : t :=
  mk (checked_address address) false 0 false 0 false false false.

(** [int(round(x/2.55))] for a character code [x].  The quotient
    [x/2.55 = 20x/51] is never half way between two integers (that would
    need [40x = 51(2k+1)], even against odd) and stays at least [1/102]
    away from it, far more than the error of the double division, so the
    rounding is the one of the exact quotient: [floor(20x/51 + 1/2)]. *)
Definition level_of_byte (x : Z) : Z := (40 * x + 51) / 102.

(** The test of lines 453-454. *)
Definition override_test (self : t) : bool :=
  negb (Bool.eqb (lastGetOn self) (lastSetOn self))
  || (Z.abs (lastGetLevel self - lastSetLevel self) >? 2).

Section SetOn.

(** [level_byte level] stands for [int(round(level*2.55))].  [SetOn] is
    written over any such function; for an integer level Python computes
    [SetOn_byte] above, in double precision (127 at level 50, where the
    exact product is 127.5), and the statements that depend on the value of
    the byte take that function. *)
Variable level_byte : Z -> Z.

Definition SetOn (self : t) (level : Z) : IO t :=
  if is_null (address self) then ret self
  else
    flushInput ;;;
    flushOutput ;;;
    pre <- prefix (address self) 15 ;;
    lv <- lift (chr (level_byte level)) ;;
    let tempStr := pre ++ [17; lv] in
    ' (response, localError) <- StdCmd tempStr 1 ;;
    let self := set_errorStatus self
                  (errorReporting localError (errorStatus self)) in
    if negb localError then ret (set_commanded self true level)
    else ret self.

End SetOn.

Definition SetOff (self : t) : IO t :=
  if is_null (address self) then ret self
  else
    flushInput ;;;
    flushOutput ;;;
    pre <- prefix (address self) 15 ;;
    let tempStr := pre ++ [19; 0] in
    ' (response, localError) <- StdCmd tempStr 1 ;;
    let self := set_errorStatus self
                  (errorReporting localError (errorStatus self)) in
    if negb localError then ret (set_commanded self false 0)
    else ret self.

Definition GetState (self : t) : IO t :=
  if is_null (address self) then ret self
  else
    flushInput ;;;
    flushOutput ;;;
    pre <- prefix (address self) 15 ;;
    let tempStr := pre ++ [25; 0] in
    ' (response, localError) <- StdCmd tempStr 1 ;;
    let self := set_errorStatus self
                  (errorReporting localError (errorStatus self)) in
    if negb localError then
      x <- lift (last_item response) ;;
      let self := set_observed self (negb (x =? 0)) (level_of_byte x) in
      if override_test self then ret (set_manualOverride self true)
      else ret self
    else ret self.

End dimmer.

(** ** Text cells of the schedule table

    The rows of a schedule are lists of text cells, as [GetSchedule] builds
    them with [str] and [format] and as [SetSchedule] reads them with
    [split] and [int]. *)

(** [str(n)] for an integer. *)
Definition py_str (n : Z) : string := NilZero.string_of_int (Z.to_int n).

Definition is_space (c : ascii) : bool :=
  let n := nat_of_ascii c in
  ((n =? 32) || ((9 <=? n) && (n <=? 13)))%nat.

Definition digit_of (c : ascii) : option Z :=
  let n := Z.of_nat (nat_of_ascii c) in
  if (48 <=? n) && (n <=? 57) then Some (n - 48) else None.

Fixpoint all_space (s : string) : bool :=
  match s with
  | EmptyString => true
  | String c r => is_space c && all_space r
  end.

Fixpoint lstrip (s : string) : string :=
  match s with
  | EmptyString => EmptyString
  | String c r => if is_space c then lstrip r else s
  end.

(** The digits after the first one, up to trailing blanks. *)
Fixpoint more_digits (acc : Z) (s : string) : option Z :=
  match s with
  | EmptyString => Some acc
  | String c r =>
      match digit_of c with
      | Some d => more_digits (acc * 10 + d) r
      | None => if all_space s then Some acc else None
      end
  end.

Definition unsigned_literal (s : string) : option Z :=
  match s with
  | EmptyString => None
  | String c r =>
      match digit_of c with
      | Some d => more_digits d r
      | None => None
      end
  end.

(** [int(s)] on a text cell: a decimal literal with an optional sign, blanks
    allowed around it; [None] stands for [ValueError].  (Forms that Python 2
    accepts beyond these, such as a blank between sign and digits, are read
    as errors here.) *)
Definition py_int (s : string) : option Z :=
  match lstrip s with
  | String "-"%char r => option_map Z.opp (unsigned_literal r)
  | String "+"%char r => unsigned_literal r
  | s' => unsigned_literal s'
  end.

(** [s.split(":")] *)
Fixpoint split_colon (s : string) : list string :=
  match s with
  | EmptyString => [EmptyString]
  | String c r =>
      if Ascii.eqb c ":"%char then EmptyString :: split_colon r
      else match split_colon r with
           | p :: ps => String c p :: ps
           | [] => [String c EmptyString]
           end
  end.

(** [[h, m] = [int(a) for a in cell.split(":")[0:2]]] *)
Definition parse_hm (cell : string) : option (Z * Z) :=
  match firstn 2 (split_colon cell) with
  | [a; b] =>
      match py_int a, py_int b with
      | Some h, Some m => Some (h, m)
      | _, _ => None
      end
  | _ => None
  end.

(** ["{0:d}:{1:0>2d}:00".format(h, m)] *)
Definition tfmt (h m : Z) : string :=
  let ms := py_str m in
  (py_str h ++ ":"
   ++ (if (String.length ms <? 2)%nat then "0" ++ ms else ms) ++ ":00")%string.

Definition obind {A B} (o : option A) (k : A -> option B) : option B :=
  match o with
  | Some a => k a
  | None => None
  end.

(** [chr(int(schedRow[i]))] *)
Definition cell_chr (schedRow : list string) (i : nat) : option Z :=
  obind (nth_error schedRow i) (fun cell => obind (py_int cell) chr).

(** The packing of one period in [SetSchedule], lines 820-825: from the
    three cells to [timebyte + coolbyte + heatbyte].  [m/15] is the floor
    division of Python 2 integers. *)
Definition pack_cells (time cool heat : string) : option pystr :=
  obind (parse_hm time) (fun '(h, m) =>
  obind (chr (h * 4 + m / 15)) (fun timebyte =>
  obind (obind (py_int cool) chr) (fun coolbyte =>
  obind (obind (py_int heat) chr) (fun heatbyte =>
  Some [timebyte; coolbyte; heatbyte])))).

Definition pack_period (schedRow : list string) (iPeriod : nat)
  : option pystr :=
  let iCol := (iPeriod * 3 + 5)%nat in
  obind (nth_error schedRow iCol) (fun time =>
  obind (nth_error schedRow (iCol + 1)) (fun cool =>
  obind (nth_error schedRow (iCol + 2)) (fun heat =>
  pack_cells time cool heat))).

(** The unpacking of one period in [GetSchedule], lines 773-778: from the
    three bytes to the three cells.  For a character code [b],
    [t = b/4.0] is exact, [h = int(t)] is [b / 4] and
    [m = int((t - h) * 60)] is [(b mod 4) * 15]. *)
Definition unpack_bytes (timebyte coolbyte heatbyte : Z) : list string :=
  let h := timebyte / 4 in
  let m := (timebyte mod 4) * 15 in
  [tfmt h m; py_str coolbyte; py_str heatbyte].

Definition unpack_period (response : pystr) (iPeriod : nat) : list string :=
  unpack_bytes (ord_at response (11 + iPeriod * 3))
               (ord_at response (12 + iPeriod * 3))
               (ord_at response (13 + iPeriod * 3)).

(** [for a in l: s = f(s, a)] in [IO]. *)
Fixpoint foldM {A S} (f : S -> A -> IO S) (l : list A) (s : S) : IO S :=
  match l with
  | [] => ret s
  | a :: r => s' <- f s a ;; foldM f r s'
  end.

(** ** ThermostatController *)

Module thermostat.

Record t : Type := mk {
  address : list Z;
  mode : Z;
  modeText : string;
  targetHeat : Z;
  targetCool : Z;
  actualTemp : Q;
  actualHumi : Z;
  schedule : list (list string);
  errorStatus : bool;
  verbose : bool
}.

Definition set_mode (self : t) (m : Z) (txt : string) : t :=
  mk (address self) m txt (targetHeat self) (targetCool self)
     (actualTemp self) (actualHumi self) (schedule self) (errorStatus self)
     (verbose self).

Definition set_targets (self : t) (heat cool : Z) : t :=
  mk (address self) (mode self) (modeText self) heat cool
     (actualTemp self) (actualHumi self) (schedule self) (errorStatus self)
     (verbose self).

Definition set_actualHumi (self : t) (h : Z) : t :=
  mk (address self) (mode self) (modeText self) (targetHeat self)
     (targetCool self) (actualTemp self) h (schedule self) (errorStatus self)
     (verbose self).

Definition set_actualTemp (self : t) (q : Q) : t :=
  mk (address self) (mode self) (modeText self) (targetHeat self)
     (targetCool self) q (actualHumi self) (schedule self) (errorStatus self)
     (verbose self).

Definition set_schedule (self : t) (s : list (list string)) : t :=
  mk (address self) (mode self) (modeText self) (targetHeat self)
     (targetCool self) (actualTemp self) (actualHumi self) s
     (errorStatus self) (verbose self).

Definition set_errorStatus (self : t) (e : bool) : t :=
  mk (address self) (mode self) (modeText self) (targetHeat self)
     (targetCool self) (actualTemp self) (actualHumi self) (schedule self)
     e (verbose self).

Definition __init__ (address : list Z) : t :=
  mk (checked_address address) 0x08 "unknown" 0 0 0%Q 0 [] false false.

Definition modeTextArray : list string :=
  ["Off"; "Heat"; "Cool"; "Auto"; "Fan"; "Program"; "Program Heat";
   "Program Cool"; "Unknown"]%string.

Definition zeros (n : nat) : pystr := repeat 0 n.

(** *** GetState, one definition for each of its four exchanges

    Each takes the object and [cumError] and gives them back. *)

(** Lines 563-592: the mode. *)
Definition get_mode (preStr : pystr) (st : t * bool) : IO (t * bool) :=
  let '(self, cumError) := st in
  let tempStr := preStr ++ [0x6B; 0x02] in
  ' (response, localError) <- StdCmd tempStr 1 ;;
  let cumError := localError || cumError in
  let responseMode := match last_item response with
                      | Some x => x
                      | None => 9
                      end in
  if negb localError && (responseMode <? 8) && (responseMode >=? 0) then
    ret (set_mode self responseMode
           (nth (Z.to_nat responseMode) modeTextArray EmptyString), cumError)
  else
    flushInput ;;; flushOutput ;;; ret (self, true).

(** Lines 594-610: the two set points; [int(float(b)/2.0 + 0.5)] is exact
    in doubles and equals [(b + 1) / 2] for a character code [b]. *)
Definition get_setpoints (preStr : pystr) (st : t * bool) : IO (t * bool) :=
  let '(self, cumError) := st in
  let tempStr := preStr ++ [0x6A; 0x20] in
  ' (response, localError) <- StdCmd tempStr 2 ;;
  let cumError := localError || cumError in
  let responseHeat := firstn 11 response in
  let responseCool := skipn 11 response in
  if negb localError then
    ret (set_targets self ((ord_last responseHeat + 1) / 2)
                          ((ord_last responseCool + 1) / 2), cumError)
  else
    flushInput ;;; flushOutput ;;; ret (self, cumError).

(** Lines 612-624: the humidity. *)
Definition get_humidity (preStr : pystr) (st : t * bool) : IO (t * bool) :=
  let '(self, cumError) := st in
  let tempStr := preStr ++ [0x6A; 0x60] in
  ' (response, localError) <- StdCmd tempStr 1 ;;
  let cumError := localError || cumError in
  if negb localError then
    ret (set_actualHumi self (ord_last response), cumError)
  else
    flushInput ;;; flushOutput ;;; ret (self, cumError).

(** Lines 626-645: the ambient temperature, in tenths of a degree. *)
Definition get_temperature (preStr : pystr) (st : t * bool) : IO (t * bool) :=
  let '(self, cumError) := st in
  let preExt := removelast preStr ++ [0x1F] in
  let extCmdData := 0x2E :: zeros 14 in
  let tempStr := preExt ++ extCmdData in
  ' (response, localError) <- ExtChecksum tempStr ;;
  let cumError := localError || cumError in
  if negb localError then
    ret (set_actualTemp self
           (Qmake (ord_at response 13 * 256 + ord_at response 14) 10),
         cumError)
  else
    flushInput ;;; flushOutput ;;; ret (self, cumError).

Definition GetState (self : t) : IO t :=
  if is_null (address self) then ret self
  else
    flushInput ;;;
    flushOutput ;;;
    let cumError := false in
    preStr <- prefix (address self) 0x0F ;;
    st <- get_mode preStr (self, cumError) ;;
    st <- get_setpoints preStr st ;;
    st <- get_humidity preStr st ;;
    ' (self, cumError) <- get_temperature preStr st ;;
    ret (set_errorStatus self (errorReporting cumError (errorStatus self))).

(** [UpSetPoint] and [DownSetPoint] differ in the command byte only. *)
Definition nudge (cmd1 : Z) (self : t) : IO t :=
  if is_null (address self) then ret self
  else
    flushInput ;;;
    flushOutput ;;;
    pre <- prefix (address self) 15 ;;
    let tempStr := pre ++ [cmd1; 0] in
    ' (response, localError) <- StdCmd tempStr 1 ;;
    ret (set_errorStatus self (errorReporting localError (errorStatus self))).

Definition UpSetPoint (self : t) : IO t := nudge 0x15 self.

Definition DownSetPoint (self : t) : IO t := nudge 0x16 self.

(** *** GetSchedule *)

(** The body of [for iDay in range(7)], lines 728-782. *)
Definition get_day (prefixStr : pystr) (deviceId zone : Z)
  (st : bool * list (list string)) (iDay : nat)
  : IO (bool * list (list string)) :=
  let '(cumError, schedTable) := st in
  let scheduleMode := 7 in
  let cmd2 := 0x0a + Z.of_nat iDay * 2 in
  let tempStr := prefixStr ++ [0x2e; cmd2] ++ zeros 12 in
  ' (response, localError) <- ExtCrc tempStr true ;;
  let cumError := localError || cumError in
  let cmdCheck :=
    if negb localError then ord_at response 10 =? cmd2 + 1 else false in
  let timeCheck :=
    if negb localError then
      (ord_at response 11 <? 96) && (ord_at response 14 <? 96)
      && (ord_at response 17 <? 96) && (ord_at response 20 <? 96)
    else false in
  if negb cumError && cmdCheck && timeCheck then
    let scheduleId :=
      Z.of_nat iDay + 1 + (scheduleMode - 1) * 7 + 49 * zone in
    let schedLine :=
      [py_str scheduleId; py_str deviceId; py_str zone; py_str scheduleMode;
       py_str (Z.of_nat iDay)]
      ++ flat_map (unpack_period response) (seq 0 4) in
    ret (cumError, schedTable ++ [schedLine])
  else ret (true, schedTable).

Definition GetSchedule (self : t) (deviceId zone : Z) : IO t :=
  if is_null (address self) then ret self
  else
    flushInput ;;;
    flushOutput ;;;
    prefixStr <- prefix (address self) 0x1F ;;
    ' (cumError, schedTable) <-
      foldM (get_day prefixStr deviceId zone) (seq 0 7) (false, []) ;;
    let self := set_errorStatus self
                  (errorReporting cumError (errorStatus self)) in
    if negb cumError then ret (set_schedule self schedTable)
    else ret self.

(** *** SetSchedule *)

(** [data1Thru12] of one row, lines 818-825. *)
Definition pack_row (schedRow : list string) : option pystr :=
  fold_left
    (fun data1Thru12 iPeriod =>
       obind data1Thru12 (fun d =>
       obind (pack_period schedRow iPeriod) (fun p => Some (d ++ p))))
    (seq 0 4) (Some []).

(** The body of [for schedRow in schedTable], lines 816-831. *)
Definition set_day (prefixStr : pystr) (cumError : bool)
  (schedRow : list string) : IO bool :=
  day <- lift (obind (nth_error schedRow 4) py_int) ;;
  cmd2 <- lift (chr (0x03 + day)) ;;
  data1Thru12 <- lift (pack_row schedRow) ;;
  let tempStr := prefixStr ++ [0x2e; cmd2] ++ data1Thru12 in
  ' (response, localError) <- ExtCrc tempStr false ;;
  ret (localError || cumError).

Definition SetSchedule (self : t) (schedTable : list (list string)) : IO t :=
  if is_null (address self) then ret self
  else if negb (List.length schedTable =? 7)%nat then ret self
  else
    flushInput ;;;
    flushOutput ;;;
    prefixStr <- prefix (address self) 0x1F ;;
    cumError <- foldM (set_day prefixStr) schedTable false ;;
    let self := set_errorStatus self
                  (errorReporting cumError (errorStatus self)) in
    if negb cumError then ret (set_schedule self schedTable)
    else ret self.

(** *** SetMode *)

Definition SetMode (self : t) (mode : Z) : IO t :=
  if is_null (address self) then ret self
  else if (mode <? 4) || (mode >? 10) then ret self
  else
    flushInput ;;;
    flushOutput ;;;
    prefixStr <- prefix (address self) 0x1F ;;
    cmd2 <- lift (chr mode) ;;
    let tempStr := prefixStr ++ [0x6B; cmd2] ++ zeros 13 in
    ' (response, localError) <- ExtChecksum tempStr ;;
    ret (set_errorStatus self (errorReporting localError (errorStatus self))).

End thermostat.

(** ** Calls from outside: one operation, and sequences of them *)

Inductive dimmer_op : Type :=
| DSetOn (level : Z)
| DSetOff
| DGetState.

Definition dimmer_call (level_byte : Z -> Z) (self : dimmer.t)
  (op : dimmer_op) : IO dimmer.t :=
  match op with
  | DSetOn level => dimmer.SetOn level_byte self level
  | DSetOff => dimmer.SetOff self
  | DGetState => dimmer.GetState self
  end.

Inductive thermostat_op : Type :=
| TGetState
| TUpSetPoint
| TDownSetPoint
| TGetSchedule (deviceId zone : Z)
| TSetSchedule (schedTable : list (list string))
| TSetMode (mode : Z).

Definition thermostat_call (self : thermostat.t) (op : thermostat_op)
  : IO thermostat.t :=
  match op with
  | TGetState => thermostat.GetState self
  | TUpSetPoint => thermostat.UpSetPoint self
  | TDownSetPoint => thermostat.DownSetPoint self
  | TGetSchedule deviceId zone => thermostat.GetSchedule self deviceId zone
  | TSetSchedule schedTable => thermostat.SetSchedule self schedTable
  | TSetMode mode => thermostat.SetMode self mode
  end.

(** Any number of calls in a row on one object. *)
Definition dimmer_calls (level_byte : Z -> Z) (self : dimmer.t)
  (ops : list dimmer_op) : IO dimmer.t :=
  foldM (dimmer_call level_byte) ops self.

Definition thermostat_calls (self : thermostat.t) (ops : list thermostat_op)
  : IO thermostat.t :=
  foldM thermostat_call ops self.

(** ** Vocabulary of the statements *)

(** A valid address: three integers, each in [0..255]. *)
Definition valid_address (address : list Z) : Prop :=
  List.length address = 3%nat /\ Forall (fun a => 0 <= a <= 255) address.

Definition is_flush (e : event) : bool :=
  match e with
  | EvFlushInput | EvFlushOutput => true
  | _ => false
  end.

(** The flushes of a stretch of the log, in order. *)
Definition flushes (evs : list event) : list event := filter is_flush evs.

(** The frames written in a stretch of the log, in order. *)
Definition writes (evs : list event) : list pystr :=
  flat_map (fun e => match e with EvWrite bs => [bs] | _ => [] end) evs.

(** A read that came back with as many bytes as were asked for. *)
Definition read_full (e : event) : bool :=
  match e with
  | EvRead n (Data bs) => (List.length bs =? n)%nat
  | EvRead n Raises => false
  | _ => true
  end.

(** The checks behind the round trip of the schedule cells: [str] then
    [int] on an integer, and the time format then its parsing on a time
    byte. *)
Definition reads_back (z : Z) : bool :=
  match py_int (py_str z) with
  | Some v => v =? z
  | None => false
  end.

Definition time_reads_back (b : Z) : bool :=
  match parse_hm (tfmt (b / 4) (b mod 4 * 15)) with
  | Some (h, m) => (h =? b / 4) && (m =? b mod 4 * 15)
  | None => false
  end.

(** The reference algorithm for the CRC, written from its description: a
    16-bit accumulator, the bits of each byte least significant first, the
    feedback bit flipped in turn by the accumulator bits 15, 14, 12 and 3,
    then shifted in at bit 0; the result is emitted high byte first. *)
Definition reference_feedback (acc : Z) (bit : bool) : bool :=
  let fb := bit in
  let fb := if Z.testbit acc 15 then negb fb else fb in
  let fb := if Z.testbit acc 14 then negb fb else fb in
  let fb := if Z.testbit acc 12 then negb fb else fb in
  let fb := if Z.testbit acc 3 then negb fb else fb in
  fb.

Definition reference_shift (acc : Z) (bit : bool) : Z :=
  (2 * acc + Z.b2z (reference_feedback acc bit)) mod 2 ^ 16.

Definition reference_byte (acc byte : Z) : Z :=
  fold_left (fun acc i => reference_shift acc (Z.testbit byte (Z.of_nat i)))
            (seq 0 8) acc.

Definition reference_crc (data : pystr) : pystr :=
  let acc := fold_left reference_byte data 0 in
  [acc / 256; acc mod 256].

Definition is_read (e : event) : bool :=
  match e with
  | EvRead _ _ => true
  | _ => false
  end.

(** What one [read] does to the channel. *)
Inductive read_result (n : nat) (ser : Serial)
  : option pystr * Serial -> Prop :=
| read_data (bs : pystr) (ser' : Serial) :
    (List.length bs <= n)%nat ->
    log ser' = log ser ++ [EvRead n (Data bs)] ->
    read_result n ser (Some bs, ser')
| read_raises (ser' : Serial) :
    log ser' = log ser ++ [EvRead n Raises] ->
    read_result n ser (None, ser').

(** The flushes of an exchange that ended in error, over the events [evs]
    that follow its write: both buffers, input first, as the last two
    events and only there, when every read came back complete; none at all
    otherwise. *)
Definition flushed_iff_reads_full (evs : list event) : Prop :=
  if forallb read_full evs
  then exists pre, evs = pre ++ [EvFlushInput; EvFlushOutput]
                   /\ flushes pre = []
  else flushes evs = [].

(** The outcome of an exchange that wrote [frame] on [ser]: either the
    response, of length [full], after complete reads and no flush; or the
    error with an empty response. *)
Inductive exchanged (frame : pystr) (full : nat) (ser : Serial)
  : option (pystr * bool) * Serial -> Prop :=
| exchanged_ok (response : pystr) (ser' : Serial) (evs : list event) :
    log ser' = log ser ++ EvWrite frame :: evs ->
    writes evs = [] ->
    flushes evs = [] ->
    forallb read_full evs = true ->
    List.length response = full ->
    exchanged frame full ser (Some (response, false), ser')
| exchanged_error (ser' : Serial) (evs : list event) :
    log ser' = log ser ++ EvWrite frame :: evs ->
    writes evs = [] ->
    flushed_iff_reads_full evs ->
    exchanged frame full ser (Some ([], true), ser').

(** The three exchanges, as one family. *)
Inductive exchange : Type :=
| XStdCmd (cmdStr : pystr) (nResponse : nat)
| XExtCrc (cmdStr : pystr) (extreadback : bool)
| XExtChecksum (cmdStr : pystr).

Definition run_exchange (x : exchange) : IO (pystr * bool) :=
  match x with
  | XStdCmd cmdStr nResponse => StdCmd cmdStr nResponse
  | XExtCrc cmdStr extreadback => ExtCrc cmdStr extreadback
  | XExtChecksum cmdStr => ExtChecksum cmdStr
  end.

(** The frame an exchange writes and the length of a good response, when
    the command has the length the exchange asks for. *)
Definition exchange_frame (x : exchange) : option (pystr * nat) :=
  match x with
  | XStdCmd cmdStr nResponse =>
      if (List.length cmdStr =? 8)%nat
      then Some (cmdStr, (11 * nResponse)%nat) else None
  | XExtCrc cmdStr extreadback =>
      if (List.length cmdStr =? 20)%nat
      then Some (cmdStr ++ CalcCrcStr (lastn 14 cmdStr),
                 if extreadback then 25%nat else 0%nat)
      else None
  | XExtChecksum cmdStr =>
      if (List.length cmdStr =? 21)%nat
      then Some (cmdStr ++ [checksum (lastn 15 cmdStr)], 25%nat) else None
  end.

(** ** Frames and replies of the worked examples *)

(** The dimmer's level request to the device 11.22.33. *)
Definition level_request : pystr :=
  [0x02; 0x62; 0x11; 0x22; 0x33; 0x0F; 0x19; 0x00].

(** An 11-byte segment of the right size whose marker is 0x51, not 0x50. *)
Definition misplaced_ack : pystr :=
  [0x02; 0x51; 0x11; 0x22; 0x33; 0x44; 0x55; 0x66; 0x2B; 0x00; 0xBA].

(** The channel about to give the echo and that segment, and the channel
    after [StdCmd] has run on it. *)
Definition misplaced_reply : Serial :=
  mkSerial [Data (level_request ++ [0x06]); Data misplaced_ack] [].

Definition after_misplaced_reply : Serial :=
  mkSerial []
    [EvWrite level_request; EvRead 9 (Data (level_request ++ [0x06]));
     EvRead 11 (Data misplaced_ack); EvFlushInput; EvFlushOutput].

(** ** Worked examples: a dimmer, a thermostat and scripted replies *)

(** A standard 11-byte segment from the device 11.22.33, with marker 0x50
    and [last] as its last byte. *)
Definition std_ack (last : Z) : pystr :=
  [0x02; 0x50; 0x11; 0x22; 0x33; 0x44; 0x55; 0x66; 0x2B; 0x00; last].

(** The replies to one standard command: its echo with the ACK, then the
    segments. *)
Definition std_reply (cmdStr : pystr) (acks : list pystr)
  : list read_outcome :=
  Data (cmdStr ++ [0x06]) :: map Data acks.

(** A dimmer at 11.22.33, and the replies to [SetOff], to a [GetState]
    that sees the light fully on and to a [GetState] that sees it off. *)
Definition hall_dimmer : dimmer.t := dimmer.__init__ [0x11; 0x22; 0x33].

Definition off_on_off_replies : Serial :=
  mkSerial
    (std_reply [0x02; 0x62; 0x11; 0x22; 0x33; 0x0F; 0x13; 0x00] [std_ack 0]
     ++ std_reply level_request [std_ack 0xFF]
     ++ std_reply level_request [std_ack 0x00])
    [].

(** A thermostat at 11.22.33 in mode Cool, and complete, well-formed
    replies to the four exchanges of its [GetState], the first of which
    carries [modeByte]: set points 18 and 24, humidity 40, 21.5 degrees. *)
Definition cool_thermostat : thermostat.t :=
  thermostat.mk [0x11; 0x22; 0x33] 2 "Cool" 18 24 (215 # 10) 40 [] false false.

Definition thermostat_pre : pystr := [0x02; 0x62; 0x11; 0x22; 0x33; 0x0F].

Definition thermostat_ext : pystr :=
  [0x02; 0x62; 0x11; 0x22; 0x33; 0x1F] ++ 0x2E :: thermostat.zeros 14.

Definition state_replies (modeByte : Z) : Serial :=
  mkSerial
    (std_reply (thermostat_pre ++ [0x6B; 0x02]) [std_ack modeByte]
     ++ std_reply (thermostat_pre ++ [0x6A; 0x20]) [std_ack 36; std_ack 48]
     ++ std_reply (thermostat_pre ++ [0x6A; 0x60]) [std_ack 40]
     ++ [Data (thermostat_ext ++ [checksum (lastn 15 thermostat_ext); 0x06]);
         Data [0x02; 0x50; 0x11; 0x22; 0x33; 0x44; 0x55; 0x66; 0x2B; 0x2E; 0x00];
         Data ([0x02; 0x51; 0x11; 0x22; 0x33; 0x44; 0x55; 0x66; 0x1B; 0x2E;
                0x00; 0x00; 0x01] ++ [0x00; 0xD7] ++ thermostat.zeros 10)])
    [].

(** The modes a response byte can name. *)
Definition mode_names : list (Z * string) :=
  [(0, "Off"); (1, "Heat"); (2, "Cool"); (3, "Auto"); (4, "Fan");
   (5, "Program"); (6, "Program Heat"); (7, "Program Cool")]%string.

(** ** Worked examples: well-formed replies to the three exchanges *)

(** The answer to the dimmer's level request, light fully on, and the
    channel after [StdCmd] has taken it. *)
Definition level_reply : Serial :=
  mkSerial [Data (level_request ++ [0x06]); Data (std_ack 0xFF)] [].

Definition after_level_reply : Serial :=
  mkSerial []
    [EvWrite level_request; EvRead 9 (Data (level_request ++ [0x06]));
     EvRead 11 (Data (std_ack 0xFF))].

(** The acknowledgement of an extended command [cmd1 cmd2] by the device
    11.22.33. *)
Definition ext_ack (cmd1 cmd2 : Z) : pystr :=
  [0x02; 0x50; 0x11; 0x22; 0x33; 0x44; 0x55; 0x66; 0x2B; cmd1; cmd2].

(** The request for the schedule of day [iDay], as [GetSchedule] builds it,
    and a response of 25 bytes that carries the twelve bytes [data]. *)
Definition day_request (iDay : Z) : pystr :=
  [0x02; 0x62; 0x11; 0x22; 0x33; 0x1F; 0x2E; 0x0A + iDay * 2]
  ++ thermostat.zeros 12.

Definition day_response (iDay : Z) (data : pystr) : pystr :=
  [0x02; 0x51; 0x11; 0x22; 0x33; 0x44; 0x55; 0x66; 0x1B; 0x2E;
   0x0A + iDay * 2 + 1] ++ data ++ [0x00; 0x00].

(** Wake 06:30, leave 08:00, return 17:00, sleep 22:00, each with its cool
    and heat set points. *)
Definition day_data : pystr :=
  [26; 24; 18;  32; 28; 16;  68; 24; 20;  88; 26; 17].

Definition day_reply (iDay : Z) : list read_outcome :=
  [Data (day_request iDay ++ CalcCrcStr (lastn 14 (day_request iDay))
         ++ [0x06]);
   Data (ext_ack 0x2E (0x0A + iDay * 2));
   Data (day_response iDay day_data)].

(** The answer to the thermostat's temperature request: 21.5 degrees. *)
Definition temperature_response : pystr :=
  [0x02; 0x51; 0x11; 0x22; 0x33; 0x44; 0x55; 0x66; 0x1B; 0x2E;
   0x00; 0x00; 0x01] ++ [0x00; 0xD7] ++ thermostat.zeros 10.

Definition temperature_reply : Serial :=
  mkSerial
    [Data (thermostat_ext ++ [checksum (lastn 15 thermostat_ext); 0x06]);
     Data (ext_ack 0x2E 0x00);
     Data temperature_response] [].

(** The byte-wise exclusive or of two strings of the same length. *)
Definition xor_bytes (a b : pystr) : pystr :=
  map (fun p => Z.lxor (fst p) (snd p)) (combine a b).

(** [int(round(level*2.55))] computed exactly, halves rounded up; the
    double precision product of Python may fall on the other side of a
    half (127 at level 50). *)
Definition exact_level_byte (level : Z) : Z := (255 * level + 50) / 100.

(** ** Vocabulary of the schedule statements *)

(** The frame [GetSchedule] writes for the day [iDay]: the extended command
    [2E cmd2] with [cmd2 = 0x0A + 2*iDay], twelve zero data bytes and the
    CRC. *)
Definition day_frame (prefixStr : pystr) (iDay : nat) : pystr :=
  (prefixStr ++ [0x2e; 0x0a + Z.of_nat iDay * 2] ++ thermostat.zeros 12)
  ++ CalcCrcStr (lastn 14 (prefixStr ++ [0x2e; 0x0a + Z.of_nat iDay * 2]
                                     ++ thermostat.zeros 12)).

(** A row that [GetSchedule] stores for the day [iDay]: five leading cells
    (schedule id, device id, zone, schedule mode 7, day) and the twelve
    cells decoded from a response of 25 bytes that answers the command of
    that day and whose four time bytes are below 96, that is, before
    24:00. *)
Definition day_row (deviceId zone : Z) (iDay : nat) (row : list string)
  : Prop :=
  exists response,
    row = [py_str (Z.of_nat iDay + 1 + 42 + 49 * zone); py_str deviceId;
           py_str zone; py_str 7; py_str (Z.of_nat iDay)]
          ++ flat_map (unpack_period response) (seq 0 4)
    /\ List.length response = 25%nat
    /\ ord_at response 10 = 0x0a + Z.of_nat iDay * 2 + 1
    /\ ord_at response 11 < 96 /\ ord_at response 14 < 96
    /\ ord_at response 17 < 96 /\ ord_at response 20 < 96.

(** Seven well-formed answers, one for each day of the week. *)
Definition week_replies : Serial :=
  mkSerial (flat_map day_reply [0; 1; 2; 3; 4; 5; 6]) [].

(** The frame [SetSchedule] writes for a row: the extended command
    [2E cmd2] with [cmd2 = 0x03 + int(row[4])], the twelve data bytes
    packed from the cells 5 to 16 of the row, and the CRC. *)
Definition row_frame (prefixStr : pystr) (schedRow : list string)
  (frame : pystr) : Prop :=
  exists day data,
    obind (nth_error schedRow 4) py_int = Some day
    /\ 0 <= 0x03 + day <= 255
    /\ thermostat.pack_row schedRow = Some data
    /\ List.length data = 12%nat
    /\ frame = (prefixStr ++ [0x2e; 0x03 + day] ++ data)
               ++ CalcCrcStr (lastn 14 (prefixStr ++ [0x2e; 0x03 + day]
                                                  ++ data)).

(** A week of seven equal rows, and a week whose fourth row has lost its
    last cell. *)
Definition sample_row : list string :=
  ["43"; "8"; "0"; "7"; "0"; "6:30:00"; "24"; "18"; "8:00:00"; "28"; "16";
   "17:00:00"; "24"; "20"; "22:00:00"; "26"; "17"]%string.

Definition sample_week : list (list string) := repeat sample_row 7.

Definition short_week : list (list string) :=
  repeat sample_row 3 ++ [removelast sample_row] ++ repeat sample_row 3.

(** The channel that answers well the seven frames of [SetSchedule] for
    [sample_week]: for each row the echo of the frame with the ACK and the
    acknowledgement of the command [2E 03]. *)
Definition row_command : pystr :=
  [0x02; 0x62; 0x11; 0x22; 0x33; 0x1F; 0x2E; 0x03] ++ day_data.

Definition row_reply : list read_outcome :=
  [Data (row_command ++ CalcCrcStr (lastn 14 row_command) ++ [0x06]);
   Data (ext_ack 0x2E 0x03)].

Definition set_week_replies : Serial :=
  mkSerial (List.concat (repeat row_reply 7)) [].

(** ** Well-formed answers, piece by piece *)

(** The echo of a standard command (9 bytes) or of an extended one (23
    bytes), closed by the ACK 0x06. *)
Definition echo_of (n : nat) (s : pystr) : Prop :=
  List.length s = n /\ last_item s = Some 0x06.

(** A segment of 11 bytes marked 0x50 whose last byte is [last]. *)
Definition std_segment (s : pystr) (last : Z) : Prop :=
  List.length s = 11%nat /\ nth_error s 1 = Some 0x50
  /\ last_item s = Some last.

(** The acknowledgement of the extended command [cmd1 cmd2]. *)
Definition ext_acknowledge (s : pystr) (cmd1 cmd2 : Z) : Prop :=
  List.length s = 11%nat /\ nth_error s 1 = Some 0x50
  /\ lastn 2 s = [cmd1; cmd2].

(** An extended response of 25 bytes marked 0x51. *)
Definition ext_segment (s : pystr) : Prop :=
  List.length s = 25%nat /\ nth_error s 1 = Some 0x51.

(** ** Calls whose arguments cannot make them raise *)

(** A dimmer call is safe when the byte of its level, if it has one, fits a
    character. *)
Definition safe_dimmer_op (level_byte : Z -> Z) (op : dimmer_op) : Prop :=
  match op with
  | DSetOn level => 0 <= level_byte level <= 255
  | DSetOff | DGetState => True
  end.

(** A thermostat call is safe when it is not a [SetSchedule] that passes
    the check of the number of rows: the cells of the rows are read
    without any check. *)
Definition safe_thermostat_op (op : thermostat_op) : Prop :=
  match op with
  | TSetSchedule schedTable => List.length schedTable <> 7%nat
  | _ => True
  end.

(** ** A week of answers *)

(** The row [GetSchedule] builds for the day [iDay] from a response, lines
    766-780. *)
Definition day_cells (deviceId zone : Z) (iDay : nat) (response : pystr)
  : list string :=
  [py_str (Z.of_nat iDay + 1 + 42 + 49 * zone); py_str deviceId;
   py_str zone; py_str 7; py_str (Z.of_nat iDay)]
  ++ flat_map (unpack_period response) (seq 0 4).

(** The three answers to the request for the day [iDay], all well formed:
    the echo, the acknowledgement of [2E cmd2] and a response that answers
    that command with four time bytes below 96. *)
Definition day_answer (iDay : nat) (a : pystr * pystr * pystr) : Prop :=
  let '(echo, ack, response) := a in
  echo_of 23 echo
  /\ ext_acknowledge ack 0x2E (0x0a + Z.of_nat iDay * 2)
  /\ ext_segment response
  /\ ord_at response 10 = 0x0a + Z.of_nat iDay * 2 + 1
  /\ ord_at response 11 < 96 /\ ord_at response 14 < 96
  /\ ord_at response 17 < 96 /\ ord_at response 20 < 96.

Definition answers_data (answers : list (pystr * pystr * pystr))
  : list read_outcome :=
  flat_map (fun a => let '(echo, ack, response) := a in
                     [Data echo; Data ack; Data response]) answers.

Definition week_rows (deviceId zone : Z)
  (answers : list (pystr * pystr * pystr)) : list (list string) :=
  map (fun p => day_cells deviceId zone (fst p) (snd (snd p)))
      (combine (seq 0 7) answers).

(** The two answers to the frame [SetSchedule] writes for a row: the echo
    and the acknowledgement of [2E cmd2] with [cmd2 = 3 + int(row[4])]; the
    row itself must be one that packs. *)
Definition row_answer (schedRow : list string) (a : pystr * pystr) : Prop :=
  exists day data,
    obind (nth_error schedRow 4) py_int = Some day
    /\ 0 <= 0x03 + day <= 255
    /\ thermostat.pack_row schedRow = Some data
    /\ echo_of 23 (fst a)
    /\ ext_acknowledge (snd a) 0x2E (0x03 + day).

Definition row_answers_data (answers : list (pystr * pystr))
  : list read_outcome :=
  flat_map (fun a => [Data (fst a); Data (snd a)]) answers.

(** The answers of the week of [sample_week]. *)
Definition week_answers : list (pystr * pystr * pystr) :=
  map (fun i : Z =>
         (day_request i ++ CalcCrcStr (lastn 14 (day_request i)) ++ [0x06],
          ext_ack 0x2E (0x0A + i * 2),
          day_response i day_data))
      [0; 1; 2; 3; 4; 5; 6].

Definition sample_answers : list (pystr * pystr) :=
  repeat (row_command ++ CalcCrcStr (lastn 14 row_command) ++ [0x06],
          ext_ack 0x2E 0x03) 7.

(** ** The steps of the thermostat's [GetState], seen from the exchanges *)

(** The channel after a step: a step that failed flushes both buffers. *)
Definition after_step (failed : bool) (ser : Serial) : Serial :=
  if failed then emit EvFlushOutput (emit EvFlushInput ser) else ser.

(** The mode byte of a response, 9 when there is none (lines 567-570). *)
Definition mode_byte (response : pystr) : Z :=
  match last_item response with
  | Some x => x
  | None => 9
  end.

(** The mode step fails when its exchange fails or when the byte is not
    one of 0..7. *)
Definition mode_step_failed (response : pystr) (localError : bool) : bool :=
  localError || negb ((mode_byte response <? 8) && (mode_byte response >=? 0)).

(** ** Exchanges in a row *)

(** The exchanges of a list made one after the other, whatever their
    outcomes; the result is the list of the outcomes. *)
Fixpoint run_all (xs : list exchange) : IO (list (pystr * bool)) :=
  match xs with
  | [] => ret []
  | x :: r => o <- run_exchange x ;; os <- run_all r ;; ret (o :: os)
  end.

(** The command [SetSchedule] builds for a row, before the CRC: [2E cmd2]
    with [cmd2 = 0x03 + int(row[4])] and the twelve bytes packed from the
    cells 5 to 16. *)
Definition row_request (prefixStr : pystr) (schedRow : list string)
  (cmd : pystr) : Prop :=
  exists day data,
    obind (nth_error schedRow 4) py_int = Some day
    /\ 0 <= 0x03 + day <= 255
    /\ thermostat.pack_row schedRow = Some data
    /\ cmd = prefixStr ++ [0x2e; 0x03 + day] ++ data.

(** ** More worked examples *)

(** A dimmer that was switched on at 40, seen at 41, flagged and in
    error; a thermostat fresh from its constructor. *)
Definition lit_dimmer : dimmer.t :=
  dimmer.mk [0x11; 0x22; 0x33] true 40 true 41 true true false.

Definition fresh_thermostat : thermostat.t :=
  thermostat.__init__ [0x11; 0x22; 0x33].

(** * Properties of the integrity codes *)

Section Codec.

Lemma lxor_byte_complement (x : Z) : 0 <= x < 256 -> Z.lxor x 0xff = 255 - x.
Proof.
  intros Hx.
  assert (Hl : Z.land x 255 = x).
  { change 255 with (Z.ones 8). rewrite Z.land_ones by lia.
    apply Z.mod_small. exact Hx. }
  pose proof (Z.sub_lor_land x 255) as Hs.
  pose proof (Z.add_lor_land x 255) as Ha.
  lia.
Qed.

Lemma checksum_range (s : pystr) : 0 <= checksum s < 256.
Proof. unfold checksum. apply Z.mod_pos_bound. lia. Qed.

Lemma land_pow2_testbit (c n : Z) :
  0 <= n -> (Z.land c (2 ^ n) =? 0) = negb (Z.testbit c n).
Proof.
  intros Hn.
  destruct (Z.testbit c n) eqn:Hb; simpl.
  - apply Z.eqb_neq. intros H0.
    assert (Ht : Z.testbit (Z.land c (2 ^ n)) n = true).
    { rewrite Z.land_spec, Hb, Z.pow2_bits_true by lia. reflexivity. }
    rewrite H0, Z.bits_0 in Ht. discriminate.
  - apply Z.eqb_eq. apply Z.bits_inj'. intros m Hm.
    rewrite Z.land_spec, Z.bits_0.
    destruct (Z.eq_dec n m) as [->|Hne].
    + rewrite Hb. reflexivity.
    + rewrite Z.pow2_bits_false by lia. apply andb_false_r.
Qed.

Lemma lxor_b2z_1 (b : bool) : Z.lxor (Z.b2z b) 1 = Z.b2z (negb b).
Proof. destruct b; reflexivity. Qed.

Lemma lor_double_b2z (c : Z) (b : bool) :
  Z.lor (Z.shiftl c 1) (Z.b2z b) = 2 * c + Z.b2z b.
Proof.
  rewrite Z.shiftl_mul_pow2 by lia. change (2 ^ 1) with 2.
  pose proof (Z.add_lor_land (c * 2) (Z.b2z b)) as Ha.
  assert (Hl : Z.land (c * 2) (Z.b2z b) = 0).
  { destruct b; simpl Z.b2z.
    - change 1 with (Z.ones 1). rewrite Z.land_ones by lia.
      change (2 ^ 1) with 2. apply Z.mod_mul. lia.
    - apply Z.land_0_r. }
  lia.
Qed.

(** One turn of the source loop against one shift of the reference. *)
Lemma crc_turn_reference (c b : Z) :
  crc_turn (c, b) =
  (2 * c + Z.b2z (reference_feedback c (Z.testbit b 0)), Z.shiftr b 1).
Proof.
  unfold crc_turn, reference_feedback.
  change 0x8000 with (2 ^ 15). change 0x4000 with (2 ^ 14).
  change 0x1000 with (2 ^ 12). change 0x0008 with (2 ^ 3).
  rewrite !land_pow2_testbit, !negb_involutive by lia.
  assert (H0 : Z.land b 1 = Z.b2z (Z.testbit b 0)).
  { change 1 with (Z.ones 1). rewrite Z.land_ones by lia.
    rewrite Z.bit0_mod. reflexivity. }
  rewrite H0.
  f_equal.
  rewrite <- lor_double_b2z. f_equal.
  destruct (Z.testbit c 15), (Z.testbit c 14), (Z.testbit c 12),
    (Z.testbit c 3); rewrite ?lxor_b2z_1, ?negb_involutive; reflexivity.
Qed.

Lemma reference_feedback_mod (c : Z) (bit : bool) :
  reference_feedback (c mod 2 ^ 16) bit = reference_feedback c bit.
Proof.
  unfold reference_feedback.
  rewrite !Z.mod_pow2_bits_low by lia. reflexivity.
Qed.

Lemma reference_shift_mod (c : Z) (bit : bool) :
  reference_shift (c mod 2 ^ 16) bit =
  (2 * c + Z.b2z (reference_feedback c bit)) mod 2 ^ 16.
Proof.
  unfold reference_shift. rewrite reference_feedback_mod.
  rewrite <- Z.add_mod_idemp_l by lia.
  rewrite Z.mul_mod_idemp_r by lia.
  rewrite Z.add_mod_idemp_l by lia. reflexivity.
Qed.

Lemma crc_turns_reference (n : nat) (c b : Z) :
  let st := Nat.iter n crc_turn (c, b) in
  fst st mod 2 ^ 16 =
    fold_left (fun acc i => reference_shift acc (Z.testbit b (Z.of_nat i)))
              (seq 0 n) (c mod 2 ^ 16)
  /\ snd st = Z.shiftr b (Z.of_nat n).
Proof.
  induction n as [|n IH]; cbn zeta.
  - simpl. split; [reflexivity | now rewrite Z.shiftr_0_r].
  - destruct IH as [IHc IHb].
    rewrite seq_S, fold_left_app. cbn [fold_left].
    change (Nat.iter (S n) crc_turn (c, b))
      with (crc_turn (Nat.iter n crc_turn (c, b))).
    destruct (Nat.iter n crc_turn (c, b)) as [c' b'].
    cbv [fst snd] in IHc, IHb. subst b'.
    rewrite crc_turn_reference. cbv [fst snd].
    rewrite <- IHc, reference_shift_mod.
    rewrite Z.shiftr_spec by lia. rewrite !Z.add_0_l.
    split; [reflexivity|].
    rewrite Z.shiftr_shiftr by lia. f_equal. lia.
Qed.

Lemma fold_left_cons {A B} (f : A -> B -> A) (x : B) (l : list B) (a : A) :
  fold_left f (x :: l) a = fold_left f l (f a x).
Proof. reflexivity. Qed.

Lemma crc_byte_reference (c b : Z) :
  crc_byte c b mod 2 ^ 16 = reference_byte (c mod 2 ^ 16) b.
Proof. exact (proj1 (crc_turns_reference 8 c b)). Qed.

Lemma crc_loop_reference (data : pystr) : forall c,
  crc_loop data c mod 2 ^ 16 = fold_left reference_byte data (c mod 2 ^ 16).
Proof.
  induction data as [|b data IH]; intros c.
  - reflexivity.
  - unfold crc_loop in *. rewrite !fold_left_cons.
    rewrite <- crc_byte_reference. apply IH.
Qed.

Lemma high_low_bytes (v : Z) :
  Z.land (Z.shiftr v 8) 0xff = (v mod 2 ^ 16) / 256
  /\ Z.land (Z.shiftr v 0) 0xff = (v mod 2 ^ 16) mod 256.
Proof.
  change 0xff with (Z.ones 8). rewrite !Z.land_ones by lia.
  rewrite Z.shiftr_0_r, Z.shiftr_div_pow2 by lia.
  change (2 ^ 16) with (2 ^ 8 * 2 ^ 8). change 256 with (2 ^ 8).
  rewrite Z.rem_mul_r by lia.
  pose proof (Z.mod_pos_bound v (2 ^ 8) ltac:(lia)) as Hlo.
  split.
  - rewrite Z.mul_comm, Z.div_add by lia.
    rewrite (Z.div_small (v mod 2 ^ 8)) by lia. reflexivity.
  - rewrite Z.mul_comm, Z.mod_add by lia.
    rewrite Z.mod_mod by lia. reflexivity.
Qed.

End Codec.

(** Claim C4.  For every input byte sequence the two bytes that
    [CalcCrcStr] returns are those of the reference algorithm: a 16-bit
    accumulator starting at 0; for each byte, for each of its 8 bits least
    significant first, the feedback bit starts as the input bit and is
    flipped in turn by accumulator bits 15, 14, 12 and 3; the accumulator is
    shifted left by one with the feedback bit at bit 0; at the end the low
    16 bits are emitted high byte first.  (The source never truncates its
    accumulator; only the low 16 bits ever matter.) *)
Theorem CalcCrcStr_is_reference_crc (dataStr : pystr) :
  CalcCrcStr dataStr = reference_crc dataStr.
Proof.
  unfold CalcCrcStr, reference_crc. simpl map.
  destruct (high_low_bytes (crc_loop dataStr 0)) as [Hh Hl].
  rewrite Hh, Hl, crc_loop_reference. reflexivity.
Qed.

(** Claim C5.  For every byte sequence used as payload, the sum of all
    payload bytes plus the one-byte checksum computed over that payload is
    congruent to 0 modulo 256; the checksum is a byte. *)
Theorem checksum_complements_sum (payload : pystr) :
  (sum payload + checksum payload) mod 256 = 0
  /\ 0 <= checksum payload < 256.
Proof.
  split; [|apply checksum_range].
  unfold checksum.
  pose proof (Z.mod_pos_bound (sum payload) 256 ltac:(lia)) as Hr.
  rewrite lxor_byte_complement by exact Hr.
  rewrite Z.add_mod_idemp_r by lia.
  replace (sum payload + (255 - sum payload mod 256 + 1))
    with (sum payload - sum payload mod 256 + 1 * 256) by lia.
  rewrite Z.mod_add by lia.
  rewrite Zminus_mod_idemp_r. rewrite Z.sub_diag. reflexivity.
Qed.

(** * Addresses: the constructor check and the null address *)

Section Addresses.

Lemma is_null_true (address : list Z) :
  is_null address = true <-> address = null_address.
Proof.
  unfold is_null. destruct (list_eq_dec Z.eq_dec address null_address).
  - tauto.
  - split; [discriminate | contradiction].
Qed.

Lemma null_address_valid : valid_address null_address.
Proof.
  split; [reflexivity|]. repeat constructor; lia.
Qed.

Lemma checked_address_valid (address : list Z) :
  valid_address address -> checked_address address = address.
Proof.
  intros [Hlen Hall]. unfold checked_address. rewrite Hlen. simpl.
  destruct address as [|a [|b [|c [|d r]]]]; try discriminate.
  inversion Hall as [|? ? Ha Hall1]; subst.
  inversion Hall1 as [|? ? Hb Hall2]; subst.
  inversion Hall2 as [|? ? Hc _]; subst.
  simpl.
  replace (Z.max (Z.max a b) c >? 255) with false
    by (symmetry; rewrite Z.gtb_ltb; apply Z.ltb_ge; lia).
  replace (Z.min (Z.min a b) c <? 0) with false
    by (symmetry; apply Z.ltb_ge; lia).
  reflexivity.
Qed.

Lemma checked_address_invalid (address : list Z) :
  ~ valid_address address -> checked_address address = null_address.
Proof.
  intros Hbad. unfold checked_address.
  destruct (List.length address =? 3)%nat eqn:Hlen; simpl; [|reflexivity].
  apply Nat.eqb_eq in Hlen.
  destruct address as [|a [|b [|c [|d r]]]]; try discriminate.
  simpl.
  destruct (Z.max (Z.max a b) c >? 255) eqn:Hmax; simpl; [reflexivity|].
  destruct (Z.min (Z.min a b) c <? 0) eqn:Hmin; simpl; [reflexivity|].
  exfalso. apply Hbad. split; [reflexivity|].
  rewrite Z.gtb_ltb in Hmax. apply Z.ltb_ge in Hmax, Hmin.
  repeat constructor; lia.
Qed.

Lemma checked_address_cases (address : list Z) :
  valid_address (checked_address address)
  \/ checked_address address = null_address.
Proof.
  destruct (List.length address =? 3)%nat eqn:Hlen.
  - unfold checked_address. rewrite Hlen. simpl.
    destruct ((py_max address >? 255) || (py_min address <? 0)) eqn:Hr.
    + right. reflexivity.
    + left. apply Nat.eqb_eq in Hlen.
      destruct address as [|a [|b [|c [|d r]]]]; try discriminate.
      simpl in Hr. apply orb_false_elim in Hr. destruct Hr as [Hmax Hmin].
      rewrite Z.gtb_ltb in Hmax. apply Z.ltb_ge in Hmax, Hmin.
      split; [reflexivity|]. repeat constructor; lia.
  - right. unfold checked_address. rewrite Hlen. reflexivity.
Qed.

End Addresses.

(** * Calls on an object whose address is null *)

Section NullAddress.

Variable level_byte : Z -> Z.

Lemma dimmer_call_null (d : dimmer.t) (op : dimmer_op) (ser : Serial) :
  dimmer.address d = null_address ->
  dimmer_call level_byte d op ser = (Some d, ser).
Proof.
  intros Hnull. apply is_null_true in Hnull.
  destruct op; simpl;
    unfold dimmer.SetOn, dimmer.SetOff, dimmer.GetState;
    rewrite Hnull; reflexivity.
Qed.

Lemma thermostat_call_null (t : thermostat.t) (op : thermostat_op)
  (ser : Serial) :
  thermostat.address t = null_address ->
  thermostat_call t op ser = (Some t, ser).
Proof.
  intros Hnull. apply is_null_true in Hnull.
  destruct op; simpl;
    unfold thermostat.GetState, thermostat.UpSetPoint,
      thermostat.DownSetPoint, thermostat.nudge, thermostat.GetSchedule,
      thermostat.SetSchedule, thermostat.SetMode;
    rewrite Hnull; reflexivity.
Qed.

Lemma dimmer_calls_null (d : dimmer.t) (ops : list dimmer_op) (ser : Serial) :
  dimmer.address d = null_address ->
  dimmer_calls level_byte d ops ser = (Some d, ser).
Proof.
  intros Hnull. unfold dimmer_calls.
  induction ops as [|op ops IH]; simpl.
  - reflexivity.
  - unfold bind. rewrite dimmer_call_null by exact Hnull. exact IH.
Qed.

Lemma thermostat_calls_null (t : thermostat.t) (ops : list thermostat_op)
  (ser : Serial) :
  thermostat.address t = null_address ->
  thermostat_calls t ops ser = (Some t, ser).
Proof.
  intros Hnull. unfold thermostat_calls.
  induction ops as [|op ops IH]; simpl.
  - reflexivity.
  - unfold bind. rewrite thermostat_call_null by exact Hnull. exact IH.
Qed.

End NullAddress.

(** Claim C7.  For every dimmer or thermostat whose address is the
    sentinel [[0,0,0]], every operation ([SetOn], [SetOff], [GetState] of
    the dimmer; [GetState], [UpSetPoint], [DownSetPoint], [GetSchedule],
    [SetSchedule], [SetMode] of the thermostat) returns with the channel
    exactly as it was (nothing written, read or flushed) and with every
    field of the object unchanged. *)
Theorem null_address_calls_do_nothing
  (level_byte : Z -> Z) (d : dimmer.t) (t : thermostat.t)
  (dop : dimmer_op) (top : thermostat_op) (ser : Serial) :
  dimmer.address d = null_address ->
  thermostat.address t = null_address ->
  dimmer_call level_byte d dop ser = (Some d, ser)
  /\ thermostat_call t top ser = (Some t, ser).
Proof.
  intros Hd Ht. split.
  - apply dimmer_call_null. exact Hd.
  - apply thermostat_call_null. exact Ht.
Qed.

Lemma null_address_calls_do_nothing_witness :
  let d := dimmer.mk [0; 0; 0] true 40 true 41 true true false in
  let t := thermostat.mk [0; 0; 0] 2 "Cool" 18 24 (215 # 10) 40 [] true false in
  let ser := mkSerial [Data [1; 2; 3]; Raises] [EvFlushInput] in
  dimmer.address d = null_address
  /\ thermostat.address t = null_address
  /\ dimmer_call (fun level => level * 2) d (DSetOn 73) ser = (Some d, ser)
  /\ thermostat_call t (TSetMode 5) ser = (Some t, ser).
Proof.
  cbv zeta. split; [reflexivity|]. split; [reflexivity|].
  apply (null_address_calls_do_nothing (fun level => level * 2)
           (dimmer.mk [0; 0; 0] true 40 true 41 true true false)
           (thermostat.mk [0; 0; 0] 2 "Cool" 18 24 (215 # 10) 40 [] true false)
           (DSetOn 73) (TSetMode 5)
           (mkSerial [Data [1; 2; 3]; Raises] [EvFlushInput]));
    reflexivity.
Defined.

(** Claim C9.  The checks on the caller's arguments come before any use of
    the channel: [SetMode] with a mode outside [4..10] and [SetSchedule]
    with a table that has not exactly 7 rows return with the channel exactly
    as it was (nothing written, read or flushed) and with the object
    unchanged. *)
Theorem argument_checks_precede_io
  (self : thermostat.t) (mode : Z) (schedTable : list (list string))
  (ser : Serial) :
  mode < 4 \/ mode > 10 ->
  List.length schedTable <> 7%nat ->
  thermostat.SetMode self mode ser = (Some self, ser)
  /\ thermostat.SetSchedule self schedTable ser = (Some self, ser).
Proof.
  intros Hmode Hrows. split.
  - unfold thermostat.SetMode.
    destruct (is_null (thermostat.address self)); [reflexivity|].
    replace ((mode <? 4) || (mode >? 10)) with true; [reflexivity|].
    symmetry. apply orb_true_iff. rewrite Z.gtb_ltb, !Z.ltb_lt. lia.
  - unfold thermostat.SetSchedule.
    destruct (is_null (thermostat.address self)); [reflexivity|].
    apply Nat.eqb_neq in Hrows. rewrite Hrows. reflexivity.
Qed.

Lemma argument_checks_precede_io_witness :
  let t := thermostat.mk [0x11; 0x22; 0x33] 2 "Cool" 18 24 (215 # 10) 40 []
             false false in
  let ser := mkSerial [Data [1; 2; 3]] [] in
  (3 < 4 \/ 3 > 10)
  /\ List.length (A := list string) [] <> 7%nat
  /\ thermostat.SetMode t 3 ser = (Some t, ser)
  /\ thermostat.SetSchedule t [] ser = (Some t, ser)
  /\ thermostat.SetMode t 11 ser = (Some t, ser).
Proof.
  cbv zeta.
  assert (H3 : 3 < 4 \/ 3 > 10) by (left; lia).
  assert (H11 : 11 < 4 \/ 11 > 10) by (right; lia).
  assert (Hrows : List.length (A := list string) [] <> 7%nat)
    by (simpl; lia).
  split; [exact H3|]. split; [exact Hrows|].
  split; [|split].
  - exact (proj1 (argument_checks_precede_io _ 3 [] _ H3 Hrows)).
  - exact (proj2 (argument_checks_precede_io _ 3 [] _ H3 Hrows)).
  - exact (proj1 (argument_checks_precede_io _ 11 [] _ H11 Hrows)).
Defined.

(** Claim C10.  Both constructors keep a list of exactly three integers in
    [0..255] and replace every other list by the sentinel [[0,0,0]]; so the
    address of every instance is a valid address or the sentinel, and an
    instance built from an invalid argument has the sentinel for address
    and stays inert: any sequence of calls on it leaves the channel and the
    object as they were. *)
Theorem constructors_check_the_address (address : list Z) :
  (valid_address (dimmer.address (dimmer.__init__ address))
   \/ dimmer.address (dimmer.__init__ address) = null_address)
  /\ (valid_address (thermostat.address (thermostat.__init__ address))
      \/ thermostat.address (thermostat.__init__ address) = null_address)
  /\ (~ valid_address address ->
      dimmer.address (dimmer.__init__ address) = null_address
      /\ thermostat.address (thermostat.__init__ address) = null_address
      /\ (forall level_byte ops ser,
            dimmer_calls level_byte (dimmer.__init__ address) ops ser
            = (Some (dimmer.__init__ address), ser))
      /\ (forall ops ser,
            thermostat_calls (thermostat.__init__ address) ops ser
            = (Some (thermostat.__init__ address), ser))).
Proof.
  split; [apply checked_address_cases|].
  split; [apply checked_address_cases|].
  intros Hbad.
  assert (Hd : dimmer.address (dimmer.__init__ address) = null_address)
    by (apply checked_address_invalid; exact Hbad).
  assert (Ht : thermostat.address (thermostat.__init__ address) = null_address)
    by (apply checked_address_invalid; exact Hbad).
  split; [exact Hd|]. split; [exact Ht|]. split.
  - intros. apply dimmer_calls_null. exact Hd.
  - intros. apply thermostat_calls_null. exact Ht.
Qed.

Lemma constructors_check_the_address_witness :
  ~ valid_address [1; 256; 3]
  /\ dimmer.address (dimmer.__init__ [1; 256; 3]) = null_address
  /\ thermostat.address (thermostat.__init__ [1; 256; 3]) = null_address.
Proof.
  assert (Hbad : ~ valid_address [1; 256; 3]).
  { intros [_ Hall]. inversion Hall as [|? ? _ Hall1]; subst.
    inversion Hall1 as [|? ? Hb _]; subst. lia. }
  split; [exact Hbad|].
  destruct (constructors_check_the_address [1; 256; 3]) as [_ [_ Hinv]].
  destruct (Hinv Hbad) as [Hd [Ht _]].
  split; [exact Hd | exact Ht].
Defined.

(** * The schedule: packing and unpacking of one period *)

Section Schedule.

(** A property checked on [0 .. n-1] by computation holds there. *)
Lemma below_forallb (P : Z -> bool) (n : nat) :
  forallb P (map Z.of_nat (seq 0 n)) = true ->
  forall z, 0 <= z < Z.of_nat n -> P z = true.
Proof.
  intros Hall z Hz.
  rewrite forallb_forall in Hall. apply Hall.
  apply in_map_iff. exists (Z.to_nat z). split; [lia|].
  apply in_seq. lia.
Qed.

Lemma py_int_py_str (z : Z) :
  0 <= z <= 255 -> py_int (py_str z) = Some z.
Proof.
  intros Hz.
  assert (H : reads_back z = true).
  { apply (below_forallb reads_back 256); [vm_compute; reflexivity | lia]. }
  unfold reads_back in H.
  destruct (py_int (py_str z)) as [v|]; [|discriminate].
  apply Z.eqb_eq in H. subst. reflexivity.
Qed.

Lemma parse_hm_tfmt (b : Z) :
  0 <= b < 96 ->
  parse_hm (tfmt (b / 4) (b mod 4 * 15)) = Some (b / 4, b mod 4 * 15).
Proof.
  intros Hb.
  assert (H : time_reads_back b = true).
  { apply (below_forallb time_reads_back 96); [vm_compute; reflexivity | lia]. }
  unfold time_reads_back in H.
  destruct (parse_hm (tfmt (b / 4) (b mod 4 * 15))) as [[h m]|];
    [|discriminate].
  apply andb_true_iff in H. destruct H as [Hh Hm].
  apply Z.eqb_eq in Hh, Hm. subst. reflexivity.
Qed.

Lemma chr_byte (z : Z) : 0 <= z <= 255 -> chr z = Some z.
Proof.
  intros Hz. unfold chr.
  destruct (0 <=? z) eqn:H0; [|apply Z.leb_gt in H0; lia].
  destruct (z <? 256) eqn:H1; [|apply Z.ltb_ge in H1; lia].
  reflexivity.
Qed.

(** The time byte of a time on a quarter of an hour, and the way back. *)
Lemma timebyte_quarters (h m : Z) :
  0 <= h <= 23 -> m = 0 \/ m = 15 \/ m = 30 \/ m = 45 ->
  let b := h * 4 + m / 15 in
  0 <= b < 96 /\ b / 4 = h /\ b mod 4 * 15 = m.
Proof.
  intros Hh Hm. cbv zeta.
  assert (Hq : m / 15 = 0 /\ m = 0 \/ m / 15 = 1 /\ m = 15
               \/ m / 15 = 2 /\ m = 30 \/ m / 15 = 3 /\ m = 45).
  { destruct Hm as [-> | [-> | [-> | ->]]]; vm_compute; tauto. }
  assert (Hr : 0 <= m / 15 < 4) by lia.
  split; [lia|].
  rewrite Z.add_comm.
  rewrite Z.div_add by lia. rewrite Z.mod_add by lia.
  rewrite Z.div_small, Z.mod_small by lia.
  lia.
Qed.

End Schedule.

(** Claim C6.  For every schedule entry whose time is on a quarter of an
    hour within 0:00-23:45 and whose cool and heat set points are bytes,
    the packing of [SetSchedule] (time byte [hour*4 + minute/15], then the
    cool byte, then the heat byte) followed by the unpacking of
    [GetSchedule] gives cells that read back as the same hour and minute
    and the same integer set points.  The time cell comes back in the form
    [H:MM:00] that [GetSchedule] writes, whatever the spelling that went
    in. *)
Theorem schedule_entry_round_trip
  (time cool heat : string) (h m c t : Z) :
  parse_hm time = Some (h, m) ->
  py_int cool = Some c ->
  py_int heat = Some t ->
  0 <= h <= 23 ->
  m = 0 \/ m = 15 \/ m = 30 \/ m = 45 ->
  0 <= c <= 255 ->
  0 <= t <= 255 ->
  exists timebyte time' cool' heat',
    pack_cells time cool heat = Some [timebyte; c; t]
    /\ timebyte = h * 4 + m / 15
    /\ unpack_bytes timebyte c t = [time'; cool'; heat']
    /\ time' = tfmt h m
    /\ parse_hm time' = Some (h, m)
    /\ py_int cool' = Some c
    /\ py_int heat' = Some t.
Proof.
  intros Htime Hcool Hheat Hh Hm Hc Ht.
  destruct (timebyte_quarters h m Hh Hm) as [Hb [Hbh Hbm]].
  exists (h * 4 + m / 15), (tfmt h m), (py_str c), (py_str t).
  split.
  { unfold pack_cells, obind. rewrite Htime, Hcool, Hheat.
    rewrite !chr_byte by lia. reflexivity. }
  split; [reflexivity|].
  split.
  { unfold unpack_bytes. rewrite Hbh, Hbm. reflexivity. }
  split; [reflexivity|].
  split.
  { pose proof (parse_hm_tfmt _ Hb) as Hp.
    rewrite Hbh, Hbm in Hp. exact Hp. }
  split; apply py_int_py_str; assumption.
Qed.

Lemma schedule_entry_round_trip_witness :
  parse_hm "06:30" = Some (6, 30)
  /\ exists timebyte time' cool' heat',
       pack_cells "06:30" "24" "18" = Some [timebyte; 24; 18]
       /\ timebyte = 6 * 4 + 30 / 15
       /\ unpack_bytes timebyte 24 18 = [time'; cool'; heat']
       /\ time' = tfmt 6 30
       /\ parse_hm time' = Some (6, 30)
       /\ py_int cool' = Some 24
       /\ py_int heat' = Some 18.
Proof.
  split; [reflexivity|].
  apply (schedule_entry_round_trip "06:30" "24" "18" 6 30 24 18);
    try reflexivity; lia.
Defined.

(** * The exchanges on the channel *)

Section Transport.

Lemma read_spec (n : nat) (ser : Serial) : read_result n ser (read n ser).
Proof.
  unfold read. destruct (pending ser) as [|[bs|] rest].
  - apply read_data; [simpl; lia | reflexivity].
  - apply read_data; [apply firstn_le_length | reflexivity].
  - apply read_raises. reflexivity.
Qed.

Lemma emit_log (e : event) (ser : Serial) : log (emit e ser) = log ser ++ [e].
Proof. reflexivity. Qed.

Lemma flushes_app (a b : list event) : flushes (a ++ b) = flushes a ++ flushes b.
Proof. apply filter_app. Qed.

Lemma writes_app (a b : list event) : writes (a ++ b) = writes a ++ writes b.
Proof. apply flat_map_app. Qed.

Lemma reads_only (evs : list event) :
  forallb is_read evs = true -> flushes evs = [] /\ writes evs = [].
Proof.
  induction evs as [|e evs IH]; simpl; [tauto|].
  intros H. apply andb_true_iff in H. destruct H as [He Hevs].
  destruct (IH Hevs) as [Hf Hw].
  destruct e; try discriminate. simpl. rewrite Hw. tauto.
Qed.

(** The reading loop of [StdCmd]: reads only; the response has the full
    length exactly when every read came back complete. *)
Lemma read_responses_spec (n : nat) : forall (acc : pystr) (ser : Serial),
  exists evs,
    log (snd (read_responses n acc ser)) = log ser ++ evs
    /\ forallb is_read evs = true
    /\ match fst (read_responses n acc ser) with
       | Some resp =>
           (List.length resp <= List.length acc + 11 * n)%nat
           /\ forallb read_full evs
              = (List.length resp =? List.length acc + 11 * n)%nat
       | None => forallb read_full evs = false
       end.
Proof.
  induction n as [|n IH]; intros acc ser.
  - exists []. simpl. rewrite app_nil_r.
    repeat split; try lia. symmetry. apply Nat.eqb_eq. lia.
  - cbn [read_responses]. unfold bind.
    pose proof (read_spec 11 ser) as Hr.
    destruct (read 11 ser) as [r ser1]. inversion Hr as [bs s Hle Hlog|s Hlog]; subst.
    + destruct (IH (acc ++ bs) ser1) as [evs [Hl [Hreads Hres]]].
      exists (EvRead 11 (Data bs) :: evs).
      split; [rewrite Hl, Hlog, <- app_assoc; reflexivity|].
      split; [exact Hreads|].
      destruct (fst (read_responses n (acc ++ bs) ser1)) as [resp|].
      * destruct Hres as [Hlen Hfull]. rewrite length_app in Hlen, Hfull.
        split; [lia|].
        cbn [forallb read_full]. rewrite Hfull.
        destruct (List.length bs =? 11)%nat eqn:Hb.
        -- apply Nat.eqb_eq in Hb. rewrite Hb. simpl. f_equal. lia.
        -- apply Nat.eqb_neq in Hb. simpl. symmetry. apply Nat.eqb_neq. lia.
      * cbn [forallb]. rewrite Hres. apply andb_false_r.
    + exists [EvRead 11 Raises]. simpl. rewrite Hlog. tauto.
Qed.

Lemma log_step (ser ser0 ser1 : Serial) (e : event) (evs : list event) :
  log ser0 = log ser ++ evs -> log ser1 = log ser0 ++ [e] ->
  log ser1 = log ser ++ evs ++ [e].
Proof. intros H0 H1. rewrite H1, H0, app_assoc. reflexivity. Qed.

Lemma log_steps (ser ser0 ser1 : Serial) (evs evs' : list event) :
  log ser0 = log ser ++ evs -> log ser1 = log ser0 ++ evs' ->
  log ser1 = log ser ++ evs ++ evs'.
Proof. intros H0 H1. rewrite H1, H0, app_assoc. reflexivity. Qed.

Lemma StdCmd_bad_length (cmdStr : pystr) (nResponse : nat) (ser : Serial) :
  List.length cmdStr <> 8%nat ->
  StdCmd cmdStr nResponse ser = (Some ([], true), ser).
Proof.
  intros H. unfold StdCmd. apply Nat.eqb_neq in H. rewrite H. reflexivity.
Qed.

Lemma StdCmd_exchanged (cmdStr : pystr) (nResponse : nat) (ser : Serial) :
  List.length cmdStr = 8%nat ->
  exchanged cmdStr (11 * nResponse) ser (StdCmd cmdStr nResponse ser).
Proof.
  intros Hlen. unfold StdCmd. rewrite Hlen. cbn [Nat.eqb negb].
  unfold bind at 1. unfold write at 1.
  set (ser0 := emit (EvWrite cmdStr) ser).
  assert (H0 : log ser0 = log ser ++ [EvWrite cmdStr]) by reflexivity.
  unfold bind at 1. unfold try. unfold bind at 1.
  pose proof (read_spec 9 ser0) as Hr.
  destruct (read 9 ser0) as [r ser1].
  inversion Hr as [echo s Hle H1|s H1]; subst.
  - unfold bind at 1.
    destruct (read_responses_spec nResponse [] ser1) as [evs [H2 [Hreads Hres]]].
    destruct (read_responses nResponse [] ser1) as [r2 ser2].
    cbn [fst snd] in H2, Hres.
    destruct (reads_only evs Hreads) as [Hfl Hwr].
    destruct r2 as [response|].
    + destruct Hres as [_ Hfull]. cbn [List.length Nat.add] in Hfull.
      unfold ret at 1.
      destruct (List.length echo =? 9)%nat eqn:He; cbn [negb orb].
      * destruct (List.length response =? 11 * nResponse)%nat eqn:Hn;
          cbn [negb].
        -- destruct (negb (last_is echo 6) || std_markers response nResponse).
           ++ unfold bind, flushInput, flushOutput, ret.
              apply exchanged_error
                with (evs := (EvRead 9 (Data echo) :: evs)
                             ++ [EvFlushInput; EvFlushOutput]).
              ** rewrite !emit_log, H2, H1, H0, <- !app_assoc. reflexivity.
              ** rewrite writes_app. simpl. rewrite Hwr. reflexivity.
              ** unfold flushed_iff_reads_full.
                 rewrite forallb_app. cbn [forallb read_full].
                 rewrite He, Hfull. cbn [andb].
                 exists (EvRead 9 (Data echo) :: evs). split; [reflexivity|].
                 simpl. exact Hfl.
           ++ unfold ret.
              apply exchanged_ok with (evs := EvRead 9 (Data echo) :: evs).
              ** rewrite H2, H1, H0, <- !app_assoc. reflexivity.
              ** simpl. exact Hwr.
              ** simpl. exact Hfl.
              ** cbn [forallb read_full]. rewrite He, Hfull. reflexivity.
              ** apply Nat.eqb_eq. exact Hn.
        -- unfold ret.
           apply exchanged_error with (evs := EvRead 9 (Data echo) :: evs).
           ++ rewrite H2, H1, H0, <- !app_assoc. reflexivity.
           ++ simpl. exact Hwr.
           ++ unfold flushed_iff_reads_full. cbn [forallb read_full].
              rewrite Hfull, andb_false_r. simpl. exact Hfl.
      * unfold ret.
        apply exchanged_error with (evs := EvRead 9 (Data echo) :: evs).
        -- rewrite H2, H1, H0, <- !app_assoc. reflexivity.
        -- simpl. exact Hwr.
        -- unfold flushed_iff_reads_full. cbn [forallb read_full].
           rewrite He. simpl. exact Hfl.
    + unfold ret.
      apply exchanged_error with (evs := EvRead 9 (Data echo) :: evs).
      * rewrite H2, H1, H0, <- !app_assoc. reflexivity.
      * simpl. exact Hwr.
      * unfold flushed_iff_reads_full. cbn [forallb read_full].
        rewrite Hres, andb_false_r. simpl. exact Hfl.
  - unfold ret.
    apply exchanged_error with (evs := [EvRead 9 Raises]).
    + rewrite H1, H0, <- !app_assoc. reflexivity.
    + reflexivity.
    + unfold flushed_iff_reads_full. reflexivity.
Qed.

(** The reads of the two extended exchanges, inside their [try]. *)
Lemma reads_in_try (n1 n2 : nat) (third : option nat) (ser : Serial) :
  let block :=
    try (bind (read n1) (fun a =>
         bind (read n2) (fun b =>
         bind (match third with Some n3 => read n3 | None => ret [] end)
              (fun c => ret (a, b, c))))) in
  exists evs,
    log (snd (block ser)) = log ser ++ evs
    /\ forallb is_read evs = true
    /\ match fst (block ser) with
       | Some (Some (a, b, c)) =>
           forallb read_full evs
           = (List.length a =? n1)%nat && (List.length b =? n2)%nat
             && match third with
                | Some n3 => (List.length c =? n3)%nat
                | None => true
                end
           /\ (third = None -> c = [])
       | Some None => forallb read_full evs = false
       | None => False
       end.
Proof.
  cbv zeta. unfold try, bind.
  pose proof (read_spec n1 ser) as Hr1.
  destruct (read n1 ser) as [r1 ser1].
  inversion Hr1 as [a s _ H1|s H1]; subst;
    [|exists [EvRead n1 Raises]; simpl; rewrite H1; tauto].
  pose proof (read_spec n2 ser1) as Hr2.
  destruct (read n2 ser1) as [r2 ser2].
  inversion Hr2 as [b s _ H2|s H2]; subst;
    [|exists [EvRead n1 (Data a); EvRead n2 Raises]; cbn [fst snd];
      rewrite H2, H1, <- app_assoc; simpl; rewrite andb_false_r; tauto].
  destruct third as [n3|].
  - pose proof (read_spec n3 ser2) as Hr3.
    destruct (read n3 ser2) as [r3 ser3].
    inversion Hr3 as [c s _ H3|s H3]; subst.
    + exists [EvRead n1 (Data a); EvRead n2 (Data b); EvRead n3 (Data c)].
      cbn [fst snd ret]. rewrite H3, H2, H1, <- !app_assoc.
      simpl. rewrite andb_true_r, andb_assoc.
      repeat split. discriminate.
    + exists [EvRead n1 (Data a); EvRead n2 (Data b); EvRead n3 Raises].
      cbn [fst snd]. rewrite H3, H2, H1, <- !app_assoc.
      simpl. rewrite !andb_false_r. tauto.
  - exists [EvRead n1 (Data a); EvRead n2 (Data b)].
    cbn [fst snd ret]. rewrite H2, H1, <- !app_assoc.
    simpl. rewrite !andb_true_r. tauto.
Qed.

(** What follows the reads is the same in [ExtCrc] and [ExtChecksum]: the
    length test, the marker test with its two flushes, the response. *)
Lemma checks_exchanged (frame : pystr) (full : nat) (ser ser0 ser1 : Serial)
  (evs : list event) (response : pystr) (lengths_bad markers_bad : bool) :
  log ser0 = log ser ++ [EvWrite frame] ->
  log ser1 = log ser0 ++ evs ->
  forallb is_read evs = true ->
  forallb read_full evs = negb lengths_bad ->
  (lengths_bad = false -> List.length response = full) ->
  exchanged frame full ser
    ((if lengths_bad then ret ([], true)
      else if markers_bad
           then bind flushInput (fun _ =>
                bind flushOutput (fun _ => ret ([], true)))
           else ret (response, false)) ser1).
Proof.
  intros H0 H1 Hreads Hfull Hlen.
  destruct (reads_only evs Hreads) as [Hfl Hwr].
  destruct lengths_bad; [|destruct markers_bad].
  - apply exchanged_error with (evs := evs).
    + rewrite H1, H0, <- app_assoc. reflexivity.
    + exact Hwr.
    + unfold flushed_iff_reads_full. rewrite Hfull. exact Hfl.
  - unfold bind, flushInput, flushOutput, ret.
    apply exchanged_error with (evs := evs ++ [EvFlushInput; EvFlushOutput]).
    + rewrite !emit_log, H1, H0, <- !app_assoc. reflexivity.
    + rewrite writes_app, Hwr. reflexivity.
    + unfold flushed_iff_reads_full. rewrite forallb_app, Hfull.
      exists evs. split; [reflexivity | exact Hfl].
  - apply exchanged_ok with (evs := evs).
    + rewrite H1, H0, <- app_assoc. reflexivity.
    + exact Hwr.
    + exact Hfl.
    + exact Hfull.
    + apply Hlen. reflexivity.
Qed.

Lemma ExtCrc_bad_length (cmdStr : pystr) (extreadback : bool) (ser : Serial) :
  List.length cmdStr <> 20%nat ->
  ExtCrc cmdStr extreadback ser = (Some ([], true), ser).
Proof.
  intros H. unfold ExtCrc. apply Nat.eqb_neq in H. rewrite H. reflexivity.
Qed.

Lemma ExtCrc_exchanged (cmdStr : pystr) (extreadback : bool) (ser : Serial) :
  List.length cmdStr = 20%nat ->
  exchanged (cmdStr ++ CalcCrcStr (lastn 14 cmdStr))
            (if extreadback then 25 else 0) ser
            (ExtCrc cmdStr extreadback ser).
Proof.
  intros Hlen. unfold ExtCrc. rewrite Hlen. cbn [Nat.eqb negb]. cbv zeta.
  set (frame := cmdStr ++ CalcCrcStr (lastn 14 cmdStr)).
  unfold bind at 1. unfold write at 1.
  set (ser0 := emit (EvWrite frame) ser).
  assert (H0 : log ser0 = log ser ++ [EvWrite frame]) by reflexivity.
  unfold bind at 1.
  destruct (reads_in_try 23 11 (if extreadback then Some 25%nat else None) ser0)
    as [evs [H1 [Hreads Hres]]].
  cbv zeta in H1, Hres.
  replace (match (if extreadback then Some 25%nat else None) with
           | Some n3 => read n3
           | None => ret []
           end) with (if extreadback then read 25 else ret [])
    in H1, Hres by (destruct extreadback; reflexivity).
  match type of H1 with
  | log (snd (?blk ser0)) = _ => destruct (blk ser0) as [r ser1]
  end.
  cbn [fst snd] in H1, Hres.
  destruct r as [[[[echo ack] response]|]|]; [| |contradiction].
  - destruct Hres as [Hres Hnone].
    match goal with
    | |- exchanged _ _ _ ((if ?lb then _ else if ?mb then _ else _) ser1) =>
        apply (checks_exchanged frame _ ser ser0 ser1 evs response lb mb
                 H0 H1 Hreads)
    end.
    + rewrite Hres. destruct extreadback.
      * rewrite !negb_orb, !negb_involutive. reflexivity.
      * rewrite orb_false_r, andb_true_r, !negb_orb, !negb_involutive.
        reflexivity.
    + intros Hb. apply orb_false_elim in Hb. destruct Hb as [_ Hr].
      destruct extreadback.
      * apply negb_false_iff, Nat.eqb_eq in Hr. exact Hr.
      * rewrite Hnone by reflexivity. reflexivity.
  - apply exchanged_error with (evs := evs).
    + rewrite H1, H0, <- app_assoc. reflexivity.
    + apply reads_only. exact Hreads.
    + unfold flushed_iff_reads_full. rewrite Hres.
      apply reads_only. exact Hreads.
Qed.

Lemma ExtChecksum_bad_length (cmdStr : pystr) (ser : Serial) :
  List.length cmdStr <> 21%nat ->
  ExtChecksum cmdStr ser = (Some ([], true), ser).
Proof.
  intros H. unfold ExtChecksum. apply Nat.eqb_neq in H. rewrite H.
  reflexivity.
Qed.

Lemma ExtChecksum_exchanged (cmdStr : pystr) (ser : Serial) :
  List.length cmdStr = 21%nat ->
  exchanged (cmdStr ++ [checksum (lastn 15 cmdStr)]) 25 ser
            (ExtChecksum cmdStr ser).
Proof.
  intros Hlen. unfold ExtChecksum. rewrite Hlen. cbn [Nat.eqb negb]. cbv zeta.
  set (frame := cmdStr ++ [checksum (lastn 15 cmdStr)]).
  unfold bind at 1. unfold write at 1.
  set (ser0 := emit (EvWrite frame) ser).
  assert (H0 : log ser0 = log ser ++ [EvWrite frame]) by reflexivity.
  unfold bind at 1.
  destruct (reads_in_try 23 11 (Some 25%nat) ser0) as [evs [H1 [Hreads Hres]]].
  cbv zeta in H1, Hres.
  match type of H1 with
  | log (snd (?blk ser0)) = _ => destruct (blk ser0) as [r ser1]
  end.
  cbn [fst snd] in H1, Hres.
  destruct r as [[[[echo ack] response]|]|]; [| |contradiction].
  - destruct Hres as [Hres _].
    match goal with
    | |- exchanged _ _ _ ((if ?lb then _ else if ?mb then _ else _) ser1) =>
        apply (checks_exchanged frame _ ser ser0 ser1 evs response lb mb
                 H0 H1 Hreads)
    end.
    + rewrite Hres, !negb_orb, !negb_involutive. reflexivity.
    + intros Hb. apply orb_false_elim in Hb. destruct Hb as [_ Hr].
      apply negb_false_iff, Nat.eqb_eq in Hr. exact Hr.
  - apply exchanged_error with (evs := evs).
    + rewrite H1, H0, <- app_assoc. reflexivity.
    + apply reads_only. exact Hreads.
    + unfold flushed_iff_reads_full. rewrite Hres.
      apply reads_only. exact Hreads.
Qed.

End Transport.

Lemma run_exchange_cases (x : exchange) (ser : Serial) :
  match exchange_frame x with
  | Some (frame, full) => exchanged frame full ser (run_exchange x ser)
  | None => run_exchange x ser = (Some ([], true), ser)
  end.
Proof.
  destruct x as [cmdStr n|cmdStr rb|cmdStr]; simpl.
  - destruct (List.length cmdStr =? 8)%nat eqn:H.
    + apply StdCmd_exchanged, Nat.eqb_eq, H.
    + apply StdCmd_bad_length, Nat.eqb_neq, H.
  - destruct (List.length cmdStr =? 20)%nat eqn:H.
    + apply ExtCrc_exchanged, Nat.eqb_eq, H.
    + apply ExtCrc_bad_length, Nat.eqb_neq, H.
  - destruct (List.length cmdStr =? 21)%nat eqn:H.
    + apply ExtChecksum_exchanged, Nat.eqb_eq, H.
    + apply ExtChecksum_bad_length, Nat.eqb_neq, H.
Qed.

(** No exchange lets an exception through. *)
Lemma run_exchange_returns (x : exchange) (ser : Serial) :
  exists response err ser',
    run_exchange x ser = (Some (response, err), ser').
Proof.
  pose proof (run_exchange_cases x ser) as H.
  destruct (exchange_frame x) as [[frame full]|].
  - inversion H; subst; eauto.
  - eauto.
Qed.

(** Claim C3, as the code has it.  When an exchange ([StdCmd], [ExtCrc] or
    [ExtChecksum]) returns an error, the channel shows one of two things.
    If the exchange was started and every read came back with the number
    of bytes asked for (so the error is a marker out of place), both
    buffers were flushed, input first, as the last two events before the
    return, and nowhere else.  Otherwise (a command of the wrong length,
    a read that raised, a read that came back short) nothing was
    flushed. *)
Theorem exchange_error_flushes_on_marker_mismatch_only
  (x : exchange) (ser ser' : Serial) (response : pystr) :
  run_exchange x ser = (Some (response, true), ser') ->
  exists evs,
    log ser' = log ser ++ evs
    /\ ((evs <> [] /\ forallb read_full evs = true
         /\ exists pre, evs = pre ++ [EvFlushInput; EvFlushOutput]
                        /\ flushes pre = [])
        \/ ((evs = [] \/ forallb read_full evs = false)
            /\ flushes evs = [])).
Proof.
  intros Hrun.
  pose proof (run_exchange_cases x ser) as H.
  destruct (exchange_frame x) as [[frame full]|].
  - rewrite Hrun in H.
    inversion H as [|s evs Hlog Hwr Hfl]; subst.
    exists (EvWrite frame :: evs). split; [exact Hlog|].
    unfold flushed_iff_reads_full in Hfl.
    destruct (forallb read_full evs) eqn:Hfull.
    + left. split; [discriminate|]. split; [exact Hfull|].
      destruct Hfl as [pre [Hevs Hpre]].
      exists (EvWrite frame :: pre). rewrite Hevs. split; [reflexivity|].
      exact Hpre.
    + right. split; [right; exact Hfull | exact Hfl].
  - rewrite Hrun in H. inversion H; subst.
    exists []. rewrite app_nil_r. split; [reflexivity|].
    right. split; [left; reflexivity | reflexivity].
Qed.

(** A reply of the right sizes whose standard marker is 0x51 instead of
    0x50: the error, and the two flushes at the end. *)
Lemma exchange_error_flushes_on_marker_mismatch_only_witness :
  run_exchange (XStdCmd level_request 1) misplaced_reply
  = (Some ([], true), after_misplaced_reply)
  /\ exists evs,
       log after_misplaced_reply = log misplaced_reply ++ evs
       /\ ((evs <> [] /\ forallb read_full evs = true
            /\ exists pre, evs = pre ++ [EvFlushInput; EvFlushOutput]
                           /\ flushes pre = [])
           \/ ((evs = [] \/ forallb read_full evs = false)
               /\ flushes evs = [])).
Proof.
  split; [reflexivity|].
  apply (exchange_error_flushes_on_marker_mismatch_only
           (XStdCmd level_request 1) misplaced_reply after_misplaced_reply []).
  reflexivity.
Defined.

(** Against claim C3 as stated: an echo that comes back short (a length
    mismatch) and a read that raises (an I/O failure) both end the
    exchange in error with no flush at all on the channel. *)
Lemma exchange_error_without_flush :
  StdCmd level_request 1 (mkSerial [Data [0x02; 0x62; 0x11]] [])
  = (Some ([], true),
     mkSerial [] [EvWrite level_request; EvRead 9 (Data [0x02; 0x62; 0x11]);
                  EvRead 11 (Data [])])
  /\ StdCmd level_request 1 (mkSerial [Raises] [])
     = (Some ([], true),
        mkSerial [] [EvWrite level_request; EvRead 9 Raises]).
Proof.
  split; reflexivity.
Qed.

(** * The objects on top of the exchanges *)

Section Controllers.

Lemma prefix_valid (a0 a1 a2 flags : Z) (ser : Serial) :
  valid_address [a0; a1; a2] ->
  prefix [a0; a1; a2] flags ser = (Some [0x02; 0x62; a0; a1; a2; flags], ser).
Proof.
  intros [_ Hall].
  inversion Hall as [|? ? H0 Hall1]; subst.
  inversion Hall1 as [|? ? H1 Hall2]; subst.
  inversion Hall2 as [|? ? H2 _]; subst.
  unfold prefix, address_chr, bind. cbn [nth_error lift ret].
  rewrite !chr_byte by assumption. reflexivity.
Qed.

Lemma exchanged_writes (frame : pystr) (full : nat) (ser : Serial)
  (out : option (pystr * bool) * Serial) :
  exchanged frame full ser out ->
  writes (log (snd out)) = writes (log ser) ++ [frame].
Proof.
  intros H. inversion H as [r s evs Hlog Hwr|s evs Hlog Hwr]; subst;
    cbn [snd]; rewrite Hlog, writes_app; simpl; rewrite Hwr; reflexivity.
Qed.

Lemma writes_emit_flush (ser : Serial) :
  writes (log (emit EvFlushOutput (emit EvFlushInput ser))) = writes (log ser).
Proof.
  rewrite !emit_log, !writes_app. simpl. rewrite !app_nil_r. reflexivity.
Qed.

Lemma errorReporting_is_localError (localError errorStatus : bool) :
  errorReporting localError errorStatus = localError.
Proof. destruct localError; reflexivity. Qed.

(** [GetState] of the dimmer can set [manualOverride]; it never clears
    it. *)
Lemma dimmer_GetState_keeps_override (self self' : dimmer.t)
  (ser ser' : Serial) :
  dimmer.GetState self ser = (Some self', ser') ->
  dimmer.manualOverride self = true ->
  dimmer.manualOverride self' = true.
Proof.
  unfold dimmer.GetState. intros Hrun Hover.
  destruct (is_null (dimmer.address self)).
  - inversion Hrun; subst. exact Hover.
  - unfold bind at 1 in Hrun. unfold flushInput at 1 in Hrun.
    unfold bind at 1 in Hrun. unfold flushOutput at 1 in Hrun.
    unfold bind at 1 in Hrun.
    destruct (prefix (dimmer.address self) 15 _) as [[pre|] s0];
      [|discriminate].
    unfold bind at 1 in Hrun.
    destruct (StdCmd (pre ++ [25; 0]) 1 s0) as [[[response err]|] s1];
      [|discriminate].
    destruct err; cbn [negb] in Hrun.
    + inversion Hrun; subst. exact Hover.
    + unfold bind, lift in Hrun.
      destruct (last_item response) as [x|]; [|discriminate].
      cbn [ret] in Hrun.
      match type of Hrun with
      | (if ?t then _ else _) _ = _ => destruct t
      end; inversion Hrun; subst; simpl; auto.
Qed.

(** ** The four exchanges of the thermostat's [GetState]

    For each of them: it returns; with [cumError] coming in it gives back
    its own error flag or-ed with it; it writes its frame once; it changes
    its own fields only; and when it fails it changes nothing. *)

Lemma thermostat_eta (self : thermostat.t) :
  thermostat.mk (thermostat.address self) (thermostat.mode self)
    (thermostat.modeText self) (thermostat.targetHeat self)
    (thermostat.targetCool self) (thermostat.actualTemp self)
    (thermostat.actualHumi self) (thermostat.schedule self)
    (thermostat.errorStatus self) (thermostat.verbose self) = self.
Proof. destruct self; reflexivity. Qed.

Lemma get_mode_step (preStr : pystr) (self : thermostat.t) (ser : Serial) :
  List.length preStr = 6%nat ->
  exists self' e ser',
    (forall c, thermostat.get_mode preStr (self, c) ser
               = (Some (self', e || c), ser'))
    /\ writes (log ser') = writes (log ser) ++ [preStr ++ [0x6B; 0x02]]
    /\ (exists m txt, self' = thermostat.set_mode self m txt)
    /\ (e = true -> self' = self).
Proof.
  intros Hlen.
  assert (Hframe : List.length (preStr ++ [0x6B; 0x02]) = 8%nat)
    by (rewrite length_app, Hlen; reflexivity).
  pose proof (StdCmd_exchanged _ 1 ser Hframe) as Hx.
  pose proof (exchanged_writes _ _ _ _ Hx) as Hw.
  destruct (StdCmd (preStr ++ [0x6B; 0x02]) 1 ser) as [r ser1] eqn:Hcmd.
  cbn [snd] in Hw.
  assert (Hfail : forall response,
            (response = [] \/ exists x, last_item response = Some x
                                        /\ (x <? 8) && (x >=? 0) = false) ->
            forall err,
            r = Some (response, err) ->
            exists self' e ser',
              (forall c, thermostat.get_mode preStr (self, c) ser
                         = (Some (self', e || c), ser'))
              /\ writes (log ser') = writes (log ser) ++ [preStr ++ [0x6B; 0x02]]
              /\ (exists m txt, self' = thermostat.set_mode self m txt)
              /\ (e = true -> self' = self)).
  { intros response Hbad err ->.
    exists self, true, (emit EvFlushOutput (emit EvFlushInput ser1)).
    split.
    - intros c. unfold thermostat.get_mode, bind. rewrite Hcmd.
      destruct Hbad as [-> | [x [Hlast Hrange]]].
      + cbn [last_item List.length Nat.sub nth_error].
        replace (9 <? 8) with false by reflexivity.
        rewrite andb_false_r. reflexivity.
      + rewrite Hlast, <- andb_assoc, Hrange, andb_false_r. reflexivity.
    - rewrite writes_emit_flush. split; [exact Hw|].
      split; [|reflexivity].
      exists (thermostat.mode self), (thermostat.modeText self).
      unfold thermostat.set_mode. symmetry. apply thermostat_eta. }
  inversion Hx as [response s evs _ _ _ _ Hfull|s evs _ _ _]; subst.
  - destruct (last_item response) as [x|] eqn:Hlast.
    + destruct ((x <? 8) && (x >=? 0)) eqn:Hrange.
      * eexists _, false, ser1. split.
        -- intros c. unfold thermostat.get_mode, bind. rewrite Hcmd.
           rewrite Hlast. cbn [negb]. rewrite andb_true_l, Hrange.
           reflexivity.
        -- split; [exact Hw|]. split; [eauto | discriminate].
      * apply (Hfail response) with (err := false);
          [right; eauto | reflexivity].
    + unfold last_item in Hlast. apply nth_error_None in Hlast.
      rewrite Hfull in Hlast. simpl in Hlast. lia.
  - apply (Hfail []) with (err := true); [left; reflexivity | reflexivity].
Qed.

(** The shape the other three exchanges share. *)
Lemma plain_step (X : IO (pystr * bool)) (frame : pystr) (full : nat)
  (upd : thermostat.t -> pystr -> thermostat.t) (self : thermostat.t)
  (ser : Serial) :
  exchanged frame full ser (X ser) ->
  exists self' e ser',
    (forall c,
       bind X (fun '(response, localError) =>
         let cumError := localError || c in
         if negb localError then ret (upd self response, cumError)
         else bind flushInput (fun _ =>
              bind flushOutput (fun _ => ret (self, cumError)))) ser
       = (Some (self', e || c), ser'))
    /\ writes (log ser') = writes (log ser) ++ [frame]
    /\ (e = true -> self' = self)
    /\ (e = false -> exists response, self' = upd self response).
Proof.
  intros Hx.
  pose proof (exchanged_writes _ _ _ _ Hx) as Hw.
  destruct (X ser) as [r ser1] eqn:HX. cbn [snd] in Hw.
  inversion Hx as [response s evs _ _ _ _ Hfull|s evs _ _ _]; subst.
  - exists (upd self response), false, ser1. split.
    + intros c. unfold bind. rewrite HX. reflexivity.
    + split; [exact Hw|]. split; [discriminate | eauto].
  - exists self, true, (emit EvFlushOutput (emit EvFlushInput ser1)). split.
    + intros c. unfold bind. rewrite HX. reflexivity.
    + rewrite writes_emit_flush. split; [exact Hw|].
      split; [reflexivity | discriminate].
Qed.

Lemma get_setpoints_step (preStr : pystr) (self : thermostat.t)
  (ser : Serial) :
  List.length preStr = 6%nat ->
  exists self' e ser',
    (forall c, thermostat.get_setpoints preStr (self, c) ser
               = (Some (self', e || c), ser'))
    /\ writes (log ser') = writes (log ser) ++ [preStr ++ [0x6A; 0x20]]
    /\ (exists heat cool, self' = thermostat.set_targets self heat cool)
    /\ (e = true -> self' = self).
Proof.
  intros Hlen.
  assert (Hframe : List.length (preStr ++ [0x6A; 0x20]) = 8%nat)
    by (rewrite length_app, Hlen; reflexivity).
  destruct (plain_step _ _ _
              (fun self response =>
                 thermostat.set_targets self
                   ((ord_last (firstn 11 response) + 1) / 2)
                   ((ord_last (skipn 11 response) + 1) / 2))
              self ser (StdCmd_exchanged _ 2 ser Hframe))
    as [self' [e [ser' [Hrun [Hw [Hfail Hok]]]]]].
  exists self', e, ser'. split; [exact Hrun|]. split; [exact Hw|].
  split; [|exact Hfail].
  destruct e.
  - rewrite Hfail by reflexivity.
    exists (thermostat.targetHeat self), (thermostat.targetCool self).
    unfold thermostat.set_targets. symmetry. apply thermostat_eta.
  - destruct (Hok eq_refl) as [response ->]. eauto.
Qed.

Lemma get_humidity_step (preStr : pystr) (self : thermostat.t)
  (ser : Serial) :
  List.length preStr = 6%nat ->
  exists self' e ser',
    (forall c, thermostat.get_humidity preStr (self, c) ser
               = (Some (self', e || c), ser'))
    /\ writes (log ser') = writes (log ser) ++ [preStr ++ [0x6A; 0x60]]
    /\ (exists humi, self' = thermostat.set_actualHumi self humi)
    /\ (e = true -> self' = self).
Proof.
  intros Hlen.
  assert (Hframe : List.length (preStr ++ [0x6A; 0x60]) = 8%nat)
    by (rewrite length_app, Hlen; reflexivity).
  destruct (plain_step _ _ _
              (fun self response =>
                 thermostat.set_actualHumi self (ord_last response))
              self ser (StdCmd_exchanged _ 1 ser Hframe))
    as [self' [e [ser' [Hrun [Hw [Hfail Hok]]]]]].
  exists self', e, ser'. split; [exact Hrun|]. split; [exact Hw|].
  split; [|exact Hfail].
  destruct e.
  - rewrite Hfail by reflexivity.
    exists (thermostat.actualHumi self).
    unfold thermostat.set_actualHumi. symmetry. apply thermostat_eta.
  - destruct (Hok eq_refl) as [response ->]. eauto.
Qed.

(** The frame of the fourth exchange, with its checksum. *)
Lemma get_temperature_step (preStr : pystr) (self : thermostat.t)
  (ser : Serial) :
  List.length preStr = 6%nat ->
  let cmd := (removelast preStr ++ [0x1F]) ++ 0x2E :: thermostat.zeros 14 in
  exists self' e ser',
    (forall c, thermostat.get_temperature preStr (self, c) ser
               = (Some (self', e || c), ser'))
    /\ writes (log ser')
       = writes (log ser) ++ [cmd ++ [checksum (lastn 15 cmd)]]
    /\ (exists temp, self' = thermostat.set_actualTemp self temp)
    /\ (e = true -> self' = self).
Proof.
  intros Hlen cmd.
  assert (Hframe : List.length cmd = 21%nat).
  { unfold cmd. rewrite !length_app.
    destruct preStr as [|a [|b [|c [|d [|e [|f [|g r]]]]]]]; try discriminate.
    reflexivity. }
  destruct (plain_step _ _ _
              (fun self response =>
                 thermostat.set_actualTemp self
                   (Qmake (ord_at response 13 * 256 + ord_at response 14) 10))
              self ser (ExtChecksum_exchanged _ ser Hframe))
    as [self' [e [ser' [Hrun [Hw [Hfail Hok]]]]]].
  exists self', e, ser'. split; [exact Hrun|]. split; [exact Hw|].
  split; [|exact Hfail].
  destruct e.
  - rewrite Hfail by reflexivity.
    exists (thermostat.actualTemp self).
    unfold thermostat.set_actualTemp. symmetry. apply thermostat_eta.
  - destruct (Hok eq_refl) as [response ->]. eauto.
Qed.

(** [GetState] of the thermostat on a valid address that is not null: the
    two flushes, then the four exchanges in a row. *)
Lemma GetState_composition (self : thermostat.t) (ser : Serial)
  (a0 a1 a2 : Z) :
  thermostat.address self = [a0; a1; a2] ->
  valid_address [a0; a1; a2] ->
  [a0; a1; a2] <> null_address ->
  let preStr := [0x02; 0x62; a0; a1; a2; 0x0F] in
  let extCmd := [0x02; 0x62; a0; a1; a2; 0x1F] ++ 0x2E :: thermostat.zeros 14 in
  let ser0 := emit EvFlushOutput (emit EvFlushInput ser) in
  exists self1 e1 ser1 self2 e2 ser2 self3 e3 ser3 self4 e4 ser4,
    thermostat.get_mode preStr (self, false) ser0 = (Some (self1, e1), ser1)
    /\ thermostat.get_setpoints preStr (self1, false) ser1
       = (Some (self2, e2), ser2)
    /\ thermostat.get_humidity preStr (self2, false) ser2
       = (Some (self3, e3), ser3)
    /\ thermostat.get_temperature preStr (self3, false) ser3
       = (Some (self4, e4), ser4)
    /\ thermostat.GetState self ser
       = (Some (thermostat.set_errorStatus self4 (e1 || e2 || e3 || e4)), ser4)
    /\ writes (log ser4)
       = writes (log ser)
         ++ [preStr ++ [0x6B; 0x02]; preStr ++ [0x6A; 0x20];
             preStr ++ [0x6A; 0x60]; extCmd ++ [checksum (lastn 15 extCmd)]]
    /\ (exists m txt, self1 = thermostat.set_mode self m txt)
    /\ (exists heat cool, self2 = thermostat.set_targets self1 heat cool)
    /\ (exists humi, self3 = thermostat.set_actualHumi self2 humi)
    /\ (exists temp, self4 = thermostat.set_actualTemp self3 temp)
    /\ (e1 = true -> self1 = self)
    /\ (e2 = true -> self2 = self1)
    /\ (e3 = true -> self3 = self2)
    /\ (e4 = true -> self4 = self3).
Proof.
  intros Haddr Hvalid Hnonnull preStr extCmd ser0.
  assert (Hlen : List.length preStr = 6%nat) by reflexivity.
  destruct (get_mode_step preStr self ser0 Hlen)
    as [self1 [e1 [ser1 [R1 [W1 [F1 U1]]]]]].
  destruct (get_setpoints_step preStr self1 ser1 Hlen)
    as [self2 [e2 [ser2 [R2 [W2 [F2 U2]]]]]].
  destruct (get_humidity_step preStr self2 ser2 Hlen)
    as [self3 [e3 [ser3 [R3 [W3 [F3 U3]]]]]].
  destruct (get_temperature_step preStr self3 ser3 Hlen)
    as [self4 [e4 [ser4 [R4 [W4 [F4 U4]]]]]].
  exists self1, e1, ser1, self2, e2, ser2, self3, e3, ser3, self4, e4, ser4.
  split; [rewrite R1, orb_false_r; reflexivity|].
  split; [rewrite R2, orb_false_r; reflexivity|].
  split; [rewrite R3, orb_false_r; reflexivity|].
  split; [rewrite R4, orb_false_r; reflexivity|].
  split.
  { unfold thermostat.GetState.
    replace (is_null (thermostat.address self)) with false.
    2:{ symmetry. rewrite Haddr. unfold is_null.
        destruct (list_eq_dec Z.eq_dec [a0; a1; a2] null_address);
          [contradiction | reflexivity]. }
    unfold bind at 1. unfold flushInput at 1.
    unfold bind at 1. unfold flushOutput at 1.
    unfold bind at 1. rewrite Haddr, prefix_valid by exact Hvalid.
    fold preStr. fold ser0.
    unfold bind at 1. rewrite R1.
    unfold bind at 1. rewrite R2.
    unfold bind at 1. rewrite R3.
    unfold bind at 1. rewrite R4.
    unfold ret. rewrite errorReporting_is_localError.
    do 2 f_equal. f_equal.
    destruct e1, e2, e3, e4; reflexivity. }
  split.
  { rewrite W4, W3, W2, W1. unfold ser0. rewrite writes_emit_flush.
    rewrite <- !app_assoc. reflexivity. }
  tauto.
Qed.

End Controllers.

(** * The dimmer's manual override *)

(** Claim C1, at an input where the code departs from it.  The dimmer is
    switched off with success; a first [GetState] sees the light fully on
    and sets [manualOverride]; a second [GetState] sees it off again, at
    level 0: the observation now agrees with the commanded state, yet
    [manualOverride] is still true, because [GetState] only ever sets the
    flag. *)
Theorem dimmer_override_survives_matching_GetState :
  fst (dimmer_calls (fun level => level) hall_dimmer
         [DSetOff; DGetState; DGetState] off_on_off_replies)
  = Some (dimmer.mk [0x11; 0x22; 0x33] false 0 false 0 true false false).
Proof. vm_compute. reflexivity. Qed.

(** * The thermostat's [GetState] *)

Section ThermostatState.

Lemma get_mode_decode (preStr : pystr) (self : thermostat.t) (c : bool)
  (ser ser1 : Serial) (response : pystr) (b : Z) :
  StdCmd (preStr ++ [0x6B; 0x02]) 1 ser = (Some (response, false), ser1) ->
  last_item response = Some b ->
  thermostat.get_mode preStr (self, c) ser
  = if (b <? 8) && (b >=? 0)
    then (Some (thermostat.set_mode self b
                  (nth (Z.to_nat b) thermostat.modeTextArray EmptyString), c),
          ser1)
    else (Some (self, true), emit EvFlushOutput (emit EvFlushInput ser1)).
Proof.
  intros Hcmd Hlast. unfold thermostat.get_mode, bind. rewrite Hcmd, Hlast.
  cbn [negb]. rewrite andb_true_l.
  destruct ((b <? 8) && (b >=? 0)); reflexivity.
Qed.

End ThermostatState.

(** Claim C2, as the code has it.  In the thermostat's [GetState], when the
    mode exchange succeeds, its response byte decodes as follows: the values
    0 to 7 are stored as the mode, with the names Off, Heat, Cool, Auto,
    Fan, Program, Program Heat, Program Cool; every value from 8 on, the
    value 8 included, is invalid: it forces the error of the call and the
    stored mode and its name stay as they were. *)
Theorem mode_byte_decoding
  (self : thermostat.t) (ser ser1 : Serial) (a0 a1 a2 : Z)
  (response : pystr) (b : Z) :
  thermostat.address self = [a0; a1; a2] ->
  valid_address [a0; a1; a2] ->
  [a0; a1; a2] <> null_address ->
  StdCmd ([0x02; 0x62; a0; a1; a2; 0x0F] ++ [0x6B; 0x02]) 1
         (emit EvFlushOutput (emit EvFlushInput ser))
  = (Some (response, false), ser1) ->
  last_item response = Some b ->
  exists result ser',
    thermostat.GetState self ser = (Some result, ser')
    /\ (forall txt, In (b, txt) mode_names ->
                    thermostat.mode result = b
                    /\ thermostat.modeText result = txt)
    /\ (8 <= b ->
        thermostat.mode result = thermostat.mode self
        /\ thermostat.modeText result = thermostat.modeText self
        /\ thermostat.errorStatus result = true).
Proof.
  intros Haddr Hvalid Hnonnull Hcmd Hlast.
  destruct (GetState_composition self ser a0 a1 a2 Haddr Hvalid Hnonnull)
    as (self1 & e1 & ser1' & self2 & e2 & ser2 & self3 & e3 & ser3 & self4
        & e4 & ser4 & R1 & _ & _ & _ & Hrun & _ & _ & (heat & cool & F2)
        & (humi & F3) & (temp & F4) & _).
  rewrite (get_mode_decode _ self false _ _ _ _ Hcmd Hlast) in R1.
  exists (thermostat.set_errorStatus self4 (e1 || e2 || e3 || e4)), ser4.
  split; [exact Hrun|].
  subst self4 self3 self2. cbn.
  split.
  - intros txt Hin.
    assert (Hb : 0 <= b < 8 /\ nth (Z.to_nat b) thermostat.modeTextArray EmptyString = txt).
    { unfold mode_names in Hin. cbn [In] in Hin.
      repeat (destruct Hin as [Hin|Hin];
              [inversion Hin; subst; split; [lia | reflexivity]|]).
      contradiction. }
    destruct Hb as [Hb Htxt].
    replace ((b <? 8) && (b >=? 0)) with true in R1.
    2:{ symmetry. apply andb_true_iff. split; [apply Z.ltb_lt | apply Z.geb_le]; lia. }
    inversion R1; subst. split; reflexivity.
  - intros Hb.
    replace ((b <? 8) && (b >=? 0)) with false in R1.
    2:{ symmetry. apply andb_false_iff. left. apply Z.ltb_ge. lia. }
    inversion R1; subst. repeat split.
Qed.

Lemma mode_byte_decoding_witness :
  thermostat.address cool_thermostat = [0x11; 0x22; 0x33]
  /\ exists result ser',
       thermostat.GetState cool_thermostat (state_replies 1)
       = (Some result, ser')
       /\ (forall txt, In (1, txt) mode_names ->
                       thermostat.mode result = 1
                       /\ thermostat.modeText result = txt)
       /\ (8 <= 1 ->
           thermostat.mode result = thermostat.mode cool_thermostat
           /\ thermostat.modeText result = thermostat.modeText cool_thermostat
           /\ thermostat.errorStatus result = true).
Proof.
  split; [reflexivity|].
  eapply (mode_byte_decoding cool_thermostat (state_replies 1) _
            0x11 0x22 0x33 _ 1).
  - reflexivity.
  - split; [reflexivity|]. repeat constructor; lia.
  - discriminate.
  - reflexivity.
  - reflexivity.
Defined.

(** Against claim C2 as stated: with every exchange of [GetState]
    answered well and the mode byte equal to 8, the mode is not stored as
    8 with the name Unknown; the mode and its name stay (here 2, Cool) and
    the call ends in error. *)
Lemma mode_byte_8_is_an_error :
  fst (thermostat.GetState cool_thermostat (state_replies 8))
  = Some (thermostat.mk [0x11; 0x22; 0x33] 2 "Cool" 18 24 (215 # 10) 40 []
            true false).
Proof. vm_compute. reflexivity. Qed.

(** * The exchanges, in detail *)

Section ExchangeDetails.

Lemma std_markers_fold (response : pystr) (l : list nat) : forall acc : bool,
  fold_left
    (fun (stdErr : bool) (iResponse : nat) =>
       let iChar := (1 + 11 * iResponse)%nat in
       negb (char_at_is response iChar 0x50 && negb stdErr)) l acc
  = negb (forallb (fun i => char_at_is response (1 + 11 * i) 0x50) l
          && negb acc).
Proof.
  induction l as [|i l IH]; intros acc.
  - simpl. rewrite negb_involutive. reflexivity.
  - cbn [fold_left forallb]. rewrite IH. cbv zeta.
    rewrite negb_involutive.
    destruct (char_at_is response (1 + 11 * i) 80), acc,
      (forallb (fun i0 => char_at_is response (1 + 11 * i0) 80) l);
      reflexivity.
Qed.

Lemma char_at_is_true (s : pystr) (i : nat) (c : Z) :
  char_at_is s i c = true <-> nth_error s i = Some c.
Proof.
  unfold char_at_is. destruct (nth_error s i) as [x|].
  - rewrite Z.eqb_eq. split; [intros ->; reflexivity | intros H; inversion H; reflexivity].
  - split; discriminate.
Qed.

Lemma std_markers_false (response : pystr) (n : nat) :
  std_markers response n = false
  <-> forall i, (i < n)%nat -> nth_error response (1 + 11 * i) = Some 0x50.
Proof.
  unfold std_markers. rewrite std_markers_fold. cbn [negb].
  rewrite andb_true_r, negb_false_iff, forallb_forall.
  split.
  - intros H i Hi. apply char_at_is_true. apply H. apply in_seq. lia.
  - intros H i Hi. apply char_at_is_true. apply H. apply in_seq in Hi. lia.
Qed.

Lemma read_inv (n : nat) (ser ser' : Serial) (bs : pystr) :
  read n ser = (Some bs, ser') ->
  (List.length bs <= n)%nat
  /\ log ser' = log ser ++ [EvRead n (Data bs)]
  /\ pending ser' = tl (pending ser).
Proof.
  unfold read. destruct (pending ser) as [|[d|] rest]; intros H; inversion H; subst.
  - cbn. repeat split; lia.
  - cbn. repeat split. apply firstn_le_length.
Qed.

Lemma read_responses_chunks (n : nat) : forall acc ser resp ser',
  read_responses n acc ser = (Some resp, ser') ->
  exists chunks,
    List.length chunks = n
    /\ resp = acc ++ List.concat chunks
    /\ log ser' = log ser ++ map (fun s => EvRead 11 (Data s)) chunks
    /\ Forall (fun s => (List.length s <= 11)%nat) chunks.
Proof.
  induction n as [|n IH]; intros acc ser resp ser' H.
  - inversion H; subst. exists []. cbn. rewrite !app_nil_r. repeat split. constructor.
  - cbn [read_responses] in H. unfold bind in H.
    destruct (read 11 ser) as [[bs|] ser1] eqn:Hr; [|discriminate].
    apply read_inv in Hr. destruct Hr as (Hle & Hlog & _).
    destruct (IH _ _ _ _ H) as (chunks & Hn & Hresp & Hl & Hall).
    exists (bs :: chunks). cbn [List.length List.concat map].
    split; [lia|]. split; [rewrite Hresp, <- app_assoc; reflexivity|].
    split; [rewrite Hl, Hlog, <- app_assoc; reflexivity|].
    constructor; assumption.
Qed.

Lemma chunks_length_le (chunks : list pystr) :
  Forall (fun s => (List.length s <= 11)%nat) chunks ->
  (List.length (List.concat chunks) <= 11 * List.length chunks)%nat.
Proof.
  induction 1 as [|c cs Hc _ IH]; cbn [List.concat List.length]; [lia|].
  rewrite length_app. lia.
Qed.

Lemma chunks_full (chunks : list pystr) :
  Forall (fun s => (List.length s <= 11)%nat) chunks ->
  List.length (List.concat chunks) = (11 * List.length chunks)%nat ->
  Forall (fun s => List.length s = 11%nat) chunks.
Proof.
  induction 1 as [|c cs Hc Hcs IH]; intros Hlen; [constructor|].
  cbn [List.concat List.length] in Hlen. rewrite length_app in Hlen.
  pose proof (chunks_length_le cs Hcs) as Hle.
  constructor; [lia|]. apply IH. lia.
Qed.

Lemma nth_error_concat_uniform (segs : list pystr) :
  Forall (fun s => List.length s = 11%nat) segs ->
  forall i k, (k < 11)%nat ->
  nth_error (List.concat segs) (k + 11 * i) = nth_error (nth i segs []) k.
Proof.
  induction 1 as [|c cs Hc _ IH]; intros i k Hk.
  - cbn [List.concat]. destruct i; cbn [nth]; rewrite !nth_error_nil; reflexivity.
  - cbn [List.concat]. destruct i as [|i].
    + cbn [nth]. rewrite Nat.mul_0_r, Nat.add_0_r.
      apply nth_error_app1. lia.
    + cbn [nth]. rewrite nth_error_app2 by lia.
      replace (k + 11 * S i - List.length c)%nat with (k + 11 * i)%nat by lia.
      apply IH. exact Hk.
Qed.

Lemma markers_of_segments (segs : list pystr) :
  Forall (fun s => List.length s = 11%nat) segs ->
  (forall i, (i < List.length segs)%nat ->
             nth_error (List.concat segs) (1 + 11 * i) = Some 0x50)
  <-> Forall (fun s => nth_error s 1 = Some 0x50) segs.
Proof.
  intros Hall. split.
  - intros H. apply Forall_forall. intros s Hin.
    destruct (In_nth _ _ [] Hin) as (i & Hi & Hs).
    specialize (H i Hi).
    rewrite (nth_error_concat_uniform segs Hall i 1) in H by lia.
    rewrite <- Hs. exact H.
  - intros H i Hi. rewrite (nth_error_concat_uniform segs Hall i 1) by lia.
    rewrite Forall_forall in H. apply H. apply nth_In. exact Hi.
Qed.

End ExchangeDetails.

(** [StdCmd], the marker loop: the loop of lines 287-290, which negates
    its flag at every turn, ends with [stdErr] false exactly when every one
    of the [nResponse] segments of the response carries the marker 0x50 as
    its second byte; it is the negation of the conjunction of the checks. *)
Theorem std_markers_checks_every_segment (response : pystr) (nResponse : nat) :
  std_markers response nResponse
  = negb (forallb (fun i => char_at_is response (1 + 11 * i) 0x50)
                  (seq 0 nResponse))
  /\ (std_markers response nResponse = false
      <-> forall i, (i < nResponse)%nat ->
                    nth_error response (1 + 11 * i) = Some 0x50).
Proof.
  split.
  - unfold std_markers. rewrite std_markers_fold. cbn [negb].
    rewrite andb_true_r. reflexivity.
  - apply std_markers_false.
Qed.

(** [StdCmd], what a success means: the command had 8 characters and was
    written once; the echo read next had 9 bytes, the last one the ACK 0x06;
    then [nResponse] segments of 11 bytes were read, each with the marker
    0x50 as second byte; nothing was flushed; the response returned is the
    segments put end to end. *)
Theorem StdCmd_success_shape
  (cmdStr : pystr) (nResponse : nat) (ser ser' : Serial) (response : pystr) :
  StdCmd cmdStr nResponse ser = (Some (response, false), ser') ->
  exists echo segments,
    List.length cmdStr = 8%nat
    /\ log ser' = log ser ++ EvWrite cmdStr :: EvRead 9 (Data echo)
                             :: map (fun s => EvRead 11 (Data s)) segments
    /\ List.length echo = 9%nat
    /\ last_item echo = Some 0x06
    /\ List.length segments = nResponse
    /\ Forall (fun s => List.length s = 11%nat /\ nth_error s 1 = Some 0x50)
              segments
    /\ response = List.concat segments.
Proof.
  unfold StdCmd. destruct (List.length cmdStr =? 8)%nat eqn:Hlen; cbn [negb].
  2:{ unfold ret. intros H. inversion H. }
  apply Nat.eqb_eq in Hlen.
  unfold bind at 1. unfold write at 1.
  unfold bind at 1. unfold try. unfold bind at 1.
  destruct (read 9 (emit (EvWrite cmdStr) ser)) as [[echo|] ser1] eqn:Hr.
  2:{ unfold ret. intros H. inversion H. }
  apply read_inv in Hr. destruct Hr as (_ & Hlog1 & _).
  unfold bind at 1.
  destruct (read_responses nResponse [] ser1) as [[resp|] ser2] eqn:Hrr.
  2:{ unfold ret. intros H. inversion H. }
  apply read_responses_chunks in Hrr.
  destruct Hrr as (segments & Hn & Hresp & Hlog2 & Hle).
  cbn [app] in Hresp. unfold ret at 1.
  destruct (List.length echo =? 9)%nat eqn:He; cbn [negb orb].
  2:{ unfold ret. intros H. inversion H. }
  destruct (List.length resp =? 11 * nResponse)%nat eqn:Hfull; cbn [negb].
  2:{ unfold ret. intros H. inversion H. }
  apply Nat.eqb_eq in He, Hfull.
  destruct (last_is echo 6) eqn:Hack; cbn [negb orb].
  2:{ unfold bind, flushInput, flushOutput, ret. intros H. inversion H. }
  destruct (std_markers resp nResponse) eqn:Hm.
  { unfold bind, flushInput, flushOutput, ret. intros H. inversion H. }
  unfold ret. intros H. inversion H; subst response ser'. clear H.
  assert (Hsegs : Forall (fun s => List.length s = 11%nat) segments).
  { apply chunks_full; [exact Hle|]. rewrite <- Hresp, Hfull. f_equal. symmetry. exact Hn. }
  exists echo, segments.
  split; [exact Hlen|].
  split; [rewrite Hlog2, Hlog1, emit_log, <- !app_assoc; reflexivity|].
  split; [exact He|].
  split.
  { unfold last_is in Hack. destruct (last_item echo) as [x|]; [|discriminate].
    apply Z.eqb_eq in Hack. subst x. reflexivity. }
  split; [exact Hn|].
  split; [|exact Hresp].
  pose proof (proj1 (std_markers_false _ _) Hm) as Hm'.
  rewrite Hresp in Hm'. subst nResponse.
  apply (proj1 (markers_of_segments segments Hsegs)) in Hm'.
  rewrite Forall_forall in *. intros s Hs. split; [apply Hsegs | apply Hm']; exact Hs.
Qed.

Section Acceptance.

Lemma read_responses_accepts (segments : list pystr) :
  Forall (fun s => List.length s = 11%nat) segments ->
  forall (acc : pystr) (rest : list read_outcome) (lg : list event),
  read_responses (List.length segments) acc
    (mkSerial (map Data segments ++ rest) lg)
  = (Some (acc ++ List.concat segments),
     mkSerial rest (lg ++ map (fun s => EvRead 11 (Data s)) segments)).
Proof.
  induction 1 as [|s segs Hs _ IH]; intros acc rest lg.
  - cbn. rewrite !app_nil_r. reflexivity.
  - cbn [List.length read_responses map app]. unfold bind, read.
    cbn [pending log].
    assert (Hf : firstn 11 s = s) by (rewrite <- Hs; apply firstn_all).
    rewrite Hf, IH. cbn [List.concat map]. rewrite <- !app_assoc. reflexivity.
Qed.

Lemma last_item_is (s : pystr) (c : Z) :
  last_item s = Some c -> last_is s c = true.
Proof. unfold last_is. intros ->. apply Z.eqb_refl. Qed.

Lemma slice_app_l {A} (a b : nat) (s x : list A) :
  (a <= b <= List.length s)%nat -> slice a b (s ++ x) = slice a b s.
Proof.
  intros Hb. unfold slice. rewrite skipn_app, firstn_app, length_skipn.
  replace (b - a - (List.length s - a))%nat with 0%nat by lia.
  replace (a - List.length s)%nat with 0%nat by lia.
  cbn [skipn firstn]. rewrite app_nil_r. reflexivity.
Qed.

End Acceptance.

Lemma StdCmd_accepts
  (cmdStr echo : pystr) (segments : list pystr) (rest : list read_outcome)
  (lg : list event) :
  List.length cmdStr = 8%nat ->
  List.length echo = 9%nat ->
  last_item echo = Some 0x06 ->
  Forall (fun s => List.length s = 11%nat /\ nth_error s 1 = Some 0x50)
         segments ->
  StdCmd cmdStr (List.length segments)
         (mkSerial (Data echo :: map Data segments ++ rest) lg)
  = (Some (List.concat segments, false),
     mkSerial rest
       (lg ++ EvWrite cmdStr :: EvRead 9 (Data echo)
           :: map (fun s => EvRead 11 (Data s)) segments)).
Proof.
  intros Hlen He Hack Hsegs.
  assert (Hfull : Forall (fun s => List.length s = 11%nat) segments)
    by (eapply Forall_impl; [|exact Hsegs]; cbv beta; tauto).
  assert (Hmark : Forall (fun s => nth_error s 1 = Some 0x50) segments)
    by (eapply Forall_impl; [|exact Hsegs]; cbv beta; tauto).
  unfold StdCmd. rewrite Hlen. cbn [Nat.eqb negb].
  unfold bind at 1. unfold write at 1. unfold emit. cbn [pending log].
  unfold bind at 1. unfold try. unfold bind at 1. unfold read at 1.
  cbn [pending log].
  assert (Hf : firstn 9 echo = echo) by (rewrite <- He; apply firstn_all).
  rewrite Hf. unfold bind at 1. rewrite (read_responses_accepts segments Hfull).
  unfold ret at 1. cbn [app].
  rewrite He. cbn [Nat.eqb negb orb].
  assert (Hl : List.length (List.concat segments)
               = (11 * List.length segments)%nat).
  { clear - Hfull. induction Hfull as [|s segs Hs _ IH]; [reflexivity|].
    cbn [List.concat List.length]. rewrite length_app, IH, Hs. lia. }
  rewrite Hl, Nat.eqb_refl. cbn [negb].
  rewrite (last_item_is _ _ Hack). cbn [negb orb].
  assert (Hm : std_markers (List.concat segments) (List.length segments) = false).
  { apply std_markers_false. apply markers_of_segments; assumption. }
  rewrite Hm. unfold ret. rewrite <- !app_assoc. reflexivity.
Qed.

(** [StdCmd], what it accepts: when the port answers a command of 8
    characters with 9 bytes ending in the ACK 0x06 (the first eight are not
    compared with the command) and then with segments of 11 bytes that each
    carry the marker 0x50, [StdCmd] returns the segments end to end without
    error, reads exactly these answers, and flushes nothing. *)
Theorem StdCmd_accepts_well_formed_reply
  (cmdStr echo : pystr) (segments : list pystr) (rest : list read_outcome)
  (lg : list event) :
  List.length cmdStr = 8%nat ->
  List.length echo = 9%nat ->
  last_item echo = Some 0x06 ->
  Forall (fun s => List.length s = 11%nat /\ nth_error s 1 = Some 0x50)
         segments ->
  StdCmd cmdStr (List.length segments)
         (mkSerial (Data echo :: map Data segments ++ rest) lg)
  = (Some (List.concat segments, false),
     mkSerial rest
       (lg ++ EvWrite cmdStr :: EvRead 9 (Data echo)
           :: map (fun s => EvRead 11 (Data s)) segments)).
Proof.
  intros Hlen He Hack Hsegs.
  apply StdCmd_accepts; assumption.
Qed.

Lemma StdCmd_accepts_well_formed_reply_witness :
  StdCmd level_request 1
         (mkSerial [Data (level_request ++ [0x06]); Data (std_ack 0xFF)] [])
  = (Some (std_ack 0xFF, false),
     mkSerial []
       [EvWrite level_request; EvRead 9 (Data (level_request ++ [0x06]));
        EvRead 11 (Data (std_ack 0xFF))]).
Proof.
  apply (StdCmd_accepts_well_formed_reply level_request
           (level_request ++ [0x06]) [std_ack 0xFF] [] []).
  - reflexivity.
  - reflexivity.
  - reflexivity.
  - repeat constructor.
Defined.

Lemma ExtChecksum_accepts
  (cmdStr echo ack response : pystr) (rest : list read_outcome)
  (lg : list event) :
  List.length cmdStr = 21%nat ->
  List.length echo = 23%nat ->
  last_item echo = Some 0x06 ->
  List.length ack = 11%nat ->
  nth_error ack 1 = Some 0x50 ->
  lastn 2 ack = slice 6 8 cmdStr ->
  List.length response = 25%nat ->
  nth_error response 1 = Some 0x51 ->
  ExtChecksum cmdStr
    (mkSerial (Data echo :: Data ack :: Data response :: rest) lg)
  = (Some (response, false),
     mkSerial rest
       (lg ++ [EvWrite (cmdStr ++ [checksum (lastn 15 cmdStr)]);
               EvRead 23 (Data echo); EvRead 11 (Data ack);
               EvRead 25 (Data response)])).
Proof.
  intros Hlen He Hack Ha Hm Hcmd Hr Hx.
  assert (F1 : firstn 23 echo = echo) by (rewrite <- He; apply firstn_all).
  assert (F2 : firstn 11 ack = ack) by (rewrite <- Ha; apply firstn_all).
  assert (F3 : firstn 25 response = response)
    by (rewrite <- Hr; apply firstn_all).
  unfold ExtChecksum. rewrite Hlen. cbn [Nat.eqb negb]. cbv zeta.
  unfold bind at 1. unfold write at 1. unfold emit. cbn [pending log].
  unfold bind at 1. unfold try. unfold bind at 1. unfold read at 1.
  cbn [pending log]. rewrite F1.
  unfold bind at 1. unfold read at 1. cbn [pending log]. rewrite F2.
  unfold bind at 1. unfold read at 1. cbn [pending log]. rewrite F3.
  unfold ret at 1 2.
  rewrite He, Ha, Hr. cbn [Nat.eqb negb orb].
  rewrite (last_item_is _ _ Hack).
  rewrite (proj2 (char_at_is_true ack 1 0x50) Hm).
  rewrite (proj2 (char_at_is_true response 1 0x51) Hx).
  rewrite slice_app_l by lia. rewrite Hcmd.
  unfold pystr_eqb.
  destruct (list_eq_dec Z.eq_dec (slice 6 8 cmdStr) (slice 6 8 cmdStr));
    [|contradiction].
  cbn [negb andb orb]. unfold ret. rewrite <- !app_assoc. reflexivity.
Qed.

(** [ExtCrc], what a success means: the command had 20 characters and went
    out once, followed by the two CRC bytes; the echo read next had 23
    bytes, the last one 0x06; the acknowledgement had 11 bytes, the marker
    0x50 as second byte and the two command bytes of the frame as its last
    two; with [extreadback] a third read gave the 25 bytes of the response,
    marked 0x51, and without it no third read is made and the response is
    empty; nothing was flushed. *)
Theorem ExtCrc_success_shape
  (cmdStr : pystr) (extreadback : bool) (ser ser' : Serial)
  (response : pystr) :
  ExtCrc cmdStr extreadback ser = (Some (response, false), ser') ->
  exists echo ack,
    List.length cmdStr = 20%nat
    /\ log ser'
       = log ser ++ EvWrite (cmdStr ++ CalcCrcStr (lastn 14 cmdStr))
                 :: EvRead 23 (Data echo) :: EvRead 11 (Data ack)
                 :: (if extreadback then [EvRead 25 (Data response)] else [])
    /\ List.length echo = 23%nat
    /\ last_item echo = Some 0x06
    /\ List.length ack = 11%nat
    /\ nth_error ack 1 = Some 0x50
    /\ lastn 2 ack = slice 6 8 cmdStr
    /\ (if extreadback
        then List.length response = 25%nat /\ nth_error response 1 = Some 0x51
        else response = []).
Proof.
  unfold ExtCrc. destruct (List.length cmdStr =? 20)%nat eqn:Hlen; cbn [negb].
  2:{ unfold ret. intros H. inversion H. }
  apply Nat.eqb_eq in Hlen. cbv zeta.
  set (frame := cmdStr ++ CalcCrcStr (lastn 14 cmdStr)).
  unfold bind at 1. unfold write at 1.
  unfold bind at 1. unfold try. unfold bind at 1.
  destruct (read 23 (emit (EvWrite frame) ser)) as [[echo|] ser1] eqn:Hr1.
  2:{ unfold ret. intros H. inversion H. }
  apply read_inv in Hr1. destruct Hr1 as (_ & Hlog1 & _).
  unfold bind at 1.
  destruct (read 11 ser1) as [[ack|] ser2] eqn:Hr2.
  2:{ unfold ret. intros H. inversion H. }
  apply read_inv in Hr2. destruct Hr2 as (_ & Hlog2 & _).
  assert (Hslice : slice 6 8 frame = slice 6 8 cmdStr)
    by (apply slice_app_l; lia).
  destruct extreadback.
  - unfold bind at 1.
    destruct (read 25 ser2) as [[resp|] ser3] eqn:Hr3.
    2:{ unfold ret. intros H. inversion H. }
    apply read_inv in Hr3. destruct Hr3 as (_ & Hlog3 & _).
    unfold ret at 1 2.
    destruct (List.length echo =? 23)%nat eqn:He; cbn [negb orb].
    2:{ unfold ret. intros H. inversion H. }
    destruct (List.length ack =? 11)%nat eqn:Ha; cbn [negb orb].
    2:{ unfold ret. intros H. inversion H. }
    destruct (List.length resp =? 25)%nat eqn:Hp; cbn [negb orb].
    2:{ unfold ret. intros H. inversion H. }
    destruct (last_is echo 6) eqn:Hack; cbn [negb orb].
    2:{ unfold bind, flushInput, flushOutput, ret. intros H. inversion H. }
    destruct (char_at_is ack 1 80) eqn:Hm; cbn [negb andb orb].
    2:{ unfold bind, flushInput, flushOutput, ret. intros H. inversion H. }
    destruct (pystr_eqb (lastn 2 ack) (slice 6 8 frame)) eqn:Hcmd;
      cbn [negb orb].
    2:{ unfold bind, flushInput, flushOutput, ret. intros H. inversion H. }
    destruct (char_at_is resp 1 81) eqn:Hx; cbn [negb].
    2:{ unfold bind, flushInput, flushOutput, ret. intros H. inversion H. }
    unfold ret. intros H. inversion H; subst response ser'. clear H.
    apply Nat.eqb_eq in He, Ha, Hp.
    exists echo, ack. split; [exact Hlen|].
    split; [rewrite Hlog3, Hlog2, Hlog1, emit_log, <- !app_assoc; reflexivity|].
    split; [exact He|]. split.
    { unfold last_is in Hack. destruct (last_item echo) as [x|]; [|discriminate].
      apply Z.eqb_eq in Hack. subst x. reflexivity. }
    split; [exact Ha|]. split; [apply char_at_is_true; exact Hm|].
    split.
    { unfold pystr_eqb in Hcmd.
      destruct (list_eq_dec Z.eq_dec (lastn 2 ack) (slice 6 8 frame)) as [E|];
        [|discriminate].
      rewrite E. exact Hslice. }
    split; [exact Hp | apply char_at_is_true; exact Hx].
  - unfold bind at 1. unfold ret at 1 2 3.
    destruct (List.length echo =? 23)%nat eqn:He; cbn [negb orb].
    2:{ unfold ret. intros H. inversion H. }
    destruct (List.length ack =? 11)%nat eqn:Ha; cbn [negb orb].
    2:{ unfold ret. intros H. inversion H. }
    destruct (last_is echo 6) eqn:Hack; cbn [negb orb].
    2:{ unfold bind, flushInput, flushOutput, ret. intros H. inversion H. }
    destruct (char_at_is ack 1 80) eqn:Hm; cbn [negb andb orb].
    2:{ unfold bind, flushInput, flushOutput, ret. intros H. inversion H. }
    destruct (pystr_eqb (lastn 2 ack) (slice 6 8 frame)) eqn:Hcmd;
      cbn [negb orb].
    2:{ unfold bind, flushInput, flushOutput, ret. intros H. inversion H. }
    unfold ret. intros H. inversion H; subst response ser'. clear H.
    apply Nat.eqb_eq in He, Ha.
    exists echo, ack. split; [exact Hlen|].
    split; [rewrite Hlog2, Hlog1, emit_log, <- !app_assoc; reflexivity|].
    split; [exact He|]. split.
    { unfold last_is in Hack. destruct (last_item echo) as [x|]; [|discriminate].
      apply Z.eqb_eq in Hack. subst x. reflexivity. }
    split; [exact Ha|]. split; [apply char_at_is_true; exact Hm|].
    split; [|reflexivity].
    unfold pystr_eqb in Hcmd.
    destruct (list_eq_dec Z.eq_dec (lastn 2 ack) (slice 6 8 frame)) as [E|];
      [|discriminate].
    rewrite E. exact Hslice.
Qed.

(** [ExtChecksum], what a success means: the command had 21 characters and
    went out once, followed by its checksum; the echo had 23 bytes ending
    in 0x06; the acknowledgement had 11 bytes, the marker 0x50 and the two
    command bytes of the frame as its last two; the response returned is
    the 25 bytes of the third read, marked 0x51; nothing was flushed. *)
Theorem ExtChecksum_success_shape
  (cmdStr : pystr) (ser ser' : Serial) (response : pystr) :
  ExtChecksum cmdStr ser = (Some (response, false), ser') ->
  exists echo ack,
    List.length cmdStr = 21%nat
    /\ log ser'
       = log ser ++ [EvWrite (cmdStr ++ [checksum (lastn 15 cmdStr)]);
                     EvRead 23 (Data echo); EvRead 11 (Data ack);
                     EvRead 25 (Data response)]
    /\ List.length echo = 23%nat
    /\ last_item echo = Some 0x06
    /\ List.length ack = 11%nat
    /\ nth_error ack 1 = Some 0x50
    /\ lastn 2 ack = slice 6 8 cmdStr
    /\ List.length response = 25%nat
    /\ nth_error response 1 = Some 0x51.
Proof.
  unfold ExtChecksum.
  destruct (List.length cmdStr =? 21)%nat eqn:Hlen; cbn [negb].
  2:{ unfold ret. intros H. inversion H. }
  apply Nat.eqb_eq in Hlen. cbv zeta.
  set (frame := cmdStr ++ [checksum (lastn 15 cmdStr)]).
  unfold bind at 1. unfold write at 1.
  unfold bind at 1. unfold try. unfold bind at 1.
  destruct (read 23 (emit (EvWrite frame) ser)) as [[echo|] ser1] eqn:Hr1.
  2:{ unfold ret. intros H. inversion H. }
  apply read_inv in Hr1. destruct Hr1 as (_ & Hlog1 & _).
  unfold bind at 1.
  destruct (read 11 ser1) as [[ack|] ser2] eqn:Hr2.
  2:{ unfold ret. intros H. inversion H. }
  apply read_inv in Hr2. destruct Hr2 as (_ & Hlog2 & _).
  assert (Hslice : slice 6 8 frame = slice 6 8 cmdStr)
    by (apply slice_app_l; lia).
  unfold bind at 1.
  destruct (read 25 ser2) as [[resp|] ser3] eqn:Hr3.
  2:{ unfold ret. intros H. inversion H. }
  apply read_inv in Hr3. destruct Hr3 as (_ & Hlog3 & _).
  unfold ret at 1 2.
  destruct (List.length echo =? 23)%nat eqn:He; cbn [negb orb].
  2:{ unfold ret. intros H. inversion H. }
  destruct (List.length ack =? 11)%nat eqn:Ha; cbn [negb orb].
  2:{ unfold ret. intros H. inversion H. }
  destruct (List.length resp =? 25)%nat eqn:Hp; cbn [negb orb].
  2:{ unfold ret. intros H. inversion H. }
  destruct (last_is echo 6) eqn:Hack; cbn [negb orb].
  2:{ unfold bind, flushInput, flushOutput, ret. intros H. inversion H. }
  destruct (char_at_is ack 1 80) eqn:Hm; cbn [negb andb orb].
  2:{ unfold bind, flushInput, flushOutput, ret. intros H. inversion H. }
  destruct (pystr_eqb (lastn 2 ack) (slice 6 8 frame)) eqn:Hcmd;
    cbn [negb orb].
  2:{ unfold bind, flushInput, flushOutput, ret. intros H. inversion H. }
  destruct (char_at_is resp 1 81) eqn:Hx; cbn [negb].
  2:{ unfold bind, flushInput, flushOutput, ret. intros H. inversion H. }
  unfold ret. intros H. inversion H; subst response ser'. clear H.
  apply Nat.eqb_eq in He, Ha, Hp.
  exists echo, ack. split; [exact Hlen|].
  split; [rewrite Hlog3, Hlog2, Hlog1, emit_log, <- !app_assoc; reflexivity|].
  split; [exact He|]. split.
  { unfold last_is in Hack. destruct (last_item echo) as [x|]; [|discriminate].
    apply Z.eqb_eq in Hack. subst x. reflexivity. }
  split; [exact Ha|]. split; [apply char_at_is_true; exact Hm|].
  split.
  { unfold pystr_eqb in Hcmd.
    destruct (list_eq_dec Z.eq_dec (lastn 2 ack) (slice 6 8 frame)) as [E|];
      [|discriminate].
    rewrite E. exact Hslice. }
  split; [exact Hp | apply char_at_is_true; exact Hx].
Qed.

Section ChecksumFrame.

Lemma sum_app (a b : pystr) : sum (a ++ b) = sum a + sum b.
Proof.
  unfold sum. induction a as [|x a IH]; cbn [app fold_right]; [lia|].
  rewrite IH. lia.
Qed.

Lemma sum_with_checksum (s : pystr) : (sum s + checksum s) mod 256 = 0.
Proof.
  unfold checksum.
  pose proof (Z.mod_pos_bound (sum s) 256 ltac:(lia)) as Hr.
  rewrite lxor_byte_complement by exact Hr.
  rewrite Z.add_mod_idemp_r by lia.
  pose proof (Z.div_mod (sum s) 256 ltac:(lia)) as Hd.
  replace (sum s + (255 - sum s mod 256 + 1))
    with ((sum s / 256 + 1) * 256) by lia.
  apply Z.mod_mul. lia.
Qed.

End ChecksumFrame.

(** [ExtChecksum], the frame on the wire: a command of 21 characters goes
    out as 22 bytes, the command followed by one byte, and the last 16
    bytes of the frame (Command 1 to Data 14, the checksum included) sum to
    0 modulo 256, which is the test the receiver makes. *)
Theorem ExtChecksum_frame_sums_to_zero (cmdStr : pystr) (ser : Serial) :
  List.length cmdStr = 21%nat ->
  exists frame,
    writes (log (snd (ExtChecksum cmdStr ser))) = writes (log ser) ++ [frame]
    /\ List.length frame = 22%nat
    /\ firstn 21 frame = cmdStr
    /\ sum (lastn 16 frame) mod 256 = 0.
Proof.
  intros Hlen.
  exists (cmdStr ++ [checksum (lastn 15 cmdStr)]).
  split; [apply (exchanged_writes _ 25%nat), ExtChecksum_exchanged; exact Hlen|].
  split; [rewrite length_app, Hlen; reflexivity|].
  split.
  { rewrite firstn_app, Hlen, Nat.sub_diag, firstn_O, app_nil_r.
    rewrite <- Hlen. apply firstn_all. }
  unfold lastn. rewrite length_app, Hlen.
  change (21 + List.length [checksum (skipn (21 - 15) cmdStr)] - 16)%nat
    with 6%nat.
  rewrite skipn_app, Hlen.
  change (6 - 21)%nat with 0%nat. rewrite skipn_O.
  rewrite sum_app. unfold sum at 2. cbn [fold_right]. rewrite Z.add_0_r.
  apply sum_with_checksum.
Qed.

Lemma ExtChecksum_frame_sums_to_zero_witness :
  exists frame,
    writes (log (snd (ExtChecksum thermostat_ext (mkSerial [] []))))
    = writes (log (mkSerial [] [])) ++ [frame]
    /\ List.length frame = 22%nat
    /\ firstn 21 frame = thermostat_ext
    /\ sum (lastn 16 frame) mod 256 = 0.
Proof.
  apply (ExtChecksum_frame_sums_to_zero thermostat_ext (mkSerial [] [])).
  reflexivity.
Defined.

Lemma StdCmd_success_shape_witness :
  exists echo segments,
    List.length level_request = 8%nat
    /\ log after_level_reply
       = log level_reply ++ EvWrite level_request :: EvRead 9 (Data echo)
                         :: map (fun s => EvRead 11 (Data s)) segments
    /\ List.length echo = 9%nat
    /\ last_item echo = Some 0x06
    /\ List.length segments = 1%nat
    /\ Forall (fun s => List.length s = 11%nat /\ nth_error s 1 = Some 0x50)
              segments
    /\ std_ack 0xFF = List.concat segments.
Proof.
  apply (StdCmd_success_shape level_request 1 level_reply after_level_reply
           (std_ack 0xFF)).
  reflexivity.
Defined.

Lemma ExtCrc_success_shape_witness :
  exists ser' echo ack,
    ExtCrc (day_request 0) true (mkSerial (day_reply 0) [])
    = (Some (day_response 0 day_data, false), ser')
    /\ List.length (day_request 0) = 20%nat
    /\ log ser'
       = [] ++ [EvWrite (day_request 0 ++ CalcCrcStr (lastn 14 (day_request 0)));
                EvRead 23 (Data echo); EvRead 11 (Data ack);
                EvRead 25 (Data (day_response 0 day_data))]
    /\ List.length echo = 23%nat
    /\ last_item echo = Some 0x06
    /\ List.length ack = 11%nat
    /\ nth_error ack 1 = Some 0x50
    /\ lastn 2 ack = slice 6 8 (day_request 0)
    /\ List.length (day_response 0 day_data) = 25%nat
    /\ nth_error (day_response 0 day_data) 1 = Some 0x51.
Proof.
  destruct (ExtCrc (day_request 0) true (mkSerial (day_reply 0) []))
    as [r ser'] eqn:Hrun.
  assert (Hr : r = Some (day_response 0 day_data, false)).
  { apply (f_equal fst) in Hrun. cbn [fst] in Hrun. rewrite <- Hrun.
    vm_compute. reflexivity. }
  subst r.
  destruct (ExtCrc_success_shape (day_request 0) true (mkSerial (day_reply 0) [])
              ser' (day_response 0 day_data) Hrun)
    as (echo & ack & H1 & H2 & H3 & H4 & H5 & H6 & H7 & H8 & H9).
  exists ser', echo, ack. repeat split; assumption.
Defined.

Lemma ExtChecksum_success_shape_witness :
  exists ser' echo ack,
    ExtChecksum thermostat_ext temperature_reply
    = (Some (temperature_response, false), ser')
    /\ List.length thermostat_ext = 21%nat
    /\ log ser'
       = log temperature_reply
         ++ [EvWrite (thermostat_ext ++ [checksum (lastn 15 thermostat_ext)]);
             EvRead 23 (Data echo); EvRead 11 (Data ack);
             EvRead 25 (Data temperature_response)]
    /\ List.length echo = 23%nat
    /\ last_item echo = Some 0x06
    /\ List.length ack = 11%nat
    /\ nth_error ack 1 = Some 0x50
    /\ lastn 2 ack = slice 6 8 thermostat_ext
    /\ List.length temperature_response = 25%nat
    /\ nth_error temperature_response 1 = Some 0x51.
Proof.
  destruct (ExtChecksum thermostat_ext temperature_reply)
    as [r ser'] eqn:Hrun.
  assert (Hr : r = Some (temperature_response, false)).
  { apply (f_equal fst) in Hrun. cbn [fst] in Hrun. rewrite <- Hrun.
    vm_compute. reflexivity. }
  subst r.
  destruct (ExtChecksum_success_shape thermostat_ext temperature_reply
              ser' temperature_response Hrun)
    as (echo & ack & H1 & H2 & H3 & H4 & H5 & H6 & H7 & H8 & H9).
  exists ser', echo, ack. repeat split; assumption.
Defined.

(** * The CRC as a linear code *)

Section CrcLinear.

Lemma reference_feedback_lxor (a1 a2 : Z) (b1 b2 : bool) :
  reference_feedback (Z.lxor a1 a2) (xorb b1 b2)
  = xorb (reference_feedback a1 b1) (reference_feedback a2 b2).
Proof.
  unfold reference_feedback. cbv zeta. rewrite !Z.lxor_spec.
  destruct (Z.testbit a1 15), (Z.testbit a2 15), (Z.testbit a1 14),
    (Z.testbit a2 14), (Z.testbit a1 12), (Z.testbit a2 12),
    (Z.testbit a1 3), (Z.testbit a2 3), b1, b2; reflexivity.
Qed.

Lemma reference_shift_bits (acc : Z) (bit : bool) (n : Z) :
  0 <= n ->
  Z.testbit (reference_shift acc bit) n
  = if n =? 0 then reference_feedback acc bit
    else (n <? 16) && Z.testbit acc (n - 1).
Proof.
  intros Hn. unfold reference_shift.
  rewrite Z.testbit_mod_pow2 by lia.
  destruct (n =? 0) eqn:E.
  - apply Z.eqb_eq in E. subst n. rewrite Z.testbit_0_r. reflexivity.
  - apply Z.eqb_neq in E.
    replace n with (Z.succ (n - 1)) at 2 by lia.
    rewrite Z.testbit_succ_r by lia. reflexivity.
Qed.

Lemma reference_shift_lxor (a1 a2 : Z) (b1 b2 : bool) :
  reference_shift (Z.lxor a1 a2) (xorb b1 b2)
  = Z.lxor (reference_shift a1 b1) (reference_shift a2 b2).
Proof.
  apply Z.bits_inj'. intros n Hn.
  rewrite Z.lxor_spec, !reference_shift_bits by exact Hn.
  destruct (n =? 0).
  - apply reference_feedback_lxor.
  - rewrite Z.lxor_spec. destruct (n <? 16); [reflexivity|].
    cbn [andb]. reflexivity.
Qed.

Lemma reference_bits_lxor (l : list nat) : forall a1 a2 x y : Z,
  fold_left (fun acc i => reference_shift acc (Z.testbit (Z.lxor x y) (Z.of_nat i)))
            l (Z.lxor a1 a2)
  = Z.lxor
      (fold_left (fun acc i => reference_shift acc (Z.testbit x (Z.of_nat i))) l a1)
      (fold_left (fun acc i => reference_shift acc (Z.testbit y (Z.of_nat i))) l a2).
Proof.
  induction l as [|i l IH]; intros a1 a2 x y; [reflexivity|].
  rewrite !fold_left_cons, Z.lxor_spec, reference_shift_lxor. apply IH.
Qed.

Lemma reference_byte_lxor (a1 a2 x y : Z) :
  reference_byte (Z.lxor a1 a2) (Z.lxor x y)
  = Z.lxor (reference_byte a1 x) (reference_byte a2 y).
Proof. unfold reference_byte. apply reference_bits_lxor. Qed.

Lemma reference_fold_lxor (a : pystr) : forall (b : pystr) (a1 a2 : Z),
  List.length a = List.length b ->
  fold_left reference_byte (xor_bytes a b) (Z.lxor a1 a2)
  = Z.lxor (fold_left reference_byte a a1) (fold_left reference_byte b a2).
Proof.
  induction a as [|x a IH]; intros [|y b] a1 a2 Hlen; try discriminate.
  - reflexivity.
  - unfold xor_bytes. cbn [combine map fst snd].
    rewrite !fold_left_cons, reference_byte_lxor.
    apply IH. cbn in Hlen. lia.
Qed.

Lemma CalcCrcStr_bytes (dataStr : pystr) :
  CalcCrcStr dataStr
  = [Z.land (Z.shiftr (fold_left reference_byte dataStr 0) 8) 0xff;
     Z.land (fold_left reference_byte dataStr 0) 0xff].
Proof.
  assert (Hr : 0 <= fold_left reference_byte dataStr 0 < 2 ^ 16).
  { pose proof (crc_loop_reference dataStr 0) as H. rewrite Zmod_0_l in H.
    rewrite <- H. apply Z.mod_pos_bound. lia. }
  unfold CalcCrcStr. cbn [map].
  destruct (high_low_bytes (crc_loop dataStr 0)) as [Hh Hl].
  rewrite Hh, Hl, crc_loop_reference, Zmod_0_l.
  destruct (high_low_bytes (fold_left reference_byte dataStr 0)) as [Hh' Hl'].
  rewrite Z.shiftr_0_r in Hl'.
  rewrite Hh', Hl', (Z.mod_small _ (2 ^ 16)) by exact Hr. reflexivity.
Qed.

Lemma land_lxor_l (a b c : Z) :
  Z.land (Z.lxor a b) c = Z.lxor (Z.land a c) (Z.land b c).
Proof.
  apply Z.bits_inj'. intros n _.
  rewrite Z.land_spec, !Z.lxor_spec, !Z.land_spec.
  destruct (Z.testbit a n), (Z.testbit b n), (Z.testbit c n); reflexivity.
Qed.

End CrcLinear.

(** [CalcCrcStr] is linear over the exclusive or: for two strings of the
    same length, the CRC of their byte-wise exclusive or is the exclusive
    or of their CRCs.  So the CRC of a corrupted frame differs from the CRC
    of the frame by the CRC of the error pattern alone. *)
Theorem CalcCrcStr_xor (a b : pystr) :
  List.length a = List.length b ->
  CalcCrcStr (xor_bytes a b) = xor_bytes (CalcCrcStr a) (CalcCrcStr b).
Proof.
  intros Hlen.
  assert (E : fold_left reference_byte (xor_bytes a b) 0
              = Z.lxor (fold_left reference_byte a 0)
                       (fold_left reference_byte b 0))
    by exact (reference_fold_lxor a b 0 0 Hlen).
  rewrite !CalcCrcStr_bytes, E.
  unfold xor_bytes. cbn [combine map fst snd].
  rewrite Z.shiftr_lxor, !land_lxor_l. reflexivity.
Qed.

Lemma CalcCrcStr_xor_witness :
  CalcCrcStr (xor_bytes [0x2E; 0x0A; 0x1A] [0x00; 0x01; 0x80])
  = xor_bytes (CalcCrcStr [0x2E; 0x0A; 0x1A]) (CalcCrcStr [0x00; 0x01; 0x80]).
Proof. apply CalcCrcStr_xor. reflexivity. Defined.

(** [CalcCrcStr] starts from zero, so a string of zero characters of any
    length has the CRC 00 00: the CRC does not see how many zero characters
    lead the data. *)
Theorem CalcCrcStr_zeros (n : nat) (dataStr : pystr) :
  CalcCrcStr (repeat 0 n ++ dataStr) = CalcCrcStr dataStr.
Proof.
  rewrite !CalcCrcStr_bytes, fold_left_app.
  replace (fold_left reference_byte (repeat 0 n) 0) with 0; [reflexivity|].
  induction n as [|n IH]; [reflexivity|].
  cbn [repeat]. rewrite fold_left_cons. exact IH.
Qed.

(** * The dimmer *)

Section Dimmer.

Lemma is_null_false (address : list Z) :
  address <> null_address -> is_null address = false.
Proof.
  intros H. destruct (is_null address) eqn:E; [|reflexivity].
  apply is_null_true in E. contradiction.
Qed.

Lemma is_null_of (address a : list Z) :
  address = a -> a <> null_address -> is_null address = false.
Proof. intros -> H. apply is_null_false. exact H. Qed.

Lemma prefix_of (address : list Z) (a0 a1 a2 flags : Z) (ser : Serial) :
  address = [a0; a1; a2] -> valid_address [a0; a1; a2] ->
  prefix address flags ser = (Some [0x02; 0x62; a0; a1; a2; flags], ser).
Proof. intros -> H. apply prefix_valid. exact H. Qed.

Lemma StdCmd_one (cmdStr : pystr) (ser : Serial) :
  List.length cmdStr = 8%nat ->
  exists response e ser' evs,
    StdCmd cmdStr 1 ser = (Some (response, e), ser')
    /\ log ser' = log ser ++ EvWrite cmdStr :: evs
    /\ writes evs = []
    /\ (e = false -> exists x, last_item response = Some x).
Proof.
  intros Hlen. pose proof (StdCmd_exchanged cmdStr 1 ser Hlen) as Hx.
  inversion Hx as [response ser' evs Hlog Hw _ _ Hfull Heq
                  |ser' evs Hlog Hw _ Heq].
  - exists response, false, ser', evs. repeat split; try assumption.
    intros _. destruct (last_item response) as [x|] eqn:E; [eauto|].
    unfold last_item in E. apply nth_error_None in E. rewrite Hfull in E.
    simpl in E. lia.
  - exists [], true, ser', evs. repeat split; try assumption. discriminate.
Qed.

Lemma flushed_log (ser : Serial) (frame : pystr) (evs : list event)
  (ser' : Serial) :
  log ser' = log (emit EvFlushOutput (emit EvFlushInput ser))
             ++ EvWrite frame :: evs ->
  log ser' = log ser ++ EvFlushInput :: EvFlushOutput :: EvWrite frame :: evs.
Proof. intros ->. rewrite !emit_log, <- !app_assoc. reflexivity. Qed.

End Dimmer.

(** [level_of_byte], the level [GetState] stores for a received byte: it
    lies in 0..100, grows with the byte, and is the percentage nearest to
    [byte/2.55]. *)
Theorem level_of_byte_range (x y : Z) :
  0 <= x <= y -> y <= 255 ->
  0 <= dimmer.level_of_byte x <= dimmer.level_of_byte y
  /\ dimmer.level_of_byte y <= 100
  /\ Z.abs (255 * dimmer.level_of_byte x - 100 * x) <= 127.
Proof.
  intros Hxy Hy. unfold dimmer.level_of_byte.
  pose proof (Z.div_mod (40 * x + 51) 102 ltac:(lia)) as Dx.
  pose proof (Z.mod_pos_bound (40 * x + 51) 102 ltac:(lia)) as Bx.
  pose proof (Z.div_mod (40 * y + 51) 102 ltac:(lia)) as Dy.
  pose proof (Z.mod_pos_bound (40 * y + 51) 102 ltac:(lia)) as By.
  repeat split; lia.
Qed.

Lemma level_of_byte_range_witness :
  0 <= dimmer.level_of_byte 1 <= dimmer.level_of_byte 255
  /\ dimmer.level_of_byte 255 <= 100
  /\ Z.abs (255 * dimmer.level_of_byte 1 - 100 * 1) <= 127.
Proof. apply (level_of_byte_range 1 255); lia. Defined.

(** The level survives the trip through the byte: when the byte [SetOn]
    sends for a level is [level*2.55] rounded to a nearest integer (a half
    rounded either way), the level [GetState] computes from that same byte
    is the level again. *)
Theorem level_byte_round_trip (level byte : Z) :
  Z.abs (100 * byte - 255 * level) <= 50 ->
  dimmer.level_of_byte byte = level.
Proof.
  intros H. unfold dimmer.level_of_byte.
  symmetry. apply (Z.div_unique_pos _ _ _ (40 * byte + 51 - 102 * level)); lia.
Qed.

Lemma level_byte_round_trip_witness :
  dimmer.level_of_byte (exact_level_byte 50) = 50
  /\ dimmer.level_of_byte (exact_level_byte 50 - 1) = 50.
Proof.
  split.
  - apply (level_byte_round_trip 50 (exact_level_byte 50)).
    vm_compute. discriminate.
  - apply (level_byte_round_trip 50 (exact_level_byte 50 - 1)).
    vm_compute. discriminate.
Defined.

Section SetOnLevel.

Variable level_byte : Z -> Z.

(** [SetOn] does not check its level: when the byte computed for it does
    not fit a character (a level above 100, or a negative one), [chr]
    raises after the two flushes and before anything is written; the
    exception is not caught and the object is left as it was. *)
Theorem dimmer_SetOn_level_out_of_range
  (self : dimmer.t) (level : Z) (ser : Serial) (a0 a1 a2 : Z) :
  dimmer.address self = [a0; a1; a2] ->
  valid_address [a0; a1; a2] ->
  [a0; a1; a2] <> null_address ->
  level_byte level < 0 \/ 255 < level_byte level ->
  dimmer.SetOn level_byte self level ser
  = (None, emit EvFlushOutput (emit EvFlushInput ser)).
Proof.
  intros Haddr Hvalid Hnonnull Hbyte.
  unfold dimmer.SetOn. rewrite (is_null_of _ _ Haddr Hnonnull).
  unfold bind at 1. unfold flushInput at 1.
  unfold bind at 1. unfold flushOutput at 1.
  unfold bind at 1. rewrite (prefix_of _ _ _ _ _ _ Haddr Hvalid).
  unfold bind at 1. unfold chr.
  replace ((0 <=? level_byte level) && (level_byte level <? 256)) with false.
  - reflexivity.
  - symmetry. apply andb_false_iff.
    destruct Hbyte; [left; apply Z.leb_gt | right; apply Z.ltb_ge]; lia.
Qed.

End SetOnLevel.

Lemma dimmer_SetOn_level_out_of_range_witness :
  (exact_level_byte 101 < 0 \/ 255 < exact_level_byte 101)
  /\ dimmer.SetOn exact_level_byte hall_dimmer 101 level_reply
     = (None, emit EvFlushOutput (emit EvFlushInput level_reply)).
Proof.
  assert (Hb : exact_level_byte 101 < 0 \/ 255 < exact_level_byte 101)
    by (right; vm_compute; reflexivity).
  split; [exact Hb|].
  apply (dimmer_SetOn_level_out_of_range exact_level_byte hall_dimmer 101
           level_reply 0x11 0x22 0x33).
  - reflexivity.
  - split; [reflexivity | repeat constructor; lia].
  - discriminate.
  - exact Hb.
Defined.

Section SetModeFrame.

Lemma Ext_one (cmdStr : pystr) (ser : Serial) :
  List.length cmdStr = 21%nat ->
  exists response e ser' evs,
    ExtChecksum cmdStr ser = (Some (response, e), ser')
    /\ log ser' = log ser ++ EvWrite (cmdStr ++ [checksum (lastn 15 cmdStr)])
                          :: evs
    /\ writes evs = [].
Proof.
  intros Hlen. pose proof (ExtChecksum_exchanged cmdStr ser Hlen) as Hx.
  inversion Hx as [response ser' evs Hlog Hw _ _ Hfull Heq
                  |ser' evs Hlog Hw _ Heq].
  - exists response, false, ser', evs. repeat split; assumption.
  - exists [], true, ser', evs. repeat split; assumption.
Qed.

End SetModeFrame.

(** [SetMode] with a mode in 4..10 on a valid, non-null address: it
    flushes both buffers, writes one frame of 22 bytes, the extended
    command [6B mode] with thirteen zero data bytes and the checksum
    [149 - mode], and returns; the only field that changes is
    [errorStatus].  The stored [mode] and [modeText] are not updated. *)
Theorem SetMode_outcome
  (self : thermostat.t) (mode : Z) (ser : Serial) (a0 a1 a2 : Z) :
  thermostat.address self = [a0; a1; a2] ->
  valid_address [a0; a1; a2] ->
  [a0; a1; a2] <> null_address ->
  4 <= mode <= 10 ->
  exists e ser' evs,
    thermostat.SetMode self mode ser
    = (Some (thermostat.set_errorStatus self e), ser')
    /\ log ser' = log ser ++ EvFlushInput :: EvFlushOutput
                          :: EvWrite ([0x02; 0x62; a0; a1; a2; 0x1F; 0x6B; mode]
                                      ++ thermostat.zeros 13 ++ [149 - mode])
                          :: evs
    /\ writes evs = [].
Proof.
  intros Haddr Hvalid Hnonnull Hmode.
  unfold thermostat.SetMode. rewrite (is_null_of _ _ Haddr Hnonnull).
  replace ((mode <? 4) || (mode >? 10)) with false.
  2:{ symmetry. apply orb_false_iff. split; [apply Z.ltb_ge; lia|].
      rewrite Z.gtb_ltb. apply Z.ltb_ge. lia. }
  unfold bind at 1. unfold flushInput at 1.
  unfold bind at 1. unfold flushOutput at 1.
  unfold bind at 1. rewrite (prefix_of _ _ _ _ _ _ Haddr Hvalid).
  unfold bind at 1. rewrite (chr_byte mode) by lia. cbn [lift ret].
  unfold bind at 1.
  set (cmd := [2; 98; a0; a1; a2; 31] ++ [107; mode] ++ thermostat.zeros 13).
  destruct (Ext_one cmd (emit EvFlushOutput (emit EvFlushInput ser)) eq_refl)
    as (response & e & ser' & evs & Hcmd & Hlog & Hw).
  rewrite Hcmd. exists e, ser', evs.
  rewrite errorReporting_is_localError.
  split; [reflexivity|]. split; [|exact Hw].
  apply flushed_log. rewrite Hlog. do 3 f_equal.
  assert (Hsum : checksum (lastn 15 cmd) = 149 - mode).
  { assert (Hs : sum (lastn 15 cmd) = 107 + mode)
      by (cbv [cmd sum lastn List.length Nat.sub skipn app fold_right
                   thermostat.zeros repeat]; lia).
    unfold checksum. rewrite Hs.
    rewrite (Z.mod_small (107 + mode)) by lia.
    rewrite lxor_byte_complement by lia.
    rewrite Z.mod_small by lia. lia. }
  rewrite Hsum. unfold cmd. rewrite <- !app_assoc. reflexivity.
Qed.

Lemma SetMode_outcome_witness :
  exists e ser' evs,
    thermostat.SetMode cool_thermostat 5 temperature_reply
    = (Some (thermostat.set_errorStatus cool_thermostat e), ser')
    /\ log ser' = log temperature_reply
                  ++ EvFlushInput :: EvFlushOutput
                  :: EvWrite ([0x02; 0x62; 0x11; 0x22; 0x33; 0x1F; 0x6B; 5]
                              ++ thermostat.zeros 13 ++ [149 - 5])
                  :: evs
    /\ writes evs = [].
Proof.
  apply (SetMode_outcome cool_thermostat 5 temperature_reply 0x11 0x22 0x33).
  - reflexivity.
  - split; [reflexivity | repeat constructor; lia].
  - discriminate.
  - lia.
Defined.

(** * The thermostat's schedule *)

Section GetScheduleSteps.

Lemma ExtCrc_one (cmdStr : pystr) (extreadback : bool) (ser : Serial) :
  List.length cmdStr = 20%nat ->
  exists response e ser' evs,
    ExtCrc cmdStr extreadback ser = (Some (response, e), ser')
    /\ log ser' = log ser ++ EvWrite (cmdStr ++ CalcCrcStr (lastn 14 cmdStr))
                          :: evs
    /\ writes evs = []
    /\ (e = false ->
        List.length response = if extreadback then 25%nat else 0%nat).
Proof.
  intros Hlen. pose proof (ExtCrc_exchanged cmdStr extreadback ser Hlen) as Hx.
  inversion Hx as [response ser' evs Hlog Hw _ _ Hfull Heq
                  |ser' evs Hlog Hw _ Heq].
  - exists response, false, ser', evs.
    split; [reflexivity|]. split; [exact Hlog|]. split; [exact Hw|].
    intros _. exact Hfull.
  - exists [], true, ser', evs.
    split; [reflexivity|]. split; [exact Hlog|]. split; [exact Hw|].
    discriminate.
Qed.

Lemma writes_after (ser ser' : Serial) (frame : pystr) (evs : list event) :
  log ser' = log ser ++ EvWrite frame :: evs -> writes evs = [] ->
  writes (log ser') = writes (log ser) ++ [frame].
Proof.
  intros -> Hw. change (EvWrite frame :: evs) with ([EvWrite frame] ++ evs).
  rewrite !writes_app, Hw. reflexivity.
Qed.

Variables (prefixStr : pystr) (deviceId zone : Z).
Hypothesis prefix_length : List.length prefixStr = 6%nat.

Lemma get_day_step (c : bool) (tbl : list (list string)) (iDay : nat)
  (ser : Serial) :
  exists c' tbl' ser',
    thermostat.get_day prefixStr deviceId zone (c, tbl) iDay ser
    = (Some (c', tbl'), ser')
    /\ writes (log ser') = writes (log ser) ++ [day_frame prefixStr iDay]
    /\ (c = true -> c' = true)
    /\ (c' = false ->
        exists row, tbl' = tbl ++ [row] /\ day_row deviceId zone iDay row)
    /\ (c' = true -> tbl' = tbl).
Proof.
  unfold thermostat.get_day. cbv zeta.
  set (cmd := prefixStr ++ [46; 10 + Z.of_nat iDay * 2] ++ thermostat.zeros 12).
  assert (Hcmd : List.length cmd = 20%nat)
    by (unfold cmd; rewrite length_app, prefix_length; reflexivity).
  destruct (ExtCrc_one cmd true ser Hcmd)
    as (response & e & ser' & evs & Hrun & Hlog & Hw & Hfull).
  unfold bind. rewrite Hrun.
  pose proof (writes_after _ _ _ _ Hlog Hw) as Hwr.
  destruct e; cbn [negb orb andb].
  - exists true, tbl, ser'. unfold ret.
    split; [reflexivity|]. split; [exact Hwr|].
    split; [reflexivity|]. split; [discriminate | reflexivity].
  - destruct c; cbn [negb andb].
    + exists true, tbl, ser'. unfold ret.
      split; [reflexivity|]. split; [exact Hwr|].
      split; [reflexivity|]. split; [discriminate | reflexivity].
    + destruct (ord_at response 10 =? 10 + Z.of_nat iDay * 2 + 1) eqn:Hc;
        cbn [andb].
      2:{ exists true, tbl, ser'. unfold ret.
          split; [reflexivity|]. split; [exact Hwr|].
          split; [discriminate|]. split; [discriminate | reflexivity]. }
      destruct ((ord_at response 11 <? 96) && (ord_at response 14 <? 96)
                && (ord_at response 17 <? 96) && (ord_at response 20 <? 96))
        eqn:Ht.
      2:{ exists true, tbl, ser'. unfold ret.
          split; [reflexivity|]. split; [exact Hwr|].
          split; [discriminate|]. split; [discriminate | reflexivity]. }
      eexists false, _, ser'. unfold ret.
      split; [reflexivity|]. split; [exact Hwr|].
      split; [discriminate|]. split; [|discriminate].
      intros _. eexists. split; [reflexivity|].
      exists response. split; [reflexivity|].
      split; [apply Hfull; reflexivity|].
      apply Z.eqb_eq in Hc. split; [exact Hc|].
      apply andb_true_iff in Ht. destruct Ht as [Ht H20].
      apply andb_true_iff in Ht. destruct Ht as [Ht H17].
      apply andb_true_iff in Ht. destruct Ht as [H11 H14].
      apply Z.ltb_lt in H11, H14, H17, H20. tauto.
Qed.

Lemma get_days (days : list nat) :
  forall (c : bool) (tbl : list (list string)) (ser : Serial),
  exists c' tbl' ser',
    foldM (thermostat.get_day prefixStr deviceId zone) days (c, tbl) ser
    = (Some (c', tbl'), ser')
    /\ writes (log ser')
       = writes (log ser) ++ map (day_frame prefixStr) days
    /\ (c = true -> c' = true)
    /\ (c' = false ->
        exists rows, tbl' = tbl ++ rows
                     /\ Forall2 (day_row deviceId zone) days rows).
Proof.
  induction days as [|iDay days IH]; intros c tbl ser.
  - exists c, tbl, ser. cbn [foldM map]. unfold ret. rewrite app_nil_r.
    split; [reflexivity|]. split; [reflexivity|]. split; [tauto|].
    intros _. exists []. rewrite app_nil_r. split; [reflexivity | constructor].
  - destruct (get_day_step c tbl iDay ser)
      as (c1 & tbl1 & ser1 & Hrun1 & Hw1 & Hc1 & Hrow1 & _).
    destruct (IH c1 tbl1 ser1) as (c' & tbl' & ser' & Hrun & Hw & Hc & Hrows).
    exists c', tbl', ser'. cbn [foldM map]. unfold bind at 1. rewrite Hrun1.
    split; [exact Hrun|].
    split; [rewrite Hw, Hw1, <- app_assoc; reflexivity|].
    split; [tauto|].
    intros Hc'. destruct (Hrows Hc') as (rows & Htbl' & Hall).
    assert (Hc1f : c1 = false) by (destruct c1; [specialize (Hc eq_refl); congruence | reflexivity]).
    destruct (Hrow1 Hc1f) as (row & Htbl1 & Hrow).
    exists (row :: rows). split.
    + rewrite Htbl', Htbl1, <- app_assoc. reflexivity.
    + constructor; assumption.
Qed.

End GetScheduleSteps.

(** [GetSchedule] on a valid, non-null address: it always asks for all
    seven days, in order, whatever the outcome of the earlier ones, and
    returns.  When the call ends in error only [errorStatus] changes, to
    true, and the stored schedule stays.  When it ends without error, the
    stored schedule is replaced by seven rows, one for each day in order,
    each made of the five leading cells (schedule id [iDay + 43 + 49*zone],
    device id, zone, schedule mode 7, day) and the twelve cells decoded
    from a response whose time bytes are all below 96. *)
Theorem GetSchedule_outcome
  (self : thermostat.t) (deviceId zone : Z) (ser : Serial) (a0 a1 a2 : Z) :
  thermostat.address self = [a0; a1; a2] ->
  valid_address [a0; a1; a2] ->
  [a0; a1; a2] <> null_address ->
  exists result ser',
    thermostat.GetSchedule self deviceId zone ser = (Some result, ser')
    /\ writes (log ser')
       = writes (log ser)
         ++ map (day_frame [0x02; 0x62; a0; a1; a2; 0x1F]) (seq 0 7)
    /\ (thermostat.errorStatus result = true ->
        result = thermostat.set_errorStatus self true)
    /\ (thermostat.errorStatus result = false ->
        exists rows,
          result = thermostat.set_schedule
                     (thermostat.set_errorStatus self false) rows
          /\ Forall2 (day_row deviceId zone) (seq 0 7) rows).
Proof.
  intros Haddr Hvalid Hnonnull.
  unfold thermostat.GetSchedule. rewrite (is_null_of _ _ Haddr Hnonnull).
  unfold bind at 1. unfold flushInput at 1.
  unfold bind at 1. unfold flushOutput at 1.
  unfold bind at 1. rewrite (prefix_of _ _ _ _ _ _ Haddr Hvalid).
  destruct (get_days [2; 98; a0; a1; a2; 31] deviceId zone eq_refl
              (seq 0 7) false [] (emit EvFlushOutput (emit EvFlushInput ser)))
    as (c & tbl & ser' & Hrun & Hw & _ & Hrows).
  unfold bind at 1. rewrite Hrun. rewrite errorReporting_is_localError.
  rewrite writes_emit_flush in Hw.
  destruct c; cbn [negb]; unfold ret.
  - exists (thermostat.set_errorStatus self true), ser'.
    split; [reflexivity|]. split; [exact Hw|].
    split; [reflexivity | discriminate].
  - destruct (Hrows eq_refl) as (rows & Htbl & Hall). cbn [app] in Htbl.
    subst tbl.
    exists (thermostat.set_schedule (thermostat.set_errorStatus self false)
              rows), ser'.
    split; [reflexivity|]. split; [exact Hw|].
    split; [discriminate|]. intros _. exists rows. split; [reflexivity | exact Hall].
Qed.

Lemma GetSchedule_outcome_witness :
  exists result ser',
    thermostat.GetSchedule cool_thermostat 8 0 week_replies
    = (Some result, ser')
    /\ writes (log ser')
       = writes (log week_replies)
         ++ map (day_frame [0x02; 0x62; 0x11; 0x22; 0x33; 0x1F]) (seq 0 7)
    /\ (thermostat.errorStatus result = true ->
        result = thermostat.set_errorStatus cool_thermostat true)
    /\ (thermostat.errorStatus result = false ->
        exists rows,
          result = thermostat.set_schedule
                     (thermostat.set_errorStatus cool_thermostat false) rows
          /\ Forall2 (day_row 8 0) (seq 0 7) rows).
Proof.
  apply (GetSchedule_outcome cool_thermostat 8 0 week_replies 0x11 0x22 0x33).
  - reflexivity.
  - split; [reflexivity | repeat constructor; lia].
  - discriminate.
Defined.

Section SetScheduleSteps.

Lemma chr_some (z c : Z) : chr z = Some c -> c = z /\ 0 <= z <= 255.
Proof.
  unfold chr. destruct ((0 <=? z) && (z <? 256)) eqn:E; [|discriminate].
  intros H. inversion H. apply andb_true_iff in E.
  destruct E as [E1 E2]. apply Z.leb_le in E1. apply Z.ltb_lt in E2. lia.
Qed.

Lemma pack_cells_length (time cool heat : string) (p : pystr) :
  pack_cells time cool heat = Some p -> List.length p = 3%nat.
Proof.
  unfold pack_cells, obind.
  destruct (parse_hm time) as [[h m]|]; [|discriminate].
  destruct (chr (h * 4 + m / 15)); [|discriminate].
  destruct (py_int cool) as [c|]; [|discriminate].
  destruct (chr c); [|discriminate].
  destruct (py_int heat) as [t|]; [|discriminate].
  destruct (chr t); [|discriminate].
  intros H. inversion H. reflexivity.
Qed.

Lemma pack_period_length (schedRow : list string) (iPeriod : nat) (p : pystr) :
  pack_period schedRow iPeriod = Some p -> List.length p = 3%nat.
Proof.
  unfold pack_period. cbv zeta. unfold obind at 1 2 3.
  destruct (nth_error schedRow (iPeriod * 3 + 5)); [|discriminate].
  destruct (nth_error schedRow (iPeriod * 3 + 5 + 1)); [|discriminate].
  destruct (nth_error schedRow (iPeriod * 3 + 5 + 2)); [|discriminate].
  apply pack_cells_length.
Qed.

Lemma pack_row_periods (schedRow : list string) (data : pystr) :
  thermostat.pack_row schedRow = Some data ->
  exists p0 p1 p2 p3,
    pack_period schedRow 0 = Some p0 /\ pack_period schedRow 1 = Some p1
    /\ pack_period schedRow 2 = Some p2 /\ pack_period schedRow 3 = Some p3
    /\ data = p0 ++ p1 ++ p2 ++ p3.
Proof.
  unfold thermostat.pack_row. cbn [seq fold_left]. unfold obind.
  destruct (pack_period schedRow 0) as [p0|]; [|discriminate].
  destruct (pack_period schedRow 1) as [p1|]; [|discriminate].
  destruct (pack_period schedRow 2) as [p2|]; [|discriminate].
  destruct (pack_period schedRow 3) as [p3|]; [|discriminate].
  intros H. inversion H. exists p0, p1, p2, p3.
  repeat split. cbn [app]. rewrite <- !app_assoc. reflexivity.
Qed.

Lemma pack_row_length (schedRow : list string) (data : pystr) :
  thermostat.pack_row schedRow = Some data -> List.length data = 12%nat.
Proof.
  intros H. destruct (pack_row_periods _ _ H)
    as (p0 & p1 & p2 & p3 & H0 & H1 & H2 & H3 & ->).
  apply pack_period_length in H0, H1, H2, H3.
  rewrite !length_app. lia.
Qed.

Lemma pack_row_short (schedRow : list string) :
  (List.length schedRow < 17)%nat -> thermostat.pack_row schedRow = None.
Proof.
  intros Hlen. destruct (thermostat.pack_row schedRow) as [data|] eqn:E;
    [|reflexivity].
  destruct (pack_row_periods _ _ E) as (p0 & p1 & p2 & p3 & _ & _ & _ & H3 & _).
  unfold pack_period in H3. cbv zeta in H3. unfold obind at 1 2 3 in H3.
  destruct (nth_error schedRow (3 * 3 + 5)); [|discriminate].
  destruct (nth_error schedRow (3 * 3 + 5 + 1)); [|discriminate].
  destruct (nth_error schedRow (3 * 3 + 5 + 2)) eqn:E16; [|discriminate].
  assert (Hn : nth_error schedRow (3 * 3 + 5 + 2) <> None) by congruence.
  apply nth_error_Some in Hn. simpl in Hn. lia.
Qed.

Variable prefixStr : pystr.
Hypothesis prefix_length : List.length prefixStr = 6%nat.

Lemma set_day_step (c c' : bool) (schedRow : list string) (ser ser' : Serial) :
  thermostat.set_day prefixStr c schedRow ser = (Some c', ser') ->
  exists frame,
    row_frame prefixStr schedRow frame
    /\ writes (log ser') = writes (log ser) ++ [frame]
    /\ (c = true -> c' = true).
Proof.
  unfold thermostat.set_day. unfold bind at 1.
  destruct (obind (nth_error schedRow 4) py_int) as [day|] eqn:Hday;
    cbn [lift]; [|unfold raise; discriminate].
  unfold ret at 1. unfold bind at 1.
  destruct (chr (3 + day)) as [cmd2|] eqn:Hchr;
    cbn [lift]; [|unfold raise; discriminate].
  apply chr_some in Hchr. destruct Hchr as [-> Hrange].
  unfold ret at 1. unfold bind at 1.
  destruct (thermostat.pack_row schedRow) as [data|] eqn:Hdata;
    cbn [lift]; [|unfold raise; discriminate].
  unfold ret at 1. cbv zeta.
  pose proof (pack_row_length _ _ Hdata) as Hlen.
  set (cmd := prefixStr ++ [46; 3 + day] ++ data).
  assert (Hcmd : List.length cmd = 20%nat).
  { unfold cmd. rewrite !length_app, prefix_length, Hlen. reflexivity. }
  destruct (ExtCrc_one cmd false ser Hcmd)
    as (response & e & ser1 & evs & Hrun & Hlog & Hw & _).
  unfold bind. rewrite Hrun. unfold ret. intros H. inversion H; subst.
  exists (cmd ++ CalcCrcStr (lastn 14 cmd)).
  split; [exists day, data; repeat split; try assumption; lia|].
  split; [exact (writes_after _ _ _ _ Hlog Hw)|].
  intros ->. apply orb_true_r.
Qed.

Lemma set_days (rows : list (list string)) :
  forall (c c' : bool) (ser ser' : Serial),
  foldM (thermostat.set_day prefixStr) rows c ser = (Some c', ser') ->
  exists frames,
    Forall2 (row_frame prefixStr) rows frames
    /\ writes (log ser') = writes (log ser) ++ frames
    /\ (c = true -> c' = true).
Proof.
  induction rows as [|row rows IH]; intros c c' ser ser' H.
  - cbn [foldM] in H. inversion H; subst. exists [].
    rewrite app_nil_r. split; [constructor | tauto].
  - cbn [foldM] in H. unfold bind at 1 in H.
    destruct (thermostat.set_day prefixStr c row ser) as [[c1|] ser1] eqn:H1;
      [|discriminate].
    destruct (set_day_step _ _ _ _ _ H1) as (frame & Hframe & Hw1 & Hc1).
    destruct (IH _ _ _ _ H) as (frames & Hall & Hw & Hc).
    exists (frame :: frames).
    split; [constructor; assumption|].
    split; [rewrite Hw, Hw1, <- app_assoc; reflexivity | tauto].
Qed.

Lemma set_day_short (c : bool) (schedRow : list string) (ser : Serial) :
  (List.length schedRow < 17)%nat ->
  fst (thermostat.set_day prefixStr c schedRow ser) = None.
Proof.
  intros Hlen. unfold thermostat.set_day. unfold bind at 1.
  destruct (obind (nth_error schedRow 4) py_int); cbn [lift]; [|reflexivity].
  unfold ret at 1. unfold bind at 1.
  destruct (chr (3 + z)); cbn [lift]; [|reflexivity].
  unfold ret at 1. unfold bind at 1.
  rewrite (pack_row_short _ Hlen). reflexivity.
Qed.

Lemma set_days_short (rows : list (list string)) (short : list string) :
  In short rows -> (List.length short < 17)%nat ->
  forall (c : bool) (ser : Serial),
  fst (foldM (thermostat.set_day prefixStr) rows c ser) = None.
Proof.
  intros Hin Hlen. induction rows as [|row rows IH]; [contradiction|].
  intros c ser. cbn [foldM]. unfold bind at 1.
  destruct (thermostat.set_day prefixStr c row ser) as [[c1|] ser1] eqn:H1;
    [|reflexivity].
  destruct Hin as [->|Hin].
  - pose proof (set_day_short c short ser Hlen) as H. rewrite H1 in H.
    discriminate.
  - apply IH. exact Hin.
Qed.

End SetScheduleSteps.

(** [SetSchedule] does not check the width of the rows: a table of seven
    rows in which some row has fewer than 17 cells makes the call raise
    (an index out of range in Python), so that no result comes back and
    neither [errorStatus] nor the schedule is updated. *)
Theorem SetSchedule_short_row_raises
  (self : thermostat.t) (schedTable : list (list string))
  (short : list string) (ser : Serial) (a0 a1 a2 : Z) :
  thermostat.address self = [a0; a1; a2] ->
  valid_address [a0; a1; a2] ->
  [a0; a1; a2] <> null_address ->
  List.length schedTable = 7%nat ->
  In short schedTable ->
  (List.length short < 17)%nat ->
  fst (thermostat.SetSchedule self schedTable ser) = None.
Proof.
  intros Haddr Hvalid Hnonnull Hlen Hin Hshort.
  unfold thermostat.SetSchedule. rewrite (is_null_of _ _ Haddr Hnonnull).
  rewrite Hlen. cbn [Nat.eqb negb].
  unfold bind at 1. unfold flushInput at 1.
  unfold bind at 1. unfold flushOutput at 1.
  unfold bind at 1. rewrite (prefix_of _ _ _ _ _ _ Haddr Hvalid).
  unfold bind at 1.
  pose proof (set_days_short [2; 98; a0; a1; a2; 31] schedTable short Hin
                Hshort false (emit EvFlushOutput (emit EvFlushInput ser)))
    as Hraise.
  destruct (foldM (thermostat.set_day [2; 98; a0; a1; a2; 31]) schedTable false
              (emit EvFlushOutput (emit EvFlushInput ser))) as [[c|] ser1].
  - discriminate.
  - reflexivity.
Qed.

Lemma SetSchedule_short_row_raises_witness :
  In (removelast sample_row) short_week
  /\ fst (thermostat.SetSchedule cool_thermostat short_week week_replies)
     = None.
Proof.
  assert (Hin : In (removelast sample_row) short_week)
    by (do 3 right; left; reflexivity).
  split; [exact Hin|].
  apply (SetSchedule_short_row_raises cool_thermostat short_week
           (removelast sample_row) week_replies 0x11 0x22 0x33).
  - reflexivity.
  - split; [reflexivity | repeat constructor; lia].
  - discriminate.
  - reflexivity.
  - exact Hin.
  - vm_compute. lia.
Defined.

Section RowRoundTrip.

Lemma pack_unpacked_cells (b c h : Z) :
  0 <= b < 96 -> 0 <= c <= 255 -> 0 <= h <= 255 ->
  pack_cells (tfmt (b / 4) (b mod 4 * 15)) (py_str c) (py_str h)
  = Some [b; c; h].
Proof.
  intros Hb Hc Hh. unfold pack_cells.
  rewrite (parse_hm_tfmt b Hb). cbn [obind].
  rewrite Z.div_mul by lia.
  replace (b / 4 * 4 + b mod 4) with b
    by (pose proof (Z.div_mod b 4 ltac:(lia)); lia).
  rewrite (chr_byte b) by lia. cbn [obind].
  rewrite (py_int_py_str c Hc), (py_int_py_str h Hh). cbn [obind].
  rewrite (chr_byte c Hc), (chr_byte h Hh). reflexivity.
Qed.

End RowRoundTrip.

(** What [GetSchedule] stores, [SetSchedule] sends back: take the row
    built for the day [iDay] from a response of 25 bytes whose time bytes
    are below 96; [SetSchedule] turns that row into the frame of the
    command [2E cmd2] with [cmd2 = 3 + iDay], whose twelve data bytes are
    the bytes 11 to 22 of the response, unchanged, followed by the CRC. *)
Theorem stored_row_is_sent_back
  (prefixStr : pystr) (c0 c1 c2 c3 : string) (iDay : nat) (response : pystr) :
  (iDay <= 252)%nat ->
  List.length response = 25%nat ->
  Forall (fun b => 0 <= b <= 255) response ->
  ord_at response 11 < 96 -> ord_at response 14 < 96 ->
  ord_at response 17 < 96 -> ord_at response 20 < 96 ->
  row_frame prefixStr
    ([c0; c1; c2; c3; py_str (Z.of_nat iDay)]
     ++ flat_map (unpack_period response) (seq 0 4))
    ((prefixStr ++ [0x2e; 0x03 + Z.of_nat iDay] ++ slice 11 23 response)
     ++ CalcCrcStr (lastn 14 (prefixStr ++ [0x2e; 0x03 + Z.of_nat iDay]
                                        ++ slice 11 23 response))).
Proof.
  intros Hday Hlen Hbytes H11 H14 H17 H20.
  do 25 (destruct response as [|? response]; [discriminate|]).
  destruct response; [|discriminate]. clear Hlen.
  repeat match goal with
         | H : Forall _ (_ :: _) |- _ => inversion H; clear H; subst
         end.
  cbn [ord_at nth] in H11, H14, H17, H20.
  exists (Z.of_nat iDay), (slice 11 23 [z; z0; z1; z2; z3; z4; z5; z6; z7; z8;
                                         z9; z10; z11; z12; z13; z14; z15; z16;
                                         z17; z18; z19; z20; z21; z22; z23]).
  split.
  { cbn [app nth_error obind]. apply py_int_py_str. lia. }
  split; [lia|].
  split.
  { unfold thermostat.pack_row. cbn [seq fold_left].
    unfold pack_period, unpack_period, unpack_bytes.
    cbn [app flat_map seq Nat.add Nat.mul ord_at nth nth_error obind].
    rewrite !pack_unpacked_cells by lia. reflexivity. }
  split; reflexivity.
Qed.

Lemma stored_row_is_sent_back_witness :
  row_frame [0x02; 0x62; 0x11; 0x22; 0x33; 0x1F]
    (["43"; "8"; "0"; "7"; py_str (Z.of_nat 0)]%string
     ++ flat_map (unpack_period (day_response 0 day_data)) (seq 0 4))
    (([0x02; 0x62; 0x11; 0x22; 0x33; 0x1F]
      ++ [0x2e; 0x03 + Z.of_nat 0] ++ slice 11 23 (day_response 0 day_data))
     ++ CalcCrcStr
          (lastn 14 ([0x02; 0x62; 0x11; 0x22; 0x33; 0x1F]
                     ++ [0x2e; 0x03 + Z.of_nat 0]
                     ++ slice 11 23 (day_response 0 day_data)))).
Proof.
  apply (stored_row_is_sent_back [0x02; 0x62; 0x11; 0x22; 0x33; 0x1F]
           "43" "8" "0" "7" 0 (day_response 0 day_data)).
  - lia.
  - reflexivity.
  - repeat constructor; cbn; lia.
  - reflexivity.
  - reflexivity.
  - reflexivity.
  - reflexivity.
Defined.

(** * Calls that succeed, end to end *)

Section EndToEnd.

Lemma StdCmd_accepts_one (cmdStr echo ack : pystr) (last : Z)
  (rest : list read_outcome) (lg : list event) :
  List.length cmdStr = 8%nat ->
  echo_of 9 echo -> std_segment ack last ->
  StdCmd cmdStr 1 (mkSerial (Data echo :: Data ack :: rest) lg)
  = (Some (ack, false),
     mkSerial rest (lg ++ [EvWrite cmdStr; EvRead 9 (Data echo);
                           EvRead 11 (Data ack)])).
Proof.
  intros Hlen [He Hack] (Ha & Hm & _).
  pose proof (StdCmd_accepts cmdStr echo [ack] rest lg Hlen He Hack) as H.
  cbn [List.length map app List.concat] in H. rewrite app_nil_r in H.
  apply H. repeat constructor; assumption.
Qed.

Lemma StdCmd_accepts_two (cmdStr echo ack1 ack2 : pystr) (last1 last2 : Z)
  (rest : list read_outcome) (lg : list event) :
  List.length cmdStr = 8%nat ->
  echo_of 9 echo -> std_segment ack1 last1 -> std_segment ack2 last2 ->
  StdCmd cmdStr 2 (mkSerial (Data echo :: Data ack1 :: Data ack2 :: rest) lg)
  = (Some (ack1 ++ ack2, false),
     mkSerial rest (lg ++ [EvWrite cmdStr; EvRead 9 (Data echo);
                           EvRead 11 (Data ack1); EvRead 11 (Data ack2)])).
Proof.
  intros Hlen [He Hack] (Ha1 & Hm1 & _) (Ha2 & Hm2 & _).
  pose proof (StdCmd_accepts cmdStr echo [ack1; ack2] rest lg Hlen He Hack)
    as H.
  cbn [List.length map app List.concat] in H. rewrite app_nil_r in H.
  apply H. repeat constructor; assumption.
Qed.

Lemma ord_last_of (s : pystr) (x : Z) : last_item s = Some x -> ord_last s = x.
Proof. unfold ord_last. intros ->. reflexivity. Qed.

Lemma ord_at_of (s : pystr) (i : nat) (x : Z) :
  nth_error s i = Some x -> ord_at s i = x.
Proof. unfold ord_at. apply nth_error_nth. Qed.

End EndToEnd.

(** The thermostat's [GetState] when its four exchanges are answered well
    and the mode byte [m] is one of 0..7: the call returns without error
    and without a flush after the first two, the mode is [m] with its name,
    the set points are the last bytes of the two set point segments halved
    and rounded up ([(b + 1) / 2]), the humidity is the last byte of its
    segment, and the temperature is the 16-bit value at bytes 13 and 14 of
    the extended response, high byte first, in tenths of a degree. *)
Theorem thermostat_GetState_decodes
  (self : thermostat.t) (a0 a1 a2 : Z) (m heat cool humi hi lo : Z)
  (e1 k1 e2 k2 k2' e3 k3 e4 k4 r4 : pystr) (lg : list event) :
  thermostat.address self = [a0; a1; a2] ->
  valid_address [a0; a1; a2] ->
  [a0; a1; a2] <> null_address ->
  0 <= m < 8 ->
  echo_of 9 e1 -> std_segment k1 m ->
  echo_of 9 e2 -> std_segment k2 heat -> std_segment k2' cool ->
  echo_of 9 e3 -> std_segment k3 humi ->
  echo_of 23 e4 -> ext_acknowledge k4 0x2E 0x00 -> ext_segment r4 ->
  nth_error r4 13 = Some hi -> nth_error r4 14 = Some lo ->
  fst (thermostat.GetState self
         (mkSerial [Data e1; Data k1; Data e2; Data k2; Data k2'; Data e3;
                    Data k3; Data e4; Data k4; Data r4] lg))
  = Some (thermostat.mk [a0; a1; a2] m
            (nth (Z.to_nat m) thermostat.modeTextArray EmptyString)
            ((heat + 1) / 2) ((cool + 1) / 2)
            (Qmake (hi * 256 + lo) 10) humi
            (thermostat.schedule self) false (thermostat.verbose self)).
Proof.
  intros Haddr Hvalid Hnonnull Hm He1 Hk1 He2 Hk2 Hk2' He3 Hk3 He4 Hk4 Hr4
         Hhi Hlo.
  unfold thermostat.GetState. rewrite (is_null_of _ _ Haddr Hnonnull).
  unfold bind at 1. unfold flushInput at 1.
  unfold bind at 1. unfold flushOutput at 1.
  unfold bind at 1. rewrite (prefix_of _ _ _ _ _ _ Haddr Hvalid).
  unfold emit. cbn [pending log].
  (* the mode *)
  unfold bind at 1. unfold thermostat.get_mode. cbv zeta. unfold bind at 1.
  rewrite (StdCmd_accepts_one _ e1 k1 m) by first [reflexivity | assumption].
  destruct Hk1 as (_ & _ & Hl1). rewrite Hl1. cbn [negb andb orb].
  replace ((m <? 8) && (m >=? 0)) with true.
  2:{ symmetry. apply andb_true_iff. split; [apply Z.ltb_lt | apply Z.geb_le]; lia. }
  unfold ret at 1.
  (* the set points *)
  unfold bind at 1. unfold thermostat.get_setpoints. cbv zeta. unfold bind at 1.
  rewrite (StdCmd_accepts_two _ e2 k2 k2' heat cool)
    by first [reflexivity | assumption].
  destruct Hk2 as (Hn2 & _ & Hl2). destruct Hk2' as (_ & _ & Hl2').
  cbn [negb orb].
  assert (Hfirst : firstn 11 (k2 ++ k2') = k2).
  { rewrite firstn_app, Hn2, Nat.sub_diag, firstn_O, app_nil_r.
    rewrite <- Hn2. apply firstn_all. }
  assert (Hskip : skipn 11 (k2 ++ k2') = k2').
  { rewrite skipn_app, Hn2, Nat.sub_diag, skipn_O.
    rewrite <- Hn2, skipn_all. reflexivity. }
  rewrite Hfirst, Hskip, (ord_last_of _ _ Hl2), (ord_last_of _ _ Hl2').
  unfold ret at 1.
  (* the humidity *)
  unfold bind at 1. unfold thermostat.get_humidity. cbv zeta. unfold bind at 1.
  rewrite (StdCmd_accepts_one _ e3 k3 humi) by first [reflexivity | assumption].
  destruct Hk3 as (_ & _ & Hl3). cbn [negb orb].
  rewrite (ord_last_of _ _ Hl3). unfold ret at 1.
  (* the temperature *)
  unfold bind at 1. unfold thermostat.get_temperature. cbv zeta.
  unfold bind at 1.
  destruct He4 as [Hn4 Hack4]. destruct Hk4 as (Hna & Hma & Hcmd).
  destruct Hr4 as [Hnr Hmr].
  rewrite (ExtChecksum_accepts _ e4 k4 r4 [])
    by first [reflexivity | assumption].
  cbn [negb orb].
  rewrite (ord_at_of _ _ _ Hhi), (ord_at_of _ _ _ Hlo).
  unfold ret. cbn [fst]. rewrite errorReporting_is_localError.
  rewrite <- Haddr. reflexivity.
Qed.

Lemma thermostat_GetState_decodes_witness :
  fst (thermostat.GetState cool_thermostat
         (mkSerial
            [Data (thermostat_pre ++ [0x6B; 0x02; 0x06]); Data (std_ack 1);
             Data (thermostat_pre ++ [0x6A; 0x20; 0x06]); Data (std_ack 36);
             Data (std_ack 48);
             Data (thermostat_pre ++ [0x6A; 0x60; 0x06]); Data (std_ack 40);
             Data (thermostat_ext
                   ++ [checksum (lastn 15 thermostat_ext); 0x06]);
             Data (ext_ack 0x2E 0x00); Data temperature_response] []))
  = Some (thermostat.mk [0x11; 0x22; 0x33] 1
            (nth (Z.to_nat 1) thermostat.modeTextArray EmptyString)
            ((36 + 1) / 2) ((48 + 1) / 2)
            (Qmake (0 * 256 + 215) 10) 40
            (thermostat.schedule cool_thermostat) false
            (thermostat.verbose cool_thermostat)).
Proof.
  apply (thermostat_GetState_decodes cool_thermostat 0x11 0x22 0x33
           1 36 48 40 0 215).
  - reflexivity.
  - split; [reflexivity | repeat constructor; lia].
  - discriminate.
  - lia.
  - split; reflexivity.
  - repeat split.
  - split; reflexivity.
  - repeat split.
  - repeat split.
  - split; reflexivity.
  - repeat split.
  - split; reflexivity.
  - repeat split.
  - split; reflexivity.
  - reflexivity.
  - reflexivity.
Defined.

(** [SetSchedule] keeps the hour of a time cell and rounds its minutes
    down to the quarter of an hour: a cell that reads [h:m] with [h] in
    0..23 and [m] in 0..59 is packed into the byte [4*h + m/15], which is
    below 96 and which [GetSchedule] decodes as [h] hours and
    [15 * (m/15)] minutes. *)
Theorem pack_cells_rounds_minutes_down
  (time cool heat : string) (h m c t : Z) :
  parse_hm time = Some (h, m) ->
  py_int cool = Some c ->
  py_int heat = Some t ->
  0 <= h <= 23 -> 0 <= m <= 59 ->
  0 <= c <= 255 -> 0 <= t <= 255 ->
  exists timebyte,
    pack_cells time cool heat = Some [timebyte; c; t]
    /\ 0 <= timebyte < 96
    /\ unpack_bytes timebyte c t
       = [tfmt h (m / 15 * 15); py_str c; py_str t].
Proof.
  intros Htime Hcool Hheat Hh Hm Hc Ht.
  pose proof (Z.div_mod m 15 ltac:(lia)) as Dm.
  pose proof (Z.mod_pos_bound m 15 ltac:(lia)) as Bm.
  assert (Hq : 0 <= m / 15 <= 3) by lia.
  exists (h * 4 + m / 15).
  split.
  { unfold pack_cells. rewrite Htime. cbn [obind].
    rewrite chr_byte by lia. cbn [obind].
    rewrite Hcool, Hheat. cbn [obind].
    rewrite (chr_byte c Hc), (chr_byte t Ht). reflexivity. }
  split; [lia|].
  unfold unpack_bytes. cbv zeta.
  assert (Hd : (h * 4 + m / 15) / 4 = h)
    by (symmetry; apply (Z.div_unique_pos _ _ _ (m / 15)); lia).
  assert (Hr : (h * 4 + m / 15) mod 4 = m / 15)
    by (symmetry; apply (Z.mod_unique_pos _ _ h); lia).
  rewrite Hd, Hr. reflexivity.
Qed.

Lemma pack_cells_rounds_minutes_down_witness :
  parse_hm "6:44" = Some (6, 44)
  /\ exists timebyte,
       pack_cells "6:44" "24" "18" = Some [timebyte; 24; 18]
       /\ 0 <= timebyte < 96
       /\ unpack_bytes timebyte 24 18
          = [tfmt 6 (44 / 15 * 15); py_str 24; py_str 18].
Proof.
  split; [reflexivity|].
  apply (pack_cells_rounds_minutes_down "6:44" "24" "18" 6 44 24 18);
    try reflexivity; lia.
Defined.

(** * Sequences of calls *)

Section CallsReturn.

Lemma valid_address_three (address : list Z) :
  valid_address address ->
  exists a0 a1 a2, address = [a0; a1; a2].
Proof.
  intros [Hlen _].
  destruct address as [|a0 [|a1 [|a2 [|a3 r]]]]; try discriminate.
  exists a0, a1, a2. reflexivity.
Qed.

Variable level_byte : Z -> Z.

Lemma dimmer_call_returns (self : dimmer.t) (op : dimmer_op) (ser : Serial) :
  valid_address (dimmer.address self) ->
  safe_dimmer_op level_byte op ->
  exists self' ser',
    dimmer_call level_byte self op ser = (Some self', ser')
    /\ dimmer.address self' = dimmer.address self.
Proof.
  intros Hvalid Hsafe.
  destruct (is_null (dimmer.address self)) eqn:Hnull.
  { apply is_null_true in Hnull. exists self, ser.
    split; [apply dimmer_call_null; exact Hnull | reflexivity]. }
  destruct (valid_address_three _ Hvalid) as (a0 & a1 & a2 & Haddr).
  rewrite Haddr in Hvalid.
  destruct op as [level| |]; cbn [dimmer_call safe_dimmer_op] in *.
  - unfold dimmer.SetOn. rewrite Hnull.
    unfold bind at 1. unfold flushInput at 1.
    unfold bind at 1. unfold flushOutput at 1.
    unfold bind at 1. rewrite (prefix_of _ _ _ _ _ _ Haddr Hvalid).
    unfold bind at 1. rewrite (chr_byte _ Hsafe). cbn [lift ret app].
    unfold bind at 1.
    destruct (StdCmd_one [2; 98; a0; a1; a2; 15; 17; level_byte level]
                (emit EvFlushOutput (emit EvFlushInput ser)) eq_refl)
      as (response & e & ser' & evs & Hcmd & _).
    rewrite Hcmd. destruct e; cbn [negb]; eexists _, ser';
      (split; [reflexivity|]); reflexivity.
  - unfold dimmer.SetOff. rewrite Hnull.
    unfold bind at 1. unfold flushInput at 1.
    unfold bind at 1. unfold flushOutput at 1.
    unfold bind at 1. rewrite (prefix_of _ _ _ _ _ _ Haddr Hvalid).
    cbn [app]. unfold bind at 1.
    destruct (StdCmd_one [2; 98; a0; a1; a2; 15; 19; 0]
                (emit EvFlushOutput (emit EvFlushInput ser)) eq_refl)
      as (response & e & ser' & evs & Hcmd & _).
    rewrite Hcmd. destruct e; cbn [negb]; eexists _, ser';
      (split; [reflexivity|]); reflexivity.
  - unfold dimmer.GetState. rewrite Hnull.
    unfold bind at 1. unfold flushInput at 1.
    unfold bind at 1. unfold flushOutput at 1.
    unfold bind at 1. rewrite (prefix_of _ _ _ _ _ _ Haddr Hvalid).
    cbn [app]. unfold bind at 1.
    destruct (StdCmd_one [2; 98; a0; a1; a2; 15; 25; 0]
                (emit EvFlushOutput (emit EvFlushInput ser)) eq_refl)
      as (response & e & ser' & evs & Hcmd & _ & _ & Hlast).
    rewrite Hcmd. destruct e; cbn [negb].
    + eexists _, ser'. split; reflexivity.
    + destruct (Hlast eq_refl) as [x Hx].
      unfold bind at 1. rewrite Hx. cbn [lift]. unfold ret at 1.
      match goal with
      | |- context [if ?t then _ else _] => destruct t
      end; eexists _, ser'; (split; [reflexivity|]); reflexivity.
Qed.

Lemma thermostat_call_returns (self : thermostat.t) (op : thermostat_op)
  (ser : Serial) :
  valid_address (thermostat.address self) ->
  safe_thermostat_op op ->
  exists self' ser',
    thermostat_call self op ser = (Some self', ser')
    /\ thermostat.address self' = thermostat.address self.
Proof.
  intros Hvalid Hsafe.
  destruct (is_null (thermostat.address self)) eqn:Hnull.
  { apply is_null_true in Hnull. exists self, ser.
    split; [apply thermostat_call_null; exact Hnull | reflexivity]. }
  assert (Hnonnull : thermostat.address self <> null_address).
  { intros E. apply is_null_true in E. congruence. }
  destruct (valid_address_three _ Hvalid) as (a0 & a1 & a2 & Haddr).
  rewrite Haddr in Hvalid, Hnonnull.
  assert (Hnudge : forall cmd1, exists self' ser',
            thermostat.nudge cmd1 self ser = (Some self', ser')
            /\ thermostat.address self' = thermostat.address self).
  { intros cmd1. unfold thermostat.nudge. rewrite Hnull.
    unfold bind at 1. unfold flushInput at 1.
    unfold bind at 1. unfold flushOutput at 1.
    unfold bind at 1. rewrite (prefix_of _ _ _ _ _ _ Haddr Hvalid).
    cbn [app]. unfold bind at 1.
    destruct (StdCmd_one [2; 98; a0; a1; a2; 15; cmd1; 0]
                (emit EvFlushOutput (emit EvFlushInput ser)) eq_refl)
      as (response & e & ser' & evs & Hcmd & _).
    rewrite Hcmd. eexists _, ser'. split; reflexivity. }
  destruct op as [| | |deviceId zone|schedTable|mode];
    cbn [thermostat_call safe_thermostat_op] in *.
  - destruct (GetState_composition self ser a0 a1 a2 Haddr Hvalid Hnonnull)
      as (self1 & e1 & ser1 & self2 & e2 & ser2 & self3 & e3 & ser3 & self4
          & e4 & ser4 & _ & _ & _ & _ & Hrun & _ & (m & txt & F1)
          & (heat & cool & F2) & (humi & F3) & (temp & F4) & _).
    eexists _, ser4. split; [exact Hrun|]. subst. reflexivity.
  - apply Hnudge.
  - apply Hnudge.
  - unfold thermostat.GetSchedule. rewrite Hnull.
    unfold bind at 1. unfold flushInput at 1.
    unfold bind at 1. unfold flushOutput at 1.
    unfold bind at 1. rewrite (prefix_of _ _ _ _ _ _ Haddr Hvalid).
    destruct (get_days [2; 98; a0; a1; a2; 31] deviceId zone eq_refl
                (seq 0 7) false []
                (emit EvFlushOutput (emit EvFlushInput ser)))
      as (c & tbl & ser' & Hrun & _).
    unfold bind at 1. rewrite Hrun.
    destruct c; cbn [negb errorReporting]; eexists _, ser';
      (split; [reflexivity|]); reflexivity.
  - unfold thermostat.SetSchedule. rewrite Hnull.
    apply Nat.eqb_neq in Hsafe. rewrite Hsafe. cbn [negb].
    exists self, ser. split; reflexivity.
  - unfold thermostat.SetMode. rewrite Hnull.
    destruct ((mode <? 4) || (mode >? 10)) eqn:Hrange.
    { exists self, ser. split; reflexivity. }
    apply orb_false_iff in Hrange. destruct Hrange as [Hlo Hhi].
    apply Z.ltb_ge in Hlo. rewrite Z.gtb_ltb in Hhi. apply Z.ltb_ge in Hhi.
    unfold bind at 1. unfold flushInput at 1.
    unfold bind at 1. unfold flushOutput at 1.
    unfold bind at 1. rewrite (prefix_of _ _ _ _ _ _ Haddr Hvalid).
    unfold bind at 1. rewrite (chr_byte mode) by lia. cbn [lift ret].
    unfold bind at 1.
    destruct (Ext_one ([2; 98; a0; a1; a2; 31] ++ [107; mode]
                       ++ thermostat.zeros 13)
                (emit EvFlushOutput (emit EvFlushInput ser)) eq_refl)
      as (response & e & ser' & evs & Hcmd & _).
    rewrite Hcmd. eexists _, ser'. split; reflexivity.
Qed.

End CallsReturn.

(** * More on the integrity codes and on the channel *)

(** [CalcCrcStr] returns exactly two characters, each a byte, whatever its
    input: the two [chr] calls that close it never raise, and the frame of
    [ExtCrc] always has 22 bytes. *)
Theorem CalcCrcStr_two_bytes (dataStr : pystr) :
  exists hi lo,
    CalcCrcStr dataStr = [hi; lo]
    /\ 0 <= hi <= 255 /\ 0 <= lo <= 255
    /\ forall cmdStr, List.length cmdStr = 20%nat ->
         List.length (cmdStr ++ CalcCrcStr dataStr) = 22%nat.
Proof.
  assert (Hbyte : forall v, 0 <= Z.land v 0xff <= 255).
  { intros v. change (Z.land v 255) with (Z.land v (Z.ones 8)).
    rewrite Z.land_ones by lia.
    pose proof (Z.mod_pos_bound v (2 ^ 8) ltac:(lia)) as H. lia. }
  exists (Z.land (Z.shiftr (crc_loop dataStr 0) 8) 0xff),
         (Z.land (Z.shiftr (crc_loop dataStr 0) 0) 0xff).
  split; [reflexivity|]. split; [apply Hbyte|]. split; [apply Hbyte|].
  intros cmdStr Hlen. rewrite length_app, Hlen. reflexivity.
Qed.

Section SilentPort.

Lemma read_responses_silent (n : nat) : forall (acc : pystr) (lg : list event),
  read_responses n acc (mkSerial [] lg)
  = (Some acc, mkSerial [] (lg ++ repeat (EvRead 11 (Data [])) n)).
Proof.
  induction n as [|n IH]; intros acc lg.
  - cbn. rewrite app_nil_r. reflexivity.
  - cbn [read_responses repeat]. unfold bind, read. cbn [pending log].
    rewrite app_nil_r, IH, <- app_assoc. reflexivity.
Qed.

Lemma silent_reads (evs : list event) (n : nat) :
  Forall (fun e => exists k, e = EvRead k (Data [])) evs ->
  Forall (fun e => exists k, e = EvRead k (Data []))
         (evs ++ repeat (EvRead 11 (Data [])) n).
Proof.
  intros H. apply Forall_app. split; [exact H|].
  apply Forall_forall. intros e He. apply repeat_spec in He. eauto.
Qed.

End SilentPort.

(** A port that stays silent (every read times out with nothing) makes
    each of the three exchanges return an error with an empty response:
    the frame is written once, the reads that follow all come back empty,
    and nothing is flushed. *)
Theorem silent_port_is_an_error
  (x : exchange) (frame : pystr) (full : nat) (lg : list event) :
  exchange_frame x = Some (frame, full) ->
  exists evs,
    run_exchange x (mkSerial [] lg)
    = (Some ([], true), mkSerial [] (lg ++ EvWrite frame :: evs))
    /\ evs <> []
    /\ Forall (fun e => exists k, e = EvRead k (Data [])) evs.
Proof.
  destruct x as [cmdStr nResponse|cmdStr extreadback|cmdStr];
    cbn [exchange_frame run_exchange].
  - destruct (List.length cmdStr =? 8)%nat eqn:Hlen; [|discriminate].
    intros H. inversion H; subst frame full. clear H.
    exists (EvRead 9 (Data []) :: repeat (EvRead 11 (Data [])) nResponse).
    split.
    + unfold StdCmd. rewrite Hlen. cbn [negb].
      unfold bind at 1. unfold write at 1. unfold emit. cbn [pending log].
      unfold bind at 1. unfold try. unfold bind at 1. unfold read at 1.
      cbn [pending log]. unfold bind at 1.
      rewrite read_responses_silent. unfold ret. cbn [List.length Nat.eqb negb orb].
      rewrite <- !app_assoc. reflexivity.
    + split; [discriminate|].
      apply (silent_reads [EvRead 9 (Data [])]). repeat constructor. eauto.
  - destruct (List.length cmdStr =? 20)%nat eqn:Hlen; [|discriminate].
    intros H. inversion H; subst frame full. clear H.
    exists (EvRead 23 (Data []) :: EvRead 11 (Data [])
            :: (if extreadback then [EvRead 25 (Data [])] else [])).
    split.
    + unfold ExtCrc. rewrite Hlen. cbn [negb]. cbv zeta.
      unfold bind at 1. unfold write at 1. unfold emit. cbn [pending log].
      unfold bind at 1. unfold try. unfold bind at 1. unfold read at 1.
      cbn [pending log]. unfold bind at 1. unfold read at 1.
      cbn [pending log].
      destruct extreadback.
      * unfold bind at 1. unfold read at 1. cbn [pending log]. unfold ret.
        cbn [List.length Nat.eqb negb orb]. rewrite <- !app_assoc. reflexivity.
      * unfold bind at 1. unfold ret.
        cbn [List.length Nat.eqb negb orb]. rewrite <- !app_assoc. reflexivity.
    + split; [discriminate|].
      destruct extreadback; repeat constructor; eauto.
  - destruct (List.length cmdStr =? 21)%nat eqn:Hlen; [|discriminate].
    intros H. inversion H; subst frame full. clear H.
    exists [EvRead 23 (Data []); EvRead 11 (Data []); EvRead 25 (Data [])].
    split.
    + unfold ExtChecksum. rewrite Hlen. cbn [negb]. cbv zeta.
      unfold bind at 1. unfold write at 1. unfold emit. cbn [pending log].
      unfold bind at 1. unfold try. unfold bind at 1. unfold read at 1.
      cbn [pending log]. unfold bind at 1. unfold read at 1.
      cbn [pending log]. unfold bind at 1. unfold read at 1.
      cbn [pending log]. unfold ret.
      cbn [List.length Nat.eqb negb orb]. rewrite <- !app_assoc. reflexivity.
    + split; [discriminate|]. repeat constructor; eauto.
Qed.

Lemma silent_port_is_an_error_witness :
  exists evs,
    run_exchange (XStdCmd level_request 1) (mkSerial [] [])
    = (Some ([], true), mkSerial [] ([] ++ EvWrite level_request :: evs))
    /\ evs <> []
    /\ Forall (fun e => exists k, e = EvRead k (Data [])) evs.
Proof.
  apply (silent_port_is_an_error (XStdCmd level_request 1) level_request 11 []).
  reflexivity.
Defined.

(** * The schedule, when the thermostat answers well *)

Section ScheduleAccepted.

Lemma ExtCrc_accepts_read
  (cmdStr echo ack response : pystr) (rest : list read_outcome)
  (lg : list event) :
  List.length cmdStr = 20%nat ->
  echo_of 23 echo ->
  List.length ack = 11%nat -> nth_error ack 1 = Some 0x50 ->
  lastn 2 ack = slice 6 8 cmdStr ->
  ext_segment response ->
  ExtCrc cmdStr true
    (mkSerial (Data echo :: Data ack :: Data response :: rest) lg)
  = (Some (response, false),
     mkSerial rest
       (lg ++ [EvWrite (cmdStr ++ CalcCrcStr (lastn 14 cmdStr));
               EvRead 23 (Data echo); EvRead 11 (Data ack);
               EvRead 25 (Data response)])).
Proof.
  intros Hlen [He Hack] Ha Hm Hcmd [Hr Hx].
  assert (F1 : firstn 23 echo = echo) by (rewrite <- He; apply firstn_all).
  assert (F2 : firstn 11 ack = ack) by (rewrite <- Ha; apply firstn_all).
  assert (F3 : firstn 25 response = response)
    by (rewrite <- Hr; apply firstn_all).
  unfold ExtCrc. rewrite Hlen. cbn [Nat.eqb negb]. cbv zeta.
  unfold bind at 1. unfold write at 1. unfold emit. cbn [pending log].
  unfold bind at 1. unfold try. unfold bind at 1. unfold read at 1.
  cbn [pending log]. rewrite F1.
  unfold bind at 1. unfold read at 1. cbn [pending log]. rewrite F2.
  unfold bind at 1. unfold read at 1. cbn [pending log]. rewrite F3.
  unfold ret at 1 2.
  rewrite He, Ha, Hr. cbn [Nat.eqb negb orb].
  rewrite (last_item_is _ _ Hack).
  rewrite (proj2 (char_at_is_true ack 1 0x50) Hm).
  rewrite (proj2 (char_at_is_true response 1 0x51) Hx).
  rewrite slice_app_l by lia. rewrite Hcmd.
  unfold pystr_eqb.
  destruct (list_eq_dec Z.eq_dec (slice 6 8 cmdStr) (slice 6 8 cmdStr));
    [|contradiction].
  cbn [negb andb orb]. unfold ret. rewrite <- !app_assoc. reflexivity.
Qed.

Lemma ExtCrc_accepts_plain
  (cmdStr echo ack : pystr) (rest : list read_outcome) (lg : list event) :
  List.length cmdStr = 20%nat ->
  echo_of 23 echo ->
  List.length ack = 11%nat -> nth_error ack 1 = Some 0x50 ->
  lastn 2 ack = slice 6 8 cmdStr ->
  ExtCrc cmdStr false (mkSerial (Data echo :: Data ack :: rest) lg)
  = (Some ([], false),
     mkSerial rest
       (lg ++ [EvWrite (cmdStr ++ CalcCrcStr (lastn 14 cmdStr));
               EvRead 23 (Data echo); EvRead 11 (Data ack)])).
Proof.
  intros Hlen [He Hack] Ha Hm Hcmd.
  assert (F1 : firstn 23 echo = echo) by (rewrite <- He; apply firstn_all).
  assert (F2 : firstn 11 ack = ack) by (rewrite <- Ha; apply firstn_all).
  unfold ExtCrc. rewrite Hlen. cbn [Nat.eqb negb]. cbv zeta.
  unfold bind at 1. unfold write at 1. unfold emit. cbn [pending log].
  unfold bind at 1. unfold try. unfold bind at 1. unfold read at 1.
  cbn [pending log]. rewrite F1.
  unfold bind at 1. unfold read at 1. cbn [pending log]. rewrite F2.
  unfold bind at 1. unfold ret at 1 2 3.
  rewrite He, Ha. cbn [Nat.eqb negb orb].
  rewrite (last_item_is _ _ Hack).
  rewrite (proj2 (char_at_is_true ack 1 0x50) Hm).
  rewrite slice_app_l by lia. rewrite Hcmd.
  unfold pystr_eqb.
  destruct (list_eq_dec Z.eq_dec (slice 6 8 cmdStr) (slice 6 8 cmdStr));
    [|contradiction].
  cbn [negb andb orb]. unfold ret. rewrite <- !app_assoc. reflexivity.
Qed.

Variables (a0 a1 a2 : Z) (deviceId zone : Z).

Lemma get_day_accepts (tbl : list (list string)) (iDay : nat)
  (echo ack response : pystr) (rest : list read_outcome) (lg : list event) :
  day_answer iDay (echo, ack, response) ->
  exists lg',
    thermostat.get_day [0x02; 0x62; a0; a1; a2; 0x1F] deviceId zone
      (false, tbl) iDay
      (mkSerial (Data echo :: Data ack :: Data response :: rest) lg)
    = (Some (false, tbl ++ [day_cells deviceId zone iDay response]),
       mkSerial rest lg').
Proof.
  intros (He & (Ha & Hm & Hcmd) & Hr & Hc & H11 & H14 & H17 & H20).
  unfold thermostat.get_day. cbv zeta. unfold bind.
  rewrite (ExtCrc_accepts_read _ echo ack response rest lg)
    by first [reflexivity | assumption | (rewrite Hcmd; reflexivity)].
  cbn [negb orb andb]. rewrite Hc, Z.eqb_refl. cbn [andb].
  apply Z.ltb_lt in H11, H14, H17, H20. rewrite H11, H14, H17, H20.
  cbn [andb]. unfold ret. eexists. reflexivity.
Qed.

Lemma get_days_accept (days : list nat)
  (answers : list (pystr * pystr * pystr)) :
  Forall2 day_answer days answers ->
  forall (tbl : list (list string)) (lg : list event),
  exists lg',
    foldM (thermostat.get_day [0x02; 0x62; a0; a1; a2; 0x1F] deviceId zone)
      days (false, tbl) (mkSerial (answers_data answers) lg)
    = (Some (false,
             tbl ++ map (fun p => day_cells deviceId zone (fst p)
                                            (snd (snd p)))
                        (combine days answers)),
       mkSerial [] lg').
Proof.
  induction 1 as [|iDay [[echo ack] response] days answers Hday _ IH];
    intros tbl lg.
  - exists lg. cbn. rewrite app_nil_r. reflexivity.
  - cbn [foldM answers_data flat_map app combine map fst snd].
    destruct (get_day_accepts tbl iDay echo ack response
                (answers_data answers) lg Hday) as [lg1 H1].
    unfold bind at 1. unfold answers_data in H1. rewrite H1.
    destruct (IH (tbl ++ [day_cells deviceId zone iDay response]) lg1)
      as [lg' H']. exists lg'. unfold answers_data in H'. rewrite H'.
    rewrite <- app_assoc. reflexivity.
Qed.

Lemma set_day_accepts (c : bool) (schedRow : list string)
  (a : pystr * pystr) (rest : list read_outcome) (lg : list event) :
  row_answer schedRow a ->
  exists lg',
    thermostat.set_day [0x02; 0x62; a0; a1; a2; 0x1F] c schedRow
      (mkSerial (Data (fst a) :: Data (snd a) :: rest) lg)
    = (Some c, mkSerial rest lg').
Proof.
  intros (day & data & Hday & Hrange & Hdata & He & (Ha & Hm & Hcmd)).
  pose proof (pack_row_length _ _ Hdata) as Hlen.
  unfold thermostat.set_day. unfold bind at 1. rewrite Hday. cbn [lift].
  unfold ret at 1. unfold bind at 1. rewrite (chr_byte _ Hrange).
  cbn [lift]. unfold ret at 1. unfold bind at 1. rewrite Hdata.
  cbn [lift]. unfold ret at 1. cbv zeta. unfold bind.
  rewrite (ExtCrc_accepts_plain _ (fst a) (snd a) rest lg);
    [unfold ret; eexists; reflexivity | | exact He | exact Ha | exact Hm |].
  - cbn [app List.length]. rewrite Hlen. reflexivity.
  - rewrite Hcmd. reflexivity.
Qed.

Lemma set_days_accept (rows : list (list string))
  (answers : list (pystr * pystr)) :
  Forall2 row_answer rows answers ->
  forall (c : bool) (lg : list event),
  exists lg',
    foldM (thermostat.set_day [0x02; 0x62; a0; a1; a2; 0x1F]) rows c
      (mkSerial (row_answers_data answers) lg)
    = (Some c, mkSerial [] lg').
Proof.
  induction 1 as [|row a rows answers Hrow _ IH]; intros c lg.
  - exists lg. reflexivity.
  - cbn [foldM row_answers_data flat_map app].
    destruct (set_day_accepts c row a (row_answers_data answers) lg Hrow)
      as [lg1 H1].
    unfold bind at 1. unfold row_answers_data in H1. rewrite H1.
    destruct (IH c lg1) as [lg' H']. exists lg'.
    unfold row_answers_data in H'. exact H'.
Qed.

End ScheduleAccepted.

(** [GetSchedule] on a valid, non-null address, when each of the seven
    days is answered well (echo closed by 0x06, acknowledgement of the
    command of the day, a response of 25 bytes marked 0x51 whose byte 10
    is the command of the day plus one and whose four time bytes are below
    96): the call ends without error and the schedule stored is the seven
    rows decoded from the seven responses, in the order of the days. *)
Theorem GetSchedule_reads_a_week
  (self : thermostat.t) (deviceId zone : Z) (a0 a1 a2 : Z)
  (answers : list (pystr * pystr * pystr)) (lg : list event) :
  thermostat.address self = [a0; a1; a2] ->
  valid_address [a0; a1; a2] ->
  [a0; a1; a2] <> null_address ->
  Forall2 day_answer (seq 0 7) answers ->
  fst (thermostat.GetSchedule self deviceId zone
         (mkSerial (answers_data answers) lg))
  = Some (thermostat.set_schedule (thermostat.set_errorStatus self false)
            (week_rows deviceId zone answers)).
Proof.
  intros Haddr Hvalid Hnonnull Hweek.
  unfold thermostat.GetSchedule. rewrite (is_null_of _ _ Haddr Hnonnull).
  unfold bind at 1. unfold flushInput at 1.
  unfold bind at 1. unfold flushOutput at 1.
  unfold bind at 1. rewrite (prefix_of _ _ _ _ _ _ Haddr Hvalid).
  unfold emit. cbn [pending log].
  destruct (get_days_accept a0 a1 a2 deviceId zone (seq 0 7) answers Hweek
              [] ((lg ++ [EvFlushInput]) ++ [EvFlushOutput])) as [lg' Hrun].
  unfold bind at 1. rewrite Hrun. cbn [negb errorReporting app].
  reflexivity.
Qed.

Lemma GetSchedule_reads_a_week_witness :
  fst (thermostat.GetSchedule cool_thermostat 8 0
         (mkSerial (answers_data week_answers) []))
  = Some (thermostat.set_schedule
            (thermostat.set_errorStatus cool_thermostat false)
            (week_rows 8 0 week_answers)).
Proof.
  apply (GetSchedule_reads_a_week cool_thermostat 8 0 0x11 0x22 0x33
           week_answers []).
  - reflexivity.
  - split; [reflexivity | repeat constructor; lia].
  - discriminate.
  - unfold week_answers. cbn [map seq].
    repeat (constructor; [repeat split; vm_compute; reflexivity|]).
    constructor.
Defined.

(** [SetSchedule] on a valid, non-null address with seven rows that pack,
    when each frame is answered well (echo closed by 0x06 and the
    acknowledgement of its command): the call ends without error and the
    table is stored as the schedule, as it was given. *)
Theorem SetSchedule_stores_an_acknowledged_week
  (self : thermostat.t) (schedTable : list (list string)) (a0 a1 a2 : Z)
  (answers : list (pystr * pystr)) (lg : list event) :
  thermostat.address self = [a0; a1; a2] ->
  valid_address [a0; a1; a2] ->
  [a0; a1; a2] <> null_address ->
  List.length schedTable = 7%nat ->
  Forall2 row_answer schedTable answers ->
  fst (thermostat.SetSchedule self schedTable
         (mkSerial (row_answers_data answers) lg))
  = Some (thermostat.set_schedule (thermostat.set_errorStatus self false)
            schedTable).
Proof.
  intros Haddr Hvalid Hnonnull Hlen Hweek.
  unfold thermostat.SetSchedule. rewrite (is_null_of _ _ Haddr Hnonnull).
  rewrite Hlen. cbn [Nat.eqb negb].
  unfold bind at 1. unfold flushInput at 1.
  unfold bind at 1. unfold flushOutput at 1.
  unfold bind at 1. rewrite (prefix_of _ _ _ _ _ _ Haddr Hvalid).
  unfold emit. cbn [pending log].
  destruct (set_days_accept a0 a1 a2 schedTable answers Hweek false
              ((lg ++ [EvFlushInput]) ++ [EvFlushOutput])) as [lg' Hrun].
  unfold bind at 1. rewrite Hrun. cbn [negb errorReporting].
  reflexivity.
Qed.

Lemma SetSchedule_stores_an_acknowledged_week_witness :
  fst (thermostat.SetSchedule cool_thermostat sample_week
         (mkSerial (row_answers_data sample_answers) []))
  = Some (thermostat.set_schedule
            (thermostat.set_errorStatus cool_thermostat false) sample_week).
Proof.
  apply (SetSchedule_stores_an_acknowledged_week cool_thermostat sample_week
           0x11 0x22 0x33 sample_answers []).
  - reflexivity.
  - split; [reflexivity | repeat constructor; lia].
  - discriminate.
  - reflexivity.
  - unfold sample_week, sample_answers. cbn [repeat].
    repeat (constructor;
            [exists 0, day_data; repeat split; vm_compute;
             first [reflexivity | discriminate]|]).
    constructor.
Defined.

(** * The calls, from the outcomes of their exchanges *)

(** * Calls tied to their exchanges *)

Section StepRuns.

Variables (preStr : pystr) (self : thermostat.t) (c : bool).

Lemma get_mode_run (ser ser' : Serial) (r : pystr) (e : bool) :
  StdCmd (preStr ++ [0x6B; 0x02]) 1 ser = (Some (r, e), ser') ->
  thermostat.get_mode preStr (self, c) ser
  = (Some (if mode_step_failed r e then self
           else thermostat.set_mode self (mode_byte r)
                  (nth (Z.to_nat (mode_byte r)) thermostat.modeTextArray
                       EmptyString),
           mode_step_failed r e || c),
     after_step (mode_step_failed r e) ser').
Proof.
  intros Hrun. unfold thermostat.get_mode. cbv zeta. unfold bind at 1.
  rewrite Hrun. unfold mode_step_failed.
  change (match last_item r with Some x => x | None => 9 end)
    with (mode_byte r).
  destruct e; cbn [negb andb orb after_step].
  - reflexivity.
  - destruct ((mode_byte r <? 8) && (mode_byte r >=? 0)); reflexivity.
Qed.

Lemma get_setpoints_run (ser ser' : Serial) (r : pystr) (e : bool) :
  StdCmd (preStr ++ [0x6A; 0x20]) 2 ser = (Some (r, e), ser') ->
  thermostat.get_setpoints preStr (self, c) ser
  = (Some (if e then self
           else thermostat.set_targets self
                  ((ord_last (firstn 11 r) + 1) / 2)
                  ((ord_last (skipn 11 r) + 1) / 2),
           e || c),
     after_step e ser').
Proof.
  intros Hrun. unfold thermostat.get_setpoints. cbv zeta. unfold bind at 1.
  rewrite Hrun. destruct e; reflexivity.
Qed.

Lemma get_humidity_run (ser ser' : Serial) (r : pystr) (e : bool) :
  StdCmd (preStr ++ [0x6A; 0x60]) 1 ser = (Some (r, e), ser') ->
  thermostat.get_humidity preStr (self, c) ser
  = (Some (if e then self
           else thermostat.set_actualHumi self (ord_last r), e || c),
     after_step e ser').
Proof.
  intros Hrun. unfold thermostat.get_humidity. cbv zeta. unfold bind at 1.
  rewrite Hrun. destruct e; reflexivity.
Qed.

Lemma get_temperature_run (ser ser' : Serial) (r : pystr) (e : bool) :
  ExtChecksum ((removelast preStr ++ [0x1F]) ++ 0x2E :: thermostat.zeros 14)
              ser
  = (Some (r, e), ser') ->
  thermostat.get_temperature preStr (self, c) ser
  = (Some (if e then self
           else thermostat.set_actualTemp self
                  (Qmake (ord_at r 13 * 256 + ord_at r 14) 10),
           e || c),
     after_step e ser').
Proof.
  intros Hrun. unfold thermostat.get_temperature. cbv zeta. unfold bind at 1.
  rewrite Hrun. destruct e; reflexivity.
Qed.

End StepRuns.

(** Claim C8.  The thermostat's [GetState] on a valid address that is not
    null makes its four exchanges one after the other, each on the channel
    that the step before has left, whatever that step's outcome: the mode
    by [StdCmd] with one response, the two set points by [StdCmd] with two
    responses, the humidity by [StdCmd] with one response, the ambient
    temperature by [ExtChecksum].  A step fails when its exchange returns
    an error (the mode step also when the mode byte is not one of 0..7),
    and a step that failed flushes both buffers.  Whatever these four
    exchanges return, the call returns; each field of a step that failed
    keeps its previous value; each field of a step that succeeded takes
    the value decoded from the response of that step, whatever happened in
    the other steps; and [errorStatus] is true exactly when at least one
    step failed. *)
Theorem GetState_steps_are_independent
  (self : thermostat.t) (ser : Serial) (a0 a1 a2 : Z)
  (r1 r2 r3 r4 : pystr) (e1 e2 e3 e4 : bool) (s1 s2 s3 s4 : Serial) :
  thermostat.address self = [a0; a1; a2] ->
  valid_address [a0; a1; a2] ->
  [a0; a1; a2] <> null_address ->
  StdCmd ([0x02; 0x62; a0; a1; a2; 0x0F] ++ [0x6B; 0x02]) 1
         (emit EvFlushOutput (emit EvFlushInput ser))
  = (Some (r1, e1), s1) ->
  StdCmd ([0x02; 0x62; a0; a1; a2; 0x0F] ++ [0x6A; 0x20]) 2
         (after_step (mode_step_failed r1 e1) s1)
  = (Some (r2, e2), s2) ->
  StdCmd ([0x02; 0x62; a0; a1; a2; 0x0F] ++ [0x6A; 0x60]) 1
         (after_step e2 s2)
  = (Some (r3, e3), s3) ->
  ExtChecksum ([0x02; 0x62; a0; a1; a2; 0x1F] ++ 0x2E :: thermostat.zeros 14)
              (after_step e3 s3)
  = (Some (r4, e4), s4) ->
  thermostat.GetState self ser
  = (Some
       (thermostat.mk [a0; a1; a2]
          (if mode_step_failed r1 e1 then thermostat.mode self
           else mode_byte r1)
          (if mode_step_failed r1 e1 then thermostat.modeText self
           else nth (Z.to_nat (mode_byte r1)) thermostat.modeTextArray
                    EmptyString)
          (if e2 then thermostat.targetHeat self
           else (ord_last (firstn 11 r2) + 1) / 2)
          (if e2 then thermostat.targetCool self
           else (ord_last (skipn 11 r2) + 1) / 2)
          (if e4 then thermostat.actualTemp self
           else Qmake (ord_at r4 13 * 256 + ord_at r4 14) 10)
          (if e3 then thermostat.actualHumi self else ord_last r3)
          (thermostat.schedule self)
          (mode_step_failed r1 e1 || e2 || e3 || e4)
          (thermostat.verbose self)),
     after_step e4 s4).
Proof.
  intros Haddr Hvalid Hnonnull H1 H2 H3 H4.
  unfold thermostat.GetState. rewrite (is_null_of _ _ Haddr Hnonnull).
  unfold bind at 1. unfold flushInput at 1.
  unfold bind at 1. unfold flushOutput at 1.
  unfold bind at 1. rewrite (prefix_of _ _ _ _ _ _ Haddr Hvalid).
  unfold bind at 1. rewrite (get_mode_run _ _ _ _ _ _ _ H1).
  unfold bind at 1. rewrite (get_setpoints_run _ _ _ _ _ _ _ H2).
  unfold bind at 1. rewrite (get_humidity_run _ _ _ _ _ _ _ H3).
  unfold bind at 1.
  rewrite (get_temperature_run [2; 98; a0; a1; a2; 15] _ _ _ _ _ _ H4).
  unfold ret. rewrite errorReporting_is_localError. rewrite <- Haddr.
  f_equal. f_equal.
  destruct (mode_step_failed r1 e1), e2, e3, e4, self; reflexivity.
Qed.

Lemma GetState_steps_are_independent_witness :
  fst (thermostat.GetState fresh_thermostat (state_replies 9))
  = Some (thermostat.mk [0x11; 0x22; 0x33] 8 "unknown" 18 24 (215 # 10) 40
            [] true false).
Proof.
  set (pre := [0x02; 0x62; 0x11; 0x22; 0x33; 0x0F]).
  set (ext := [0x02; 0x62; 0x11; 0x22; 0x33; 0x1F]
              ++ 0x2E :: thermostat.zeros 14).
  set (r1 := std_ack 9).
  set (s1 := snd (StdCmd (pre ++ [0x6B; 0x02]) 1
                    (emit EvFlushOutput (emit EvFlushInput (state_replies 9))))).
  set (r2 := std_ack 36 ++ std_ack 48).
  set (s2 := snd (StdCmd (pre ++ [0x6A; 0x20]) 2
                    (after_step (mode_step_failed r1 false) s1))).
  set (r3 := std_ack 40).
  set (s3 := snd (StdCmd (pre ++ [0x6A; 0x60]) 1 (after_step false s2))).
  set (s4 := snd (ExtChecksum ext (after_step false s3))).
  assert (Hvalid : valid_address [0x11; 0x22; 0x33])
    by (split; [reflexivity | repeat constructor; lia]).
  assert (Hnonnull : [0x11; 0x22; 0x33] <> null_address) by discriminate.
  rewrite (GetState_steps_are_independent fresh_thermostat (state_replies 9)
             0x11 0x22 0x33 r1 r2 r3 temperature_response
             false false false false s1 s2 s3 s4 eq_refl Hvalid Hnonnull);
    [ reflexivity
    | vm_compute; reflexivity | vm_compute; reflexivity
    | vm_compute; reflexivity | vm_compute; reflexivity ].
Defined.

(** The three exchanges return all or nothing.  A command of the wrong
    length is refused with an error and the channel untouched.  Whenever an
    exchange returns an error the response is empty; whenever it returns a
    success the response has the full length (11 bytes for each segment
    asked of [StdCmd], 25 for an extended response, none for [ExtCrc]
    without readback), after one write of the frame and no flush.  And an
    exception raised by a read is caught: when one of the reads of an
    exchange raises, the exchange returns the error.  (The write and the
    flushes are not guarded by the source; this statement says nothing of a
    run in which they raise.) *)
Theorem exchanges_return_all_or_nothing (x : exchange) (ser : Serial) :
  (exchange_frame x = None -> run_exchange x ser = (Some ([], true), ser))
  /\ (forall response err ser',
        run_exchange x ser = (Some (response, err), ser') ->
        (err = true -> response = [])
        /\ (err = false ->
            exists frame full,
              exchange_frame x = Some (frame, full)
              /\ List.length response = full
              /\ writes (log ser') = writes (log ser) ++ [frame]
              /\ flushes (log ser') = flushes (log ser)))
  /\ (forall evs n,
        exchange_frame x <> None ->
        log (snd (run_exchange x ser)) = log ser ++ evs ->
        In (EvRead n Raises) evs ->
        fst (run_exchange x ser) = Some ([], true)).
Proof.
  pose proof (run_exchange_cases x ser) as H.
  destruct (exchange_frame x) as [[frame full]|].
  - split; [discriminate|].
    inversion H as [response ser1 evs1 Hlog Hw Hf Hfull Hlen Heq
                   |ser1 evs1 Hlog Hw Hf Heq].
    + split.
      * intros response' err ser' Hrun. inversion Hrun; subst.
        split; [discriminate|]. intros _.
        exists frame, (List.length response'). split; [reflexivity|].
        split; [reflexivity|]. rewrite Hlog.
        change (EvWrite frame :: evs1) with ([EvWrite frame] ++ evs1).
        split.
        -- rewrite !writes_app, Hw. reflexivity.
        -- rewrite !flushes_app, Hf. cbn. rewrite app_nil_r. reflexivity.
      * intros evs n _ Hevs Hin. cbn [snd] in Hevs.
        rewrite Hlog in Hevs. apply app_inv_head in Hevs. subst evs.
        destruct Hin as [Hin|Hin]; [discriminate|].
        rewrite forallb_forall in Hfull. apply Hfull in Hin. discriminate.
    + split.
      * intros response' err ser' Hrun. inversion Hrun; subst.
        split; [reflexivity | discriminate].
      * intros. reflexivity.
  - split; [intros _; exact H|]. split.
    + intros response err ser' Hrun. rewrite H in Hrun.
      inversion Hrun; subst. split; [reflexivity | discriminate].
    + intros evs n Hne. contradiction.
Qed.

Lemma exchanges_return_all_or_nothing_witness :
  fst (run_exchange (XStdCmd level_request 1)
         (mkSerial [Data (level_request ++ [0x06]); Raises] []))
  = Some ([], true).
Proof.
  destruct (exchanges_return_all_or_nothing (XStdCmd level_request 1)
              (mkSerial [Data (level_request ++ [0x06]); Raises] []))
    as (_ & _ & Hcaught).
  apply (Hcaught [EvWrite level_request;
                  EvRead 9 (Data (level_request ++ [0x06]));
                  EvRead 11 Raises] 11%nat).
  - discriminate.
  - reflexivity.
  - right. right. left. reflexivity.
Defined.

(** [SetOff] on a dimmer with a valid, non-null address flushes both
    buffers and makes the one exchange [StdCmd] of the frame
    [02 62 a0 a1 a2 0F 13 00]; the call returns what the exchange leaves.
    When the exchange succeeds the commanded state becomes off at level 0,
    [manualOverride] is cleared and [errorStatus] is false, whatever it
    was; when the exchange returns an error only [errorStatus] changes, to
    true. *)
Theorem dimmer_SetOff_outcome
  (self : dimmer.t) (ser : Serial) (a0 a1 a2 : Z)
  (response : pystr) (localError : bool) (ser' : Serial) :
  dimmer.address self = [a0; a1; a2] ->
  valid_address [a0; a1; a2] ->
  [a0; a1; a2] <> null_address ->
  StdCmd [0x02; 0x62; a0; a1; a2; 0x0F; 0x13; 0x00] 1
         (emit EvFlushOutput (emit EvFlushInput ser))
  = (Some (response, localError), ser') ->
  dimmer.SetOff self ser
  = (Some (if localError then dimmer.set_errorStatus self true
           else dimmer.set_commanded (dimmer.set_errorStatus self false)
                                     false 0),
     ser').
Proof.
  intros Haddr Hvalid Hnonnull Hrun.
  unfold dimmer.SetOff. rewrite (is_null_of _ _ Haddr Hnonnull).
  unfold bind at 1. unfold flushInput at 1.
  unfold bind at 1. unfold flushOutput at 1.
  unfold bind at 1. rewrite (prefix_of _ _ _ _ _ _ Haddr Hvalid).
  cbn [app]. unfold bind at 1. rewrite Hrun.
  rewrite errorReporting_is_localError.
  destruct localError; reflexivity.
Qed.

Lemma dimmer_SetOff_outcome_witness :
  fst (dimmer.SetOff lit_dimmer off_on_off_replies)
  = Some (dimmer.mk [0x11; 0x22; 0x33] false 0 true 41 false false false)
  /\ fst (dimmer.SetOff lit_dimmer (mkSerial [] []))
     = Some (dimmer.mk [0x11; 0x22; 0x33] true 40 true 41 true true false).
Proof.
  assert (Hvalid : valid_address [0x11; 0x22; 0x33])
    by (split; [reflexivity | repeat constructor; lia]).
  assert (Hnonnull : [0x11; 0x22; 0x33] <> null_address) by discriminate.
  split.
  - set (s := snd (StdCmd [0x02; 0x62; 0x11; 0x22; 0x33; 0x0F; 0x13; 0x00] 1
                     (emit EvFlushOutput (emit EvFlushInput off_on_off_replies)))).
    rewrite (dimmer_SetOff_outcome lit_dimmer off_on_off_replies 0x11 0x22 0x33
               (std_ack 0) false s eq_refl Hvalid Hnonnull);
      [reflexivity | vm_compute; reflexivity].
  - set (s := snd (StdCmd [0x02; 0x62; 0x11; 0x22; 0x33; 0x0F; 0x13; 0x00] 1
                     (emit EvFlushOutput (emit EvFlushInput (mkSerial [] []))))).
    rewrite (dimmer_SetOff_outcome lit_dimmer (mkSerial [] []) 0x11 0x22 0x33
               [] true s eq_refl Hvalid Hnonnull);
      [reflexivity | vm_compute; reflexivity].
Defined.

Section SetOnByte.

Variable level_byte : Z -> Z.

(** [SetOn] with a level whose byte fits a character, on a dimmer with a
    valid, non-null address, flushes both buffers and makes the one
    exchange [StdCmd] of the frame [02 62 a0 a1 a2 0F 11 byte]; the call
    returns what the exchange leaves.  When the exchange succeeds the
    commanded state becomes on at the level asked for (the level, not the
    byte), [manualOverride] is cleared and [errorStatus] is false; when the
    exchange returns an error only [errorStatus] changes, to true. *)
Theorem dimmer_SetOn_outcome
  (self : dimmer.t) (level : Z) (ser : Serial) (a0 a1 a2 : Z)
  (response : pystr) (localError : bool) (ser' : Serial) :
  dimmer.address self = [a0; a1; a2] ->
  valid_address [a0; a1; a2] ->
  [a0; a1; a2] <> null_address ->
  0 <= level_byte level <= 255 ->
  StdCmd [0x02; 0x62; a0; a1; a2; 0x0F; 0x11; level_byte level] 1
         (emit EvFlushOutput (emit EvFlushInput ser))
  = (Some (response, localError), ser') ->
  dimmer.SetOn level_byte self level ser
  = (Some (if localError then dimmer.set_errorStatus self true
           else dimmer.set_commanded (dimmer.set_errorStatus self false)
                                     true level),
     ser').
Proof.
  intros Haddr Hvalid Hnonnull Hbyte Hrun.
  unfold dimmer.SetOn. rewrite (is_null_of _ _ Haddr Hnonnull).
  unfold bind at 1. unfold flushInput at 1.
  unfold bind at 1. unfold flushOutput at 1.
  unfold bind at 1. rewrite (prefix_of _ _ _ _ _ _ Haddr Hvalid).
  unfold bind at 1. rewrite (chr_byte _ Hbyte). cbn [lift ret app].
  unfold bind at 1. rewrite Hrun.
  rewrite errorReporting_is_localError.
  destruct localError; reflexivity.
Qed.

End SetOnByte.

Lemma dimmer_SetOn_outcome_witness :
  0 <= SetOn_byte 50 <= 255
  /\ fst (dimmer.SetOn SetOn_byte lit_dimmer 50
            (mkSerial [Data [0x02; 0x62; 0x11; 0x22; 0x33; 0x0F; 0x11;
                             SetOn_byte 50; 0x06];
                       Data (std_ack (SetOn_byte 50))] []))
     = Some (dimmer.mk [0x11; 0x22; 0x33] true 50 true 41 false false false).
Proof.
  assert (Hvalid : valid_address [0x11; 0x22; 0x33])
    by (split; [reflexivity | repeat constructor; lia]).
  assert (Hnonnull : [0x11; 0x22; 0x33] <> null_address) by discriminate.
  assert (Hbyte : 0 <= SetOn_byte 50 <= 255)
    by (vm_compute; split; discriminate).
  split; [exact Hbyte|].
  set (ser := mkSerial [Data [0x02; 0x62; 0x11; 0x22; 0x33; 0x0F; 0x11;
                               SetOn_byte 50; 0x06];
                        Data (std_ack (SetOn_byte 50))] []).
  set (s := snd (StdCmd [0x02; 0x62; 0x11; 0x22; 0x33; 0x0F; 0x11;
                         SetOn_byte 50] 1
                   (emit EvFlushOutput (emit EvFlushInput ser)))).
  rewrite (dimmer_SetOn_outcome SetOn_byte lit_dimmer 50 ser 0x11 0x22 0x33
             (std_ack (SetOn_byte 50)) false s eq_refl Hvalid Hnonnull Hbyte);
    [reflexivity | vm_compute; reflexivity].
Defined.

(** [GetState] on a dimmer with a valid, non-null address flushes both
    buffers and makes the one exchange [StdCmd] of the frame
    [02 62 a0 a1 a2 0F 19 00]; the call returns what the exchange leaves.
    When the exchange returns an error only [errorStatus] changes, to true.
    When it succeeds, with [x] the last byte of its response: the light is
    seen on unless [x] is 0, at the level [level_of_byte x]; the commanded
    state is not touched; [errorStatus] is false; and [manualOverride] is
    its old value or-ed with the test of the new observation against the
    commanded state (on/off differs, or the levels are more than 2 apart):
    the call can set the flag and cannot clear it. *)
Theorem dimmer_GetState_outcome
  (self : dimmer.t) (ser : Serial) (a0 a1 a2 : Z)
  (response : pystr) (localError : bool) (ser' : Serial) :
  dimmer.address self = [a0; a1; a2] ->
  valid_address [a0; a1; a2] ->
  [a0; a1; a2] <> null_address ->
  StdCmd [0x02; 0x62; a0; a1; a2; 0x0F; 0x19; 0x00] 1
         (emit EvFlushOutput (emit EvFlushInput ser))
  = (Some (response, localError), ser') ->
  (localError = true ->
   dimmer.GetState self ser = (Some (dimmer.set_errorStatus self true), ser'))
  /\ (localError = false ->
      exists x,
        last_item response = Some x
        /\ dimmer.GetState self ser
           = (Some (dimmer.mk [a0; a1; a2]
                      (dimmer.lastSetOn self) (dimmer.lastSetLevel self)
                      (negb (x =? 0)) (dimmer.level_of_byte x)
                      (dimmer.manualOverride self
                       || negb (Bool.eqb (negb (x =? 0))
                                         (dimmer.lastSetOn self))
                       || (Z.abs (dimmer.level_of_byte x
                                  - dimmer.lastSetLevel self) >? 2))
                      false (dimmer.verbose self)),
              ser')).
Proof.
  intros Haddr Hvalid Hnonnull Hrun.
  assert (Hlast : localError = false -> exists x, last_item response = Some x).
  { intros ->.
    pose proof (StdCmd_exchanged [2; 98; a0; a1; a2; 15; 25; 0] 1
                  (emit EvFlushOutput (emit EvFlushInput ser)) eq_refl) as Hx.
    rewrite Hrun in Hx.
    inversion Hx as [r s evs _ _ _ _ Hfull Heq|]; subst.
    destruct (last_item response) as [x|] eqn:E; [eauto|].
    unfold last_item in E. apply nth_error_None in E. rewrite Hfull in E.
    simpl in E. lia. }
  split; intros ->; [|destruct (Hlast eq_refl) as [x Hx]; exists x;
                      split; [exact Hx|]];
    unfold dimmer.GetState; rewrite (is_null_of _ _ Haddr Hnonnull);
    unfold bind at 1; unfold flushInput at 1;
    unfold bind at 1; unfold flushOutput at 1;
    unfold bind at 1; rewrite (prefix_of _ _ _ _ _ _ Haddr Hvalid);
    cbn [app]; unfold bind at 1; rewrite Hrun;
    rewrite errorReporting_is_localError; cbn [negb].
  - reflexivity.
  - unfold bind at 1. rewrite Hx. cbn [lift]. unfold ret at 1.
    rewrite <- Haddr.
    set (seen := dimmer.set_observed (dimmer.set_errorStatus self false)
                   (negb (x =? 0)) (dimmer.level_of_byte x)).
    assert (Htest : dimmer.override_test seen
                    = negb (Bool.eqb (negb (x =? 0)) (dimmer.lastSetOn self))
                      || (Z.abs (dimmer.level_of_byte x
                                 - dimmer.lastSetLevel self) >? 2))
      by reflexivity.
    rewrite <- orb_assoc, <- Htest.
    destruct (dimmer.override_test seen); unfold ret; f_equal; f_equal.
    + rewrite orb_true_r. reflexivity.
    + rewrite orb_false_r. reflexivity.
Qed.

Lemma dimmer_GetState_outcome_witness :
  fst (dimmer.GetState lit_dimmer level_reply)
  = Some (dimmer.mk [0x11; 0x22; 0x33] true 40 true 100 true false false)
  /\ fst (dimmer.GetState lit_dimmer (mkSerial [] []))
     = Some (dimmer.mk [0x11; 0x22; 0x33] true 40 true 41 true true false).
Proof.
  assert (Hvalid : valid_address [0x11; 0x22; 0x33])
    by (split; [reflexivity | repeat constructor; lia]).
  assert (Hnonnull : [0x11; 0x22; 0x33] <> null_address) by discriminate.
  split.
  - set (s := snd (StdCmd [0x02; 0x62; 0x11; 0x22; 0x33; 0x0F; 0x19; 0x00] 1
                     (emit EvFlushOutput (emit EvFlushInput level_reply)))).
    assert (Hrun : StdCmd [0x02; 0x62; 0x11; 0x22; 0x33; 0x0F; 0x19; 0x00] 1
                     (emit EvFlushOutput (emit EvFlushInput level_reply))
                   = (Some (std_ack 0xFF, false), s))
      by (vm_compute; reflexivity).
    destruct (dimmer_GetState_outcome lit_dimmer level_reply 0x11 0x22 0x33
                (std_ack 0xFF) false s eq_refl Hvalid Hnonnull Hrun)
      as [_ Hok].
    destruct (Hok eq_refl) as (x & Hx & Hget).
    inversion Hx; subst x. rewrite Hget. reflexivity.
  - set (s := snd (StdCmd [0x02; 0x62; 0x11; 0x22; 0x33; 0x0F; 0x19; 0x00] 1
                     (emit EvFlushOutput (emit EvFlushInput (mkSerial [] []))))).
    assert (Hrun : StdCmd [0x02; 0x62; 0x11; 0x22; 0x33; 0x0F; 0x19; 0x00] 1
                     (emit EvFlushOutput (emit EvFlushInput (mkSerial [] [])))
                   = (Some ([], true), s))
      by (vm_compute; reflexivity).
    destruct (dimmer_GetState_outcome lit_dimmer (mkSerial [] []) 0x11 0x22
                0x33 [] true s eq_refl Hvalid Hnonnull Hrun) as [Hfail _].
    rewrite (Hfail eq_refl). reflexivity.
Defined.

(** [UpSetPoint] and [DownSetPoint] on a valid, non-null address each
    flush both buffers and make the one exchange [StdCmd] of the frame
    [02 62 a0 a1 a2 0F 15 00] (up) or [... 16 00] (down); the call returns
    what the exchange leaves, and the only field that changes is
    [errorStatus], which becomes the error the exchange returned.  The
    stored set points are not touched. *)
Theorem setpoint_buttons_outcome
  (self : thermostat.t) (ser : Serial) (a0 a1 a2 : Z)
  (response : pystr) (localError : bool) (ser' : Serial) :
  thermostat.address self = [a0; a1; a2] ->
  valid_address [a0; a1; a2] ->
  [a0; a1; a2] <> null_address ->
  (StdCmd [0x02; 0x62; a0; a1; a2; 0x0F; 0x15; 0x00] 1
          (emit EvFlushOutput (emit EvFlushInput ser))
   = (Some (response, localError), ser') ->
   thermostat.UpSetPoint self ser
   = (Some (thermostat.set_errorStatus self localError), ser'))
  /\ (StdCmd [0x02; 0x62; a0; a1; a2; 0x0F; 0x16; 0x00] 1
             (emit EvFlushOutput (emit EvFlushInput ser))
      = (Some (response, localError), ser') ->
      thermostat.DownSetPoint self ser
      = (Some (thermostat.set_errorStatus self localError), ser')).
Proof.
  intros Haddr Hvalid Hnonnull.
  assert (H : forall cmd1,
    StdCmd [0x02; 0x62; a0; a1; a2; 0x0F; cmd1; 0x00] 1
           (emit EvFlushOutput (emit EvFlushInput ser))
    = (Some (response, localError), ser') ->
    thermostat.nudge cmd1 self ser
    = (Some (thermostat.set_errorStatus self localError), ser')).
  { intros cmd1 Hrun. unfold thermostat.nudge.
    rewrite (is_null_of _ _ Haddr Hnonnull).
    unfold bind at 1. unfold flushInput at 1.
    unfold bind at 1. unfold flushOutput at 1.
    unfold bind at 1. rewrite (prefix_of _ _ _ _ _ _ Haddr Hvalid).
    cbn [app]. unfold bind at 1. rewrite Hrun.
    rewrite errorReporting_is_localError. reflexivity. }
  split; [apply (H 0x15) | apply (H 0x16)].
Qed.

Lemma setpoint_buttons_outcome_witness :
  fst (thermostat.UpSetPoint (thermostat.set_errorStatus cool_thermostat true)
         (mkSerial [Data [0x02; 0x62; 0x11; 0x22; 0x33; 0x0F; 0x15; 0x00;
                          0x06];
                    Data (std_ack 0)] []))
  = Some cool_thermostat
  /\ fst (thermostat.DownSetPoint cool_thermostat (mkSerial [] []))
     = Some (thermostat.set_errorStatus cool_thermostat true).
Proof.
  assert (Hvalid : valid_address [0x11; 0x22; 0x33])
    by (split; [reflexivity | repeat constructor; lia]).
  assert (Hnonnull : [0x11; 0x22; 0x33] <> null_address) by discriminate.
  split.
  - set (ser := mkSerial [Data [0x02; 0x62; 0x11; 0x22; 0x33; 0x0F; 0x15;
                                 0x00; 0x06];
                          Data (std_ack 0)] []).
    set (s := snd (StdCmd [0x02; 0x62; 0x11; 0x22; 0x33; 0x0F; 0x15; 0x00] 1
                     (emit EvFlushOutput (emit EvFlushInput ser)))).
    destruct (setpoint_buttons_outcome
                (thermostat.set_errorStatus cool_thermostat true) ser
                0x11 0x22 0x33 (std_ack 0) false s eq_refl Hvalid Hnonnull)
      as [Hup _].
    rewrite Hup; [reflexivity | vm_compute; reflexivity].
  - set (s := snd (StdCmd [0x02; 0x62; 0x11; 0x22; 0x33; 0x0F; 0x16; 0x00] 1
                     (emit EvFlushOutput (emit EvFlushInput (mkSerial [] []))))).
    destruct (setpoint_buttons_outcome cool_thermostat (mkSerial [] [])
                0x11 0x22 0x33 [] true s eq_refl Hvalid Hnonnull)
      as [_ Hdown].
    rewrite Hdown; [reflexivity | vm_compute; reflexivity].
Defined.

Section SetScheduleRuns.

Variable prefixStr : pystr.
Hypothesis prefix_length : List.length prefixStr = 6%nat.

Lemma row_request_length (schedRow : list string) (cmd : pystr) :
  row_request prefixStr schedRow cmd -> List.length cmd = 20%nat.
Proof.
  intros (day & data & _ & _ & Hpack & ->).
  apply pack_row_length in Hpack.
  rewrite !length_app, prefix_length, Hpack. reflexivity.
Qed.

Lemma set_day_run (c : bool) (schedRow : list string) (cmd : pystr)
  (ser ser' : Serial) (response : pystr) (localError : bool) :
  row_request prefixStr schedRow cmd ->
  ExtCrc cmd false ser = (Some (response, localError), ser') ->
  thermostat.set_day prefixStr c schedRow ser = (Some (localError || c), ser').
Proof.
  intros (day & data & Hday & Hrange & Hpack & ->) Hrun.
  unfold thermostat.set_day. unfold bind at 1. rewrite Hday. cbn [lift].
  unfold ret at 1. unfold bind at 1. rewrite (chr_byte _ Hrange). cbn [lift].
  unfold ret at 1. unfold bind at 1. rewrite Hpack. cbn [lift].
  unfold ret at 1. unfold bind at 1. rewrite Hrun. reflexivity.
Qed.

Lemma set_days_run (rows : list (list string)) (cmds : list pystr) :
  Forall2 (row_request prefixStr) rows cmds ->
  forall (c : bool) (ser ser' : Serial) (outcomes : list (pystr * bool)),
  run_all (map (fun cmd => XExtCrc cmd false) cmds) ser = (Some outcomes, ser') ->
  foldM (thermostat.set_day prefixStr) rows c ser
  = (Some (existsb snd outcomes || c), ser')
  /\ writes (log ser')
     = writes (log ser) ++ map (fun cmd => cmd ++ CalcCrcStr (lastn 14 cmd)) cmds.
Proof.
  induction 1 as [|row cmd rows cmds Hrow _ IH]; intros c ser ser' outcomes Hrun.
  - cbn [map run_all] in Hrun. inversion Hrun; subst.
    cbn [foldM existsb orb map]. rewrite app_nil_r. split; reflexivity.
  - cbn [map run_all run_exchange] in Hrun. unfold bind at 1 in Hrun.
    destruct (ExtCrc cmd false ser) as [[[response localError]|] ser1] eqn:H1;
      [|discriminate].
    unfold bind at 1 in Hrun.
    destruct (run_all (map (fun cmd => XExtCrc cmd false) cmds) ser1)
      as [[os|] ser2] eqn:H2; [|discriminate].
    inversion Hrun; subst.
    destruct (IH (localError || c) ser1 ser' os H2) as [Hfold Hw].
    split.
    + cbn [foldM]. unfold bind at 1.
      rewrite (set_day_run c row cmd ser ser1 response localError Hrow H1).
      rewrite Hfold. cbn [existsb snd].
      rewrite (orb_comm localError (existsb snd os)), <- orb_assoc.
      reflexivity.
    + pose proof (exchanged_writes _ _ _ _
                    (ExtCrc_exchanged cmd false ser
                       (row_request_length row cmd Hrow))) as Hw1.
      rewrite H1 in Hw1. cbn [snd] in Hw1.
      rewrite Hw, Hw1. cbn [map]. rewrite <- app_assoc. reflexivity.
Qed.

End SetScheduleRuns.

(** [SetSchedule] with a table of seven rows on a valid, non-null address,
    each row giving a command (the extended command [2E cmd2] with
    [cmd2 = 3 + int(row[4])] and the twelve bytes packed from the cells 5
    to 16): the call flushes both buffers and runs [ExtCrc] without
    readback on the seven commands, in order, all seven whatever the
    outcome of the earlier ones, and returns what the last one leaves.  It
    has written the seven frames, each command with its CRC.  When one of
    the seven exchanges returned an error only [errorStatus] changes, to
    true; when none did the table is stored as the schedule, as it was
    given, and [errorStatus] is false. *)
Theorem SetSchedule_outcome
  (self : thermostat.t) (schedTable : list (list string))
  (cmds : list pystr) (outcomes : list (pystr * bool))
  (ser ser' : Serial) (a0 a1 a2 : Z) :
  thermostat.address self = [a0; a1; a2] ->
  valid_address [a0; a1; a2] ->
  [a0; a1; a2] <> null_address ->
  List.length schedTable = 7%nat ->
  Forall2 (row_request [0x02; 0x62; a0; a1; a2; 0x1F]) schedTable cmds ->
  run_all (map (fun cmd => XExtCrc cmd false) cmds)
          (emit EvFlushOutput (emit EvFlushInput ser))
  = (Some outcomes, ser') ->
  thermostat.SetSchedule self schedTable ser
  = (Some (if existsb snd outcomes
           then thermostat.set_errorStatus self true
           else thermostat.set_schedule
                  (thermostat.set_errorStatus self false) schedTable),
     ser')
  /\ writes (log ser')
     = writes (log ser)
       ++ map (fun cmd => cmd ++ CalcCrcStr (lastn 14 cmd)) cmds.
Proof.
  intros Haddr Hvalid Hnonnull Hlen Hrows Hrun.
  destruct (set_days_run [2; 98; a0; a1; a2; 31] eq_refl schedTable cmds Hrows
              false _ _ _ Hrun) as [Hfold Hw].
  rewrite writes_emit_flush in Hw. split; [|exact Hw].
  unfold thermostat.SetSchedule. rewrite (is_null_of _ _ Haddr Hnonnull).
  rewrite Hlen. cbn [Nat.eqb negb].
  unfold bind at 1. unfold flushInput at 1.
  unfold bind at 1. unfold flushOutput at 1.
  unfold bind at 1. rewrite (prefix_of _ _ _ _ _ _ Haddr Hvalid).
  unfold bind at 1. rewrite Hfold. rewrite orb_false_r.
  rewrite errorReporting_is_localError.
  destruct (existsb snd outcomes); reflexivity.
Qed.

Lemma SetSchedule_outcome_witness :
  fst (thermostat.SetSchedule cool_thermostat sample_week set_week_replies)
  = Some (thermostat.set_schedule
            (thermostat.set_errorStatus cool_thermostat false) sample_week)
  /\ fst (thermostat.SetSchedule cool_thermostat sample_week (mkSerial [] []))
     = Some (thermostat.set_errorStatus cool_thermostat true).
Proof.
  assert (Hvalid : valid_address [0x11; 0x22; 0x33])
    by (split; [reflexivity | repeat constructor; lia]).
  assert (Hnonnull : [0x11; 0x22; 0x33] <> null_address) by discriminate.
  assert (Hrow : row_request [0x02; 0x62; 0x11; 0x22; 0x33; 0x1F]
                   sample_row row_command).
  { exists 0, day_data. split; [reflexivity|]. split; [lia|].
    split; reflexivity. }
  assert (Hrows : Forall2 (row_request [0x02; 0x62; 0x11; 0x22; 0x33; 0x1F])
                    sample_week (repeat row_command 7))
    by (unfold sample_week; cbn [repeat]; repeat constructor; exact Hrow).
  split.
  - set (s := snd (run_all (map (fun cmd => XExtCrc cmd false)
                              (repeat row_command 7))
                     (emit EvFlushOutput (emit EvFlushInput set_week_replies)))).
    destruct (SetSchedule_outcome cool_thermostat sample_week
                (repeat row_command 7) (repeat ([], false) 7)
                set_week_replies s 0x11 0x22 0x33
                eq_refl Hvalid Hnonnull eq_refl Hrows) as [Hcall _];
      [vm_compute; reflexivity|].
    rewrite Hcall. reflexivity.
  - set (s := snd (run_all (map (fun cmd => XExtCrc cmd false)
                              (repeat row_command 7))
                     (emit EvFlushOutput (emit EvFlushInput (mkSerial [] []))))).
    destruct (SetSchedule_outcome cool_thermostat sample_week
                (repeat row_command 7) (repeat ([], true) 7)
                (mkSerial [] []) s 0x11 0x22 0x33
                eq_refl Hvalid Hnonnull eq_refl Hrows) as [Hcall _];
      [vm_compute; reflexivity|].
    rewrite Hcall. reflexivity.
Defined.

(** The byte [SetOn] sends for a level from 0 to 100 fits a character, is
    the level scaled by 2.55 to within half a unit, and is 0 for the level
    0 only. *)
Lemma SetOn_byte_levels (level : Z) :
  0 <= level <= 100 ->
  0 <= SetOn_byte level <= 255
  /\ Z.abs (100 * SetOn_byte level - 255 * level) <= 50
  /\ (SetOn_byte level =? 0) = (level =? 0).
Proof.
  intros Hlevel.
  pose proof (below_forallb
    (fun z => (0 <=? SetOn_byte z) && (SetOn_byte z <=? 255)
              && (Z.abs (100 * SetOn_byte z - 255 * z) <=? 50)
              && Bool.eqb (SetOn_byte z =? 0) (z =? 0))
    101 ltac:(vm_compute; reflexivity) level ltac:(lia)) as H.
  cbv beta in H.
  apply andb_true_iff in H. destruct H as [H Hzero].
  apply andb_true_iff in H. destruct H as [H Hround].
  apply andb_true_iff in H. destruct H as [Hlo Hhi].
  apply Z.leb_le in Hlo, Hhi, Hround. apply eqb_prop in Hzero.
  repeat split; assumption.
Qed.

(** The intended use of the dimmer, [SetOn] with a level from 0 to 100 and
    then [GetState], both answered well, the second with the very byte the
    first one sent ([int(round(level*2.55))]): the observed level is the
    commanded level and no error is left.  The light is seen on, and
    [manualOverride] stays false, unless the level was 0: then the light is
    seen off against a commanded state of on, and [manualOverride] is
    raised. *)
Theorem SetOn_then_GetState
  (self : dimmer.t) (level : Z) (a0 a1 a2 : Z)
  (echo1 ack1 echo2 ack2 : pystr) (last1 : Z) (lg : list event) :
  dimmer.address self = [a0; a1; a2] ->
  valid_address [a0; a1; a2] ->
  [a0; a1; a2] <> null_address ->
  0 <= level <= 100 ->
  echo_of 9 echo1 -> std_segment ack1 last1 ->
  echo_of 9 echo2 -> std_segment ack2 (SetOn_byte level) ->
  fst (dimmer_calls SetOn_byte self [DSetOn level; DGetState]
         (mkSerial [Data echo1; Data ack1; Data echo2; Data ack2] lg))
  = Some (dimmer.mk [a0; a1; a2] true level
            (negb (level =? 0)) level
            (level =? 0) false (dimmer.verbose self)).
Proof.
  intros Haddr Hvalid Hnonnull Hrange He1 Ha1 He2 Ha2.
  destruct (SetOn_byte_levels level Hrange) as (Hbyte & Hround & Hzero).
  assert (Hlevel : dimmer.level_of_byte (SetOn_byte level) = level).
  { unfold dimmer.level_of_byte. symmetry.
    apply (Z.div_unique_pos _ _ _ (40 * SetOn_byte level + 51 - 102 * level));
      lia. }
  unfold dimmer_calls. cbn [foldM dimmer_call]. unfold bind at 1.
  unfold dimmer.SetOn. rewrite (is_null_of _ _ Haddr Hnonnull).
  unfold bind at 1. unfold flushInput at 1.
  unfold bind at 1. unfold flushOutput at 1.
  unfold bind at 1. rewrite (prefix_of _ _ _ _ _ _ Haddr Hvalid).
  unfold bind at 1. rewrite (chr_byte _ Hbyte). cbn [lift ret app].
  unfold bind at 1. unfold emit. cbn [pending log].
  rewrite (StdCmd_accepts_one _ echo1 ack1 last1)
    by first [reflexivity | assumption].
  rewrite errorReporting_is_localError. cbn [negb]. unfold ret at 1.
  unfold bind at 1.
  set (self1 := dimmer.set_commanded (dimmer.set_errorStatus self false)
                  true level).
  assert (Haddr1 : dimmer.address self1 = [a0; a1; a2]) by exact Haddr.
  unfold dimmer.GetState. rewrite (is_null_of _ _ Haddr1 Hnonnull).
  unfold bind at 1. unfold flushInput at 1.
  unfold bind at 1. unfold flushOutput at 1.
  unfold bind at 1. rewrite (prefix_of _ _ _ _ _ _ Haddr1 Hvalid).
  cbn [app]. unfold bind at 1. unfold emit. cbn [pending log].
  rewrite (StdCmd_accepts_one _ echo2 ack2 (SetOn_byte level))
    by first [reflexivity | assumption].
  rewrite errorReporting_is_localError. cbn [negb].
  destruct Ha2 as (_ & _ & Hlast). unfold bind at 1. rewrite Hlast.
  cbn [lift]. unfold ret at 1.
  unfold dimmer.override_test, self1. cbn [dimmer.set_observed
    dimmer.set_errorStatus dimmer.set_commanded dimmer.lastGetOn
    dimmer.lastSetOn dimmer.lastGetLevel dimmer.lastSetLevel].
  rewrite Hlevel, Z.sub_diag. cbn [Z.abs Z.gtb Z.compare orb].
  rewrite orb_false_r, Hzero.
  destruct (level =? 0); cbn [fst]; rewrite <- Haddr; reflexivity.
Qed.

Lemma SetOn_then_GetState_witness :
  fst (dimmer_calls SetOn_byte hall_dimmer [DSetOn 40; DGetState]
         (mkSerial [Data (level_request ++ [0x06]); Data (std_ack 0);
                    Data (level_request ++ [0x06]);
                    Data (std_ack 102)] []))
  = Some (dimmer.mk [0x11; 0x22; 0x33] true 40 true 40 false false false).
Proof.
  apply (SetOn_then_GetState hall_dimmer 40 0x11 0x22 0x33
           (level_request ++ [0x06]) (std_ack 0) (level_request ++ [0x06])
           (std_ack 102) 0 []).
  - reflexivity.
  - split; [reflexivity | repeat constructor; lia].
  - discriminate.
  - lia.
  - split; reflexivity.
  - repeat split.
  - split; reflexivity.
  - repeat split.
Defined.

(** Inside the calls of the dimmer every exception of a read is caught and
    nothing else raises: provided the writes and the flushes of the port
    succeed (the source leaves them outside its [try] blocks, and a run in
    which one of them raises is not described here), a dimmer built on a
    valid address (the null one included) survives any sequence of calls
    whose levels give a byte that fits a character, whatever the port
    answers to the reads (silence, short or misplaced answers, reads that
    raise): the sequence runs to its end, and the address is never
    changed. *)
Theorem dimmer_calls_survive_any_reads
  (level_byte : Z -> Z) (self : dimmer.t) (ops : list dimmer_op)
  (answers : list read_outcome) (lg : list event) :
  valid_address (dimmer.address self) ->
  Forall (safe_dimmer_op level_byte) ops ->
  exists self' ser',
    dimmer_calls level_byte self ops (mkSerial answers lg) = (Some self', ser')
    /\ dimmer.address self' = dimmer.address self.
Proof.
  intros Hvalid Hsafe. generalize (mkSerial answers lg) as ser.
  revert self Hvalid.
  induction Hsafe as [|op ops Hop _ IH]; intros self Hvalid ser.
  - exists self, ser. split; reflexivity.
  - destruct (dimmer_call_returns level_byte self op ser Hvalid Hop)
      as (self1 & ser1 & Hrun1 & Haddr1).
    rewrite <- Haddr1 in Hvalid.
    destruct (IH self1 Hvalid ser1) as (self' & ser' & Hrun & Haddr).
    exists self', ser'. unfold dimmer_calls in *. cbn [foldM].
    unfold bind at 1. rewrite Hrun1.
    split; [exact Hrun | congruence].
Qed.

Lemma dimmer_calls_survive_any_reads_witness :
  exists self' ser',
    dimmer_calls SetOn_byte hall_dimmer
      [DSetOn 40; DGetState; DSetOff; DGetState]
      (mkSerial [Raises; Data [0x15]; Data (level_request ++ [0x06])] [])
    = (Some self', ser')
    /\ dimmer.address self' = dimmer.address hall_dimmer.
Proof.
  apply (dimmer_calls_survive_any_reads SetOn_byte hall_dimmer).
  - split; [reflexivity | repeat constructor; lia].
  - repeat constructor; try (vm_compute; discriminate).
Defined.

(** Inside the calls of the thermostat every exception of a read is caught
    and nothing else raises: provided the writes and the flushes of the
    port succeed (the source leaves them outside its [try] blocks, and a
    run in which one of them raises is not described here), a thermostat
    built on a valid address survives any sequence of [GetState],
    [UpSetPoint], [DownSetPoint], [GetSchedule], [SetMode] (with any mode)
    and of [SetSchedule] refused for its number of rows, whatever the port
    answers to the reads: the sequence runs to its end, and the address is
    never changed. *)
Theorem thermostat_calls_survive_any_reads
  (self : thermostat.t) (ops : list thermostat_op)
  (answers : list read_outcome) (lg : list event) :
  valid_address (thermostat.address self) ->
  Forall safe_thermostat_op ops ->
  exists self' ser',
    thermostat_calls self ops (mkSerial answers lg) = (Some self', ser')
    /\ thermostat.address self' = thermostat.address self.
Proof.
  intros Hvalid Hsafe. generalize (mkSerial answers lg) as ser.
  revert self Hvalid.
  induction Hsafe as [|op ops Hop _ IH]; intros self Hvalid ser.
  - exists self, ser. split; reflexivity.
  - destruct (thermostat_call_returns self op ser Hvalid Hop)
      as (self1 & ser1 & Hrun1 & Haddr1).
    rewrite <- Haddr1 in Hvalid.
    destruct (IH self1 Hvalid ser1) as (self' & ser' & Hrun & Haddr).
    exists self', ser'. unfold thermostat_calls in *. cbn [foldM].
    unfold bind at 1. rewrite Hrun1.
    split; [exact Hrun | congruence].
Qed.

Lemma thermostat_calls_survive_any_reads_witness :
  exists self' ser',
    thermostat_calls cool_thermostat
      [TGetState; TSetMode 5; TUpSetPoint; TGetSchedule 8 0; TSetMode 11;
       TSetSchedule []; TDownSetPoint]
      (mkSerial [Raises; Data [0x15]; Data (level_request ++ [0x06])] [])
    = (Some self', ser')
    /\ thermostat.address self' = thermostat.address cool_thermostat.
Proof.
  apply (thermostat_calls_survive_any_reads cool_thermostat).
  - split; [reflexivity | repeat constructor; lia].
  - repeat constructor. discriminate.
Defined.
